(** * cli-bank: the account ledger of [main.go]

    A shallow embedding of the JSON-backed variant of the program
    (the first [package main] of [src/main.go]): the [Account] and
    [Transaction] records, the global [bank] map of account pointers, the
    session globals, the console helpers and the ledger operations.

    - [float64] is Rocq's primitive binary64 [float]; equality of balances
      is equality of the stored values.
    - A [*Account] is an index into [heap], the list of allocated account
      objects; [bank : gmap string nat] is the Go map, [currentAccount] is
      [None] for [nil].
    - Console input is the list of lines still to be typed; output is the
      list of texts written so far, one entry per [fmt] call.
    - What the program imports ([crypto/sha256], [encoding/base64],
      [strconv], [strings], the number verbs of [fmt]) is a parameter,
      the record [GoLib]. *)

From Stdlib Require Import Floats Uint63 ZArith QArith String Ascii List Lia.
From stdpp Require Import base option list gmap strings sorting pretty.

Open Scope string_scope.

(** ** Data model *)

(** [time.Time]: an instant, in nanoseconds since Go's zero time. *)
Definition time_Time : Type := Z.

Definition IsZero (t : time_Time) : bool := Z.eqb t 0.

Record Transaction : Type := mkTransaction {
  Time : time_Time;
  Counterparty : string;
  Amount : float;
  ClosingBalance : float;
  Message : string;
  Type_ : string
}.

Record Account : Type := mkAccount {
  FullName : string;
  Username : string;
  Password : string;
  Balance : float;
  LastLogin : time_Time;
  Transactions : list Transaction
}.

Definition set_FullName (v : string) (a : Account) : Account :=
  mkAccount v (Username a) (Password a) (Balance a) (LastLogin a) (Transactions a).

Definition set_Password (v : string) (a : Account) : Account :=
  mkAccount (FullName a) (Username a) v (Balance a) (LastLogin a) (Transactions a).

Definition set_Balance (v : float) (a : Account) : Account :=
  mkAccount (FullName a) (Username a) (Password a) v (LastLogin a) (Transactions a).

Definition set_LastLogin (v : time_Time) (a : Account) : Account :=
  mkAccount (FullName a) (Username a) (Password a) (Balance a) v (Transactions a).

Definition set_Transactions (v : list Transaction) (a : Account) : Account :=
  mkAccount (FullName a) (Username a) (Password a) (Balance a) (LastLogin a) v.

(** The functions of Go's libraries that the program calls. *)
Class GoLib : Type := mkGoLib {
  sha256_Sum : string -> string;
  base64_URLEncoding_EncodeToString : string -> string;
  (** [strconv.ParseFloat(s, 64)]: [None] when it returns an error. *)
  strconv_ParseFloat : string -> option float;
  strings_TrimSpace : string -> string;
  strings_ToLower : string -> string;
  (** the verb [%.2f] of [fmt.Printf] *)
  fmt_f2 : float -> string;
  (** how [fmt.Println] writes a [float64] *)
  fmt_v : float -> string
}.

(** The process: globals, console, clock. *)
Record World : Type := mkWorld {
  heap : list Account;
  bank : gmap string nat;
  currentAccount : option nat;
  previousLastLogin : time_Time;
  stdin : list string;
  stdout : list string;
  (** the readings [time.Now()] will return, and how many were taken *)
  clock : nat -> time_Time;
  ticks : nat
}.

Definition set_heap (h : list Account) (w : World) : World :=
  mkWorld h (bank w) (currentAccount w) (previousLastLogin w)
          (stdin w) (stdout w) (clock w) (ticks w).

Definition set_bank (b : gmap string nat) (w : World) : World :=
  mkWorld (heap w) b (currentAccount w) (previousLastLogin w)
          (stdin w) (stdout w) (clock w) (ticks w).

Definition set_currentAccount (c : option nat) (w : World) : World :=
  mkWorld (heap w) (bank w) c (previousLastLogin w)
          (stdin w) (stdout w) (clock w) (ticks w).

Definition set_previousLastLogin (t : time_Time) (w : World) : World :=
  mkWorld (heap w) (bank w) (currentAccount w) t
          (stdin w) (stdout w) (clock w) (ticks w).

Definition set_stdin (i : list string) (w : World) : World :=
  mkWorld (heap w) (bank w) (currentAccount w) (previousLastLogin w)
          i (stdout w) (clock w) (ticks w).

Definition set_stdout (o : list string) (w : World) : World :=
  mkWorld (heap w) (bank w) (currentAccount w) (previousLastLogin w)
          (stdin w) o (clock w) (ticks w).

Definition set_ticks (n : nat) (w : World) : World :=
  mkWorld (heap w) (bank w) (currentAccount w) (previousLastLogin w)
          (stdin w) (stdout w) (clock w) n.

(** The world [w] after console traffic only: input left [i], output [o]. *)
Definition console (i o : list string) (w : World) : World :=
  mkWorld (heap w) (bank w) (currentAccount w) (previousLastLogin w)
          i o (clock w) (ticks w).

(** ** Outcomes and sequencing *)

(** A call returns ([Ok]), panics, or never returns ([Hang]: [readString]
    spinning on an exhausted input). Each outcome carries the world it
    leaves. *)
Inductive Result (A : Type) : Type :=
| Ok (a : A) (w : World)
| Panic (msg : string) (w : World)
| Hang (w : World).

Arguments Ok {A} a w.
Arguments Panic {A} msg w.
Arguments Hang {A} w.

Definition M (A : Type) : Type := World -> Result A.

Definition ret {A : Type} (a : A) : M A := fun w => Ok a w.

Definition bind {A B : Type} (c : M A) (k : A -> M B) : M B :=
  fun w =>
    match c w with
    | Ok a w' => k a w'
    | Panic msg w' => Panic msg w'
    | Hang w' => Hang w'
    end.

Notation "x <- c ;; k" := (bind c (fun x => k))
  (at level 100, c at next level, right associativity).
Notation "c ;;; k" := (bind c (fun _ => k))
  (at level 100, k at level 100, right associativity).

Definition final {A : Type} (r : Result A) : World :=
  match r with
  | Ok _ w => w
  | Panic _ w => w
  | Hang w => w
  end.

Definition panic {A : Type} (msg : string) : M A := fun w => Panic msg w.

Definition nil_dereference : string :=
  "invalid memory address or nil pointer dereference".

(** [*p]: reading through an account pointer. *)
Definition load (p : option nat) : M Account :=
  fun w =>
    match p with
    | None => Panic nil_dereference w
    | Some l =>
        match heap w !! l with
        | Some a => Ok a w
        | None => Panic nil_dereference w
        end
    end.

(** [p.field = v], as an update [f] of the object [p] points to. *)
Definition store (p : option nat) (f : Account -> Account) : M unit :=
  a <- load p ;;
  fun w =>
    match p with
    | Some l => Ok tt (set_heap (<[l := f a]> (heap w)) w)
    | None => Panic nil_dereference w
    end.

(** [&Account{...}] *)
Definition new_Account (a : Account) : M (option nat) :=
  fun w => Ok (Some (length (heap w))) (set_heap (heap w ++ [a]) w).

Definition fmt_Print (s : string) : M unit :=
  fun w => Ok tt (set_stdout (stdout w ++ [s]) w).

Definition newline : string := String (ascii_of_nat 10) EmptyString.

(** What [fmt.Println(s)] writes. *)
Definition ln (s : string) : string := s ++ newline.

Definition fmt_Println (s : string) : M unit :=
  fun w => Ok tt (set_stdout (stdout w ++ [ln s]) w).

Definition time_Now : M time_Time :=
  fun w => Ok (clock w (ticks w)) (set_ticks (S (ticks w)) w).

Definition get_bank (k : string) : M (option nat) :=
  fun w => Ok (bank w !! k) w.

Definition get_currentAccount : M (option nat) :=
  fun w => Ok (currentAccount w) w.

(** Go's [error]: [None] is [nil]. *)
Definition error : Type := option string.

Section Program.

Context {L : GoLib}.

(** ** Console helpers *)

(** [readString]: one turn of the loop per line typed; a line that is
    empty once trimmed is reported and the prompt is shown again. At the
    end of the input [ReadString] returns an error on every turn. *)
Fixpoint readString_loop (message : string) (lines : list string) : M string :=
  match lines with
  | [] => fmt_Print message ;;; (fun w => Hang w)
  | line :: rest =>
      fmt_Print message ;;;
      (fun w => Ok tt (set_stdin rest w)) ;;;
      let input := strings_TrimSpace line in
      if String.eqb input "" then
        fmt_Println "ERROR: invalid input" ;;;
        readString_loop message rest
      else ret input
  end.

Definition readString (message : string) : M string :=
  fun w => readString_loop message (stdin w) w.

Definition readYesNo (message : string) : M bool :=
  fmt_Print (message ++ "[y/N] ") ;;;
  fun w =>
    match stdin w with
    | [] => Hang w
    | line :: rest =>
        let input := strings_TrimSpace line in
        let input := strings_ToLower input in
        Ok (String.eqb input "y") (set_stdin rest w)
    end.

(** [readAmount]: every turn of the loop reads at least one line, so
    [fuel] above the number of lines left is never used up. *)
Fixpoint readAmount_loop (fuel : nat) : M float :=
  match fuel with
  | O => fun w => Hang w
  | S fuel' =>
      input <- readString "Enter amount: " ;;
      match strconv_ParseFloat input with
      | None =>
          fmt_Println "ERROR: invalid input, enter a valid number" ;;;
          readAmount_loop fuel'
      | Some amount =>
          if PrimFloat.leb amount 0 then
            fmt_Println "ERROR: invalid input, amount should be greater than 0" ;;;
            readAmount_loop fuel'
          else ret amount
      end
  end.

Definition readAmount : M float :=
  fun w => readAmount_loop (S (length (stdin w))) w.

Definition hash (s : string) : string :=
  base64_URLEncoding_EncodeToString (sha256_Sum s).

(** ** Session *)

(** The password loop of [login]: [None] when it leaves by [break],
    [Some err] when the function returns from inside it. *)
Fixpoint login_loop (fuel : nat) (account : option nat)
    (incorrectPasswordCount : nat) : M error :=
  match fuel with
  | O => fun w => Hang w
  | S fuel' =>
      password <- readString "Enter password: " ;;
      a <- load account ;;
      if negb (String.eqb (hash password) (Password a)) then
        if Nat.ltb incorrectPasswordCount 3 then
          fmt_Println "Incorrect Password" ;;;
          login_loop fuel' account (S incorrectPasswordCount)
        else ret (Some "exceeded maximum number of login attempts")
      else ret None
  end.

Definition login : M error :=
  username <- readString "Enter username: " ;;
  ok <- get_bank username ;;
  match ok with
  | None => ret (Some "user not found")
  | Some l =>
      let account := Some l in
      r <- (fun w => login_loop (S (length (stdin w))) account 0 w) ;;
      match r with
      | Some err => ret (Some err)
      | None =>
          a <- load account ;;
          (fun w => Ok tt (set_previousLastLogin (LastLogin a) w)) ;;;
          now <- time_Now ;;
          store account (set_LastLogin now) ;;;
          (fun w => Ok tt (set_currentAccount account w)) ;;;
          a <- load account ;;
          fmt_Println ("Hi,  " ++ FullName a) ;;;
          ret None
      end
  end.

(** ** Account creation *)

Definition joining_bonus : float := 1000%float.

Fixpoint createAccount_loop (fuel : nat) : M string :=
  match fuel with
  | O => fun w => Hang w
  | S fuel' =>
      p1 <- readString "Enter new password: " ;;
      p2 <- readString "Renter password: " ;;
      if String.eqb p1 p2 then ret p1
      else
        fmt_Println "ERROR: passwords do not match" ;;;
        createAccount_loop fuel'
  end.

Definition createAccount : M unit :=
  username <- readString "Enter username: " ;;
  ok <- get_bank username ;;
  match ok with
  | Some _ => fmt_Println "ERROR: account already taken"
  | None =>
      account <- new_Account (mkAccount "" username "" joining_bonus 0%Z []) ;;
      fullName <- readString "Enter your full name: " ;;
      store account (set_FullName fullName) ;;;
      p1 <- (fun w => createAccount_loop (S (length (stdin w))) w) ;;
      store account (set_Password (hash p1)) ;;;
      (fun w =>
         match account with
         | Some l => Ok tt (set_bank (<[username := l]> (bank w)) w)
         | None => Panic nil_dereference w
         end) ;;;
      fmt_Println "Account created successfully"
  end.

(** ** Ledger operations *)

Definition depositCash : M unit :=
  amount <- readAmount ;;
  cur <- get_currentAccount ;;
  store cur (fun a => set_Balance (PrimFloat.add (Balance a) amount) a) ;;;
  now <- time_Now ;;
  a <- load cur ;;
  store cur (set_Transactions
    (mkTransaction now "" amount (Balance a) "credited via cash deposit" "C"
       :: Transactions a)) ;;;
  fmt_Print (ln (fmt_f2 amount ++ " successfully deposited to your account")) ;;;
  a <- load cur ;;
  fmt_Println ("Closing balance:  " ++ fmt_v (Balance a)).

Definition withdrawCash : M unit :=
  amount <- readAmount ;;
  cur <- get_currentAccount ;;
  store cur (fun a => set_Balance (PrimFloat.sub (Balance a) amount) a) ;;;
  now <- time_Now ;;
  a <- load cur ;;
  store cur (set_Transactions
    (mkTransaction now "" amount (Balance a) "debited via cash withdrawal" "D"
       :: Transactions a)) ;;;
  fmt_Print (ln (fmt_f2 amount ++ " successfully withdrawn from your account")) ;;;
  a <- load cur ;;
  fmt_Println ("Closing balance:  " ++ fmt_v (Balance a)).

(** [transferMoney] from its check of the amount on: what it does once
    [receiver] is looked up and [amount] is read. *)
Definition transferMoney_checked (receiver : option nat) (amount : float) : M unit :=
  if PrimFloat.ltb amount 0 then
    fmt_Println "ERROR: sending amount should be positive"
  else
    cur <- get_currentAccount ;;
    a <- load cur ;;
    if PrimFloat.ltb (Balance a) amount then
      fmt_Println "ERROR: insufficient funds"
    else
      currentTime <- time_Now ;;
      store cur (fun a => set_Balance (PrimFloat.sub (Balance a) amount) a) ;;;
      store receiver (fun a => set_Balance (PrimFloat.add (Balance a) amount) a) ;;;
      rcv <- load receiver ;;
      a <- load cur ;;
      store cur (set_Transactions
        (mkTransaction currentTime (Username rcv) amount (Balance a)
           ("transferred to " ++ Username rcv) "D" :: Transactions a)) ;;;
      a <- load cur ;;
      rcv <- load receiver ;;
      store receiver (set_Transactions
        (mkTransaction currentTime (Username a) amount (Balance rcv)
           ("received from " ++ Username a) "C" :: Transactions rcv)) ;;;
      rcv <- load receiver ;;
      fmt_Print (ln (fmt_f2 amount ++ " successfully sent to " ++ Username rcv)) ;;;
      a <- load cur ;;
      fmt_Println ("Closing balance:  " ++ fmt_v (Balance a)).

Definition transferMoney : M unit :=
  r <- readString "Enter receiver's username:" ;;
  ok <- get_bank r ;;
  match ok with
  | None => fmt_Println "ERROR: receiver not found"
  | Some l =>
      let receiver := Some l in
      amount <- readAmount ;;
      transferMoney_checked receiver amount
  end.

Definition deleteAccount : M bool :=
  yes1 <- readYesNo "Do you want to delete your account?: " ;;
  if negb yes1 then ret false
  else
    yes2 <- readYesNo "Are you sure you want to delete your account?: " ;;
    if negb yes2 then ret false
    else
      cur <- get_currentAccount ;;
      a <- load cur ;;
      (fun w => Ok tt (set_bank (delete (Username a) (bank w)) w)) ;;;
      ret true.

(** ** Commands of the menus *)

Inductive Command : Type :=
| CreateAccount
| Login
| DepositCash
| WithdrawCash
| TransferMoney
| DeleteAccount.

(** The world a command leaves, however it ends. *)
Definition execute (c : Command) (w : World) : World :=
  match c with
  | CreateAccount => final (createAccount w)
  | Login => final (login w)
  | DepositCash => final (depositCash w)
  | WithdrawCash => final (withdrawCash w)
  | TransferMoney => final (transferMoney w)
  | DeleteAccount => final (deleteAccount w)
  end.

Definition execute_all (cs : list Command) (w : World) : World :=
  fold_left (fun w c => execute c w) cs w.

(** Deposits and withdrawals, one after the other. *)
Inductive LedgerOp : Type :=
| Deposit
| Withdraw.

Definition perform (op : LedgerOp) : M unit :=
  match op with
  | Deposit => depositCash
  | Withdraw => withdrawCash
  end.

Fixpoint perform_all (ops : list LedgerOp) : M unit :=
  match ops with
  | [] => ret tt
  | op :: ops' => perform op ;;; perform_all ops'
  end.

End Program.

(** The balance after one deposit or withdrawal of [amount]. *)
Definition apply_amount (b : float) (step : LedgerOp * float) : float :=
  match fst step with
  | Deposit => PrimFloat.add b (snd step)
  | Withdraw => PrimFloat.sub b (snd step)
  end.

Definition sum_amounts (l : list float) : float :=
  fold_left PrimFloat.add l 0%float.

Definition amounts_of (op : LedgerOp) (steps : list (LedgerOp * float)) : list float :=
  map snd (List.filter (fun s => match fst s, op with
                                 | Deposit, Deposit | Withdraw, Withdraw => true
                                 | _, _ => false
                                 end) steps).

(** The joining bonus plus the sum of the deposits minus the sum of the
    withdrawals, each sum taken on its own. *)
Definition grouped_balance (steps : list (LedgerOp * float)) : float :=
  PrimFloat.sub
    (PrimFloat.add 1000%float (sum_amounts (amounts_of Deposit steps)))
    (sum_amounts (amounts_of Withdraw steps)).

(** The number a finite [float64] stands for. *)
Definition exact (f : float) : option Q :=
  match Prim2SF f with
  | SpecFloat.S754_zero _ => Some 0%Q
  | SpecFloat.S754_finite s m e =>
      Some (Qmult (inject_Z (if s then Z.neg m else Z.pos m)) (Qpower 2 e))
  | _ => None
  end.

(** ** What the operations leave behind

    The account [a] after each ledger operation, as the statements of
    the operation build it. *)

Definition deposited (t : time_Time) (amount : float) (a : Account) : Account :=
  let b := PrimFloat.add (Balance a) amount in
  set_Transactions
    (mkTransaction t "" amount b "credited via cash deposit" "C" :: Transactions a)
    (set_Balance b a).

Definition withdrawn (t : time_Time) (amount : float) (a : Account) : Account :=
  let b := PrimFloat.sub (Balance a) amount in
  set_Transactions
    (mkTransaction t "" amount b "debited via cash withdrawal" "D" :: Transactions a)
    (set_Balance b a).

(** The debit and the credit record of a transfer at time [t]. *)
Definition debit_record (t : time_Time) (to : string) (amount closing : float)
  : Transaction :=
  mkTransaction t to amount closing ("transferred to " ++ to) "D".

Definition credit_record (t : time_Time) (from : string) (amount closing : float)
  : Transaction :=
  mkTransaction t from amount closing ("received from " ++ from) "C".

(** The sender, when the receiver is another account. *)
Definition debited (t : time_Time) (to : string) (amount : float) (a : Account)
  : Account :=
  let b := PrimFloat.sub (Balance a) amount in
  set_Transactions (debit_record t to amount b :: Transactions a) (set_Balance b a).

(** The receiver, when the sender is another account. *)
Definition credited (t : time_Time) (from : string) (amount : float) (a : Account)
  : Account :=
  let b := PrimFloat.add (Balance a) amount in
  set_Transactions (credit_record t from amount b :: Transactions a) (set_Balance b a).

(** The account that sends to itself: both updates of the balance come
    before both records. *)
Definition self_transferred (t : time_Time) (amount : float) (a : Account)
  : Account :=
  let b := PrimFloat.add (PrimFloat.sub (Balance a) amount) amount in
  set_Transactions
    (credit_record t (Username a) amount b
       :: debit_record t (Username a) amount b :: Transactions a)
    (set_Balance b a).

(** The heap after a transfer from the object at [ls] to the object at [lr]. *)
Definition transferred (t : time_Time) (amount : float) (ls lr : nat)
    (snd rcv : Account) (h : list Account) : list Account :=
  if Nat.eqb ls lr then <[ls := self_transferred t amount snd]> h
  else <[lr := credited t (Username snd) amount rcv]>
         (<[ls := debited t (Username rcv) amount snd]> h).

(** The sender's balance once the transfer is made. *)
Definition sender_balance (amount : float) (ls lr : nat) (snd : Account) : float :=
  if Nat.eqb ls lr then PrimFloat.add (PrimFloat.sub (Balance snd) amount) amount
  else PrimFloat.sub (Balance snd) amount.

(** ** Console scripts *)

(** A line that [readString] returns: not blank once trimmed. *)
Definition typed {L : GoLib} (line : string) : Prop :=
  String.eqb (strings_TrimSpace line) "" = false.

(** A line that [strconv.ParseFloat] reads as [amount]. *)
Definition enters {L : GoLib} (line : string) (amount : float) : Prop :=
  typed line /\ strconv_ParseFloat (strings_TrimSpace line) = Some amount.

(** A line that [readAmount] returns as the amount of a step. *)
Definition accepted {L : GoLib} (line : string) (step : LedgerOp * float) : Prop :=
  enters line (snd step) /\ PrimFloat.leb (snd step) 0 = false.

(** Two lines typed for a new password that do not agree. *)
Definition mismatch {L : GoLib} (p : string * string) : Prop :=
  typed (fst p) /\ typed (snd p)
  /\ String.eqb (strings_TrimSpace (fst p)) (strings_TrimSpace (snd p)) = false.

Definition flat (pairs : list (string * string)) : list string :=
  concat (map (fun p => [fst p; snd p]) pairs).

(** What [createAccount] writes for [n] pairs that do not agree. *)
Definition mismatch_output (n : nat) : list string :=
  concat (replicate n ["Enter new password: "; "Renter password: ";
                       ln "ERROR: passwords do not match"]).

(** A line that is not the password of [a]. *)
Definition wrong_password {L : GoLib} (a : Account) (line : string) : Prop :=
  typed line /\ String.eqb (hash (strings_TrimSpace line)) (Password a) = false.

Definition right_password {L : GoLib} (a : Account) (line : string) : Prop :=
  typed line /\ String.eqb (hash (strings_TrimSpace line)) (Password a) = true.

(** What [login] writes for [n] wrong passwords that it tolerates. *)
Definition incorrect_output (n : nat) : list string :=
  concat (replicate n ["Enter password: "; ln "Incorrect Password"]).

(** ** Properties of the ledger *)

(** The balance of an account is the closing balance of its most recent
    transaction; [empty] is what an account without transactions holds. *)
Definition balance_matches (empty : float) (a : Account) : Prop :=
  Balance a = match Transactions a with
              | [] => empty
              | t :: _ => ClosingBalance t
              end.

Definition ledger_consistent (empty : float) (h : list Account) : Prop :=
  forall l a, h !! l = Some a -> balance_matches empty a.

(** The account filed under [k]. *)
Definition account_at (w : World) (k : string) : option Account :=
  match bank w !! k with
  | Some l => heap w !! l
  | None => None
  end.

(** Every pointer held by [bank] is allocated. *)
Definition pointers_valid (w : World) : Prop :=
  forall k l, bank w !! k = Some l -> l < length (heap w).

(** The store: the accounts and the map that files them. *)
Definition same_store (w w' : World) : Prop :=
  heap w' = heap w /\ bank w' = bank w /\ currentAccount w' = currentAccount w.

(** The checks of [transferMoney] pass in [w]: the receiver is filed, an
    amount is read, the session account's balance is not below it. *)
Definition transfer_validated {L : GoLib} (w : World) : Prop :=
  exists r w1 lr amount w2 ls snd,
    readString "Enter receiver's username:" w = Ok r w1
    /\ bank w !! r = Some lr
    /\ readAmount w1 = Ok amount w2
    /\ PrimFloat.leb amount 0 = false
    /\ currentAccount w = Some ls
    /\ heap w !! ls = Some snd
    /\ PrimFloat.ltb (Balance snd) amount = false.

(** [h'] is [h] after one transfer: a debit and a credit record made
    together. *)
Definition pair_recorded (h h' : list Account) : Prop :=
  exists t amount ls lr snd rcv,
    h !! ls = Some snd /\ h !! lr = Some rcv
    /\ h' = transferred t amount ls lr snd rcv h.

(** The number of transaction records in the heap. *)
Definition records (h : list Account) : nat :=
  list_sum (map (fun a => length (Transactions a)) h).

(** ** Persistence

    [db.json] holds a JSON document, or nothing. The text of the document
    is not modelled: [encoding/json] is taken at the level of the values it
    writes and reads (a number is read back as the [float64] it was
    written from; the members of an object come in the order written). *)

#[warnings="-register-all"]
Inductive Json : Type :=
| JNull
| JNumber (f : float)
| JString (s : string)
| JArray (items : list Json)
| JObject (members : list (string * Json)).

(** What else of Go's libraries the program calls to save, load and
    show accounts. *)
Class GoJSON : Type := mkGoJSON {
  (** a string as [encoding/json] reads it back after writing it: every
      byte that is not part of valid UTF-8 comes back as U+FFFD *)
  json_string : string -> string;
  (** [time.Time.MarshalJSON]: the RFC 3339 text, or the text of the
      error (a year outside 0..9999) *)
  time_MarshalJSON : time_Time -> string + string;
  time_UnmarshalJSON : string -> option time_Time;
  (** the text of the error of [Decode] on a document that is not the
      JSON of a bank *)
  json_error : Json -> string;
  (** how [fmt.Println] writes a [Transaction] *)
  fmt_Transaction : Transaction -> string;
  (** [t.Format("2006-01-02 15:04:05")] *)
  time_Format : time_Time -> string
}.

Record Disk : Type := mkDisk {
  (** the document in [db.json]; [None] when the file is empty or absent *)
  db_json : option Json;
  (** whether [db.json.lock] exists *)
  db_json_lock : bool
}.

(** The process and the files it works on. The handle [db] is the one
    [loadData] opens: [saveData] runs after it, and once. *)
Record Process : Type := mkProcess {
  world : World;
  disk : Disk
}.

Inductive Run : Type :=
| Continues (p : Process)
| Panics (msg : string) (p : Process)
| Exits (code : Z) (p : Process)
| Hangs (p : Process).

Definition process_of (r : Run) : Process :=
  match r with
  | Continues p => p
  | Panics _ p => p
  | Exits _ p => p
  | Hangs p => p
  end.

(** A function of the program on the world, run in the process. *)
Definition lift {A : Type} (c : M A) (p : Process) (k : A -> Process -> Run) : Run :=
  match c (world p) with
  | Ok a w => k a (mkProcess w (disk p))
  | Panic msg w => Panics msg (mkProcess w (disk p))
  | Hang w => Hangs (mkProcess w (disk p))
  end.

Fixpoint map_option {A B : Type} (f : A -> option B) (l : list A) : option (list B) :=
  match l with
  | [] => Some []
  | x :: l' =>
      match f x, map_option f l' with
      | Some y, Some ys => Some (y :: ys)
      | _, _ => None
      end
  end.

(** The members are encoded in order; the first error ends the encoding. *)
Fixpoint map_error {A B : Type} (f : A -> B + string) (l : list A) : list B + string :=
  match l with
  | [] => inl []
  | x :: l' =>
      match f x with
      | inl y =>
          match map_error f l' with
          | inl ys => inl (y :: ys)
          | inr e => inr e
          end
      | inr e => inr e
      end
  end.

Definition key_le (p q : string * nat) : Prop := String.leb (fst p) (fst q) = true.

#[global] Instance key_le_dec (p q : string * nat) : Decision (key_le p q).
Proof. unfold key_le. apply _. Defined.

Section Persistence.

Context {L : GoLib} {J : GoJSON}.

(** *** Writing: [json.MarshalIndent(bank, ...)] *)

Definition marshal_float (f : float) : Json + string :=
  if PrimFloat.is_nan f || PrimFloat.is_infinity f
  then inr ("json: unsupported value: " ++ fmt_v f)
  else inl (JNumber f).

Definition marshal_time (t : time_Time) : Json + string :=
  match time_MarshalJSON t with
  | inl s => inl (JString s)
  | inr e => inr e
  end.

Definition marshal_Transaction (t : Transaction) : Json + string :=
  match marshal_time (Time t) with
  | inr e => inr e
  | inl tm =>
      match marshal_float (Amount t) with
      | inr e => inr e
      | inl am =>
          match marshal_float (ClosingBalance t) with
          | inr e => inr e
          | inl cb =>
              inl (JObject [("time", tm);
                            ("counterparty", JString (json_string (Counterparty t)));
                            ("amount", am);
                            ("closingBalance", cb);
                            ("message", JString (json_string (Message t)));
                            ("type", JString (json_string (Type_ t)))])
          end
      end
  end.

(** A slice without elements is the [nil] slice here, written [null]. *)
Definition marshal_Transactions (l : list Transaction) : Json + string :=
  match l with
  | [] => inl JNull
  | _ =>
      match map_error marshal_Transaction l with
      | inl items => inl (JArray items)
      | inr e => inr e
      end
  end.

Definition marshal_Account (a : Account) : Json + string :=
  match marshal_float (Balance a) with
  | inr e => inr e
  | inl b =>
      match marshal_time (LastLogin a) with
      | inr e => inr e
      | inl ll =>
          match marshal_Transactions (Transactions a) with
          | inr e => inr e
          | inl txs =>
              inl (JObject [("fullName", JString (json_string (FullName a)));
                            ("username", JString (json_string (Username a)));
                            ("password", JString (json_string (Password a)));
                            ("balance", b);
                            ("lastLogin", ll);
                            ("transactions", txs)])
          end
      end
  end.

(** The entries of the map, sorted by key as [encoding/json] writes them. *)
Definition sorted_entries (w : World) : list (string * nat) :=
  merge_sort key_le (map_to_list (bank w)).

Definition marshal_entry (w : World) (e : string * nat) : (string * Json) + string :=
  match heap w !! snd e with
  | None => inl (json_string (fst e), JNull)
  | Some a =>
      match marshal_Account a with
      | inl v => inl (json_string (fst e), v)
      | inr err => inr err
      end
  end.

Definition json_MarshalIndent (w : World) : Json + string :=
  match map_error (marshal_entry w) (sorted_entries w) with
  | inl members => inl (JObject members)
  | inr e => inr e
  end.

(** *** Reading: [decode.Decode(&bank)]

    The members of an object are taken in order, each one setting the
    field of its name; a member of another name is passed over, and
    [null] leaves a field as it is. A document of another shape is an
    error ([None]); what the decoder has stored by then is not modelled.
    The reading modelled is that of the documents [saveData] writes: names
    of members are compared as they are written ([encoding/json] also takes
    a name that differs in case only), and the document [null] leaves
    the bank as it is (in Go it becomes the [nil] map). *)

Definition decode_string (v : Json) (old : string) : option string :=
  match v with
  | JNull => Some old
  | JString s => Some s
  | _ => None
  end.

Definition decode_float (v : Json) (old : float) : option float :=
  match v with
  | JNull => Some old
  | JNumber f => Some f
  | _ => None
  end.

Definition decode_time (v : Json) (old : time_Time) : option time_Time :=
  match v with
  | JNull => Some old
  | JString s => time_UnmarshalJSON s
  | _ => None
  end.

Definition zero_Transaction : Transaction :=
  mkTransaction 0%Z "" 0%float 0%float "" "".

Definition zero_Account : Account :=
  mkAccount "" "" "" 0%float 0%Z [].

Definition decode_Transaction_member (acc : option Transaction) (m : string * Json)
  : option Transaction :=
  match acc with
  | None => None
  | Some t =>
      let name := fst m in
      let v := snd m in
      if String.eqb name "time" then
        option_map (fun x => mkTransaction x (Counterparty t) (Amount t)
                               (ClosingBalance t) (Message t) (Type_ t))
          (decode_time v (Time t))
      else if String.eqb name "counterparty" then
        option_map (fun x => mkTransaction (Time t) x (Amount t)
                               (ClosingBalance t) (Message t) (Type_ t))
          (decode_string v (Counterparty t))
      else if String.eqb name "amount" then
        option_map (fun x => mkTransaction (Time t) (Counterparty t) x
                               (ClosingBalance t) (Message t) (Type_ t))
          (decode_float v (Amount t))
      else if String.eqb name "closingBalance" then
        option_map (fun x => mkTransaction (Time t) (Counterparty t) (Amount t)
                               x (Message t) (Type_ t))
          (decode_float v (ClosingBalance t))
      else if String.eqb name "message" then
        option_map (fun x => mkTransaction (Time t) (Counterparty t) (Amount t)
                               (ClosingBalance t) x (Type_ t))
          (decode_string v (Message t))
      else if String.eqb name "type" then
        option_map (fun x => mkTransaction (Time t) (Counterparty t) (Amount t)
                               (ClosingBalance t) (Message t) x)
          (decode_string v (Type_ t))
      else Some t
  end.

Definition decode_Transaction (v : Json) : option Transaction :=
  match v with
  | JObject members => fold_left decode_Transaction_member members (Some zero_Transaction)
  | _ => None
  end.

Definition decode_Transactions (v : Json) (old : list Transaction)
  : option (list Transaction) :=
  match v with
  | JNull => Some old
  | JArray items => map_option decode_Transaction items
  | _ => None
  end.

Definition decode_Account_member (acc : option Account) (m : string * Json)
  : option Account :=
  match acc with
  | None => None
  | Some a =>
      let name := fst m in
      let v := snd m in
      if String.eqb name "fullName" then
        option_map (fun x => set_FullName x a) (decode_string v (FullName a))
      else if String.eqb name "username" then
        option_map (fun x => mkAccount (FullName a) x (Password a) (Balance a)
                               (LastLogin a) (Transactions a))
          (decode_string v (Username a))
      else if String.eqb name "password" then
        option_map (fun x => set_Password x a) (decode_string v (Password a))
      else if String.eqb name "balance" then
        option_map (fun x => set_Balance x a) (decode_float v (Balance a))
      else if String.eqb name "lastLogin" then
        option_map (fun x => set_LastLogin x a) (decode_time v (LastLogin a))
      else if String.eqb name "transactions" then
        option_map (fun x => set_Transactions x a)
          (decode_Transactions v (Transactions a))
      else Some a
  end.

Definition decode_Account (v : Json) : option Account :=
  match v with
  | JObject members => fold_left decode_Account_member members (Some zero_Account)
  | _ => None
  end.

Definition decode_entry (m : string * Json) : option (string * Account) :=
  option_map (fun a => (fst m, a)) (decode_Account (snd m)).

Definition json_Decode (doc : Json) : option (list (string * Account)) :=
  match doc with
  | JNull => Some []
  | JObject members => map_option decode_entry members
  | _ => None
  end.

(** The decoder makes a new object for every member and files it under
    the member's name. *)
Definition store_entries (es : list (string * Account)) (w : World) : World :=
  fold_left
    (fun w e => set_bank (<[fst e := length (heap w)]> (bank w))
                  (set_heap (heap w ++ [snd e]) w))
    es w.

(** *** [loadData] and [saveData] *)

Definition lock_present : string :=
  "database lock present, maybe an instance is already running?".

Definition set_world (w : World) (p : Process) : Process := mkProcess w (disk p).

Definition println (s : string) (p : Process) : Process :=
  set_world (set_stdout (stdout (world p) ++ [ln s]) (world p)) p.

Definition loadData (p : Process) : Run :=
  if db_json_lock (disk p) then Panics lock_present p
  else
    let p := mkProcess (world p) (mkDisk (db_json (disk p)) true) in
    match db_json (disk p) with
    | None => Continues (println "error while decoding json EOF" p)
    | Some doc =>
        match json_Decode doc with
        | Some es => Continues (set_world (store_entries es (world p)) p)
        | None => Continues (println ("error while decoding json " ++ json_error doc) p)
        end
    end.

Definition saveData (p : Process) : Run :=
  match json_MarshalIndent (world p) with
  | inr err => Panics err (println err p)
  | inl data => Continues (mkProcess (world p) (mkDisk (Some data) false))
  end.

(** The accounts that the entries [es] of the bank point to. *)
Definition pointed (w : World) (es : list (string * nat))
    (accts : list (string * Account)) : Prop :=
  Forall2 (fun e ka => fst ka = fst e /\ heap w !! snd e = Some (snd ka)) es accts.

(** *** What [saveData] can write and [loadData] read back *)

Definition string_ok (s : string) : bool := String.eqb (json_string s) s.

Definition time_ok (t : time_Time) : bool :=
  match time_MarshalJSON t with
  | inl s =>
      match time_UnmarshalJSON s with
      | Some t' => Z.eqb t' t
      | None => false
      end
  | inr _ => false
  end.

Definition storable_Transaction (t : Transaction) : bool :=
  time_ok (Time t) && string_ok (Counterparty t)
  && PrimFloat.is_finite (Amount t) && PrimFloat.is_finite (ClosingBalance t)
  && string_ok (Message t) && string_ok (Type_ t).

Definition storable_Account (a : Account) : bool :=
  string_ok (FullName a) && string_ok (Username a) && string_ok (Password a)
  && PrimFloat.is_finite (Balance a) && time_ok (LastLogin a)
  && forallb storable_Transaction (Transactions a).

End Persistence.

(** Every number of the account, its balance and the amounts and closing
    balances of its history, is finite. *)
Definition numbers_finite (a : Account) : bool :=
  PrimFloat.is_finite (Balance a)
  && forallb (fun t => PrimFloat.is_finite (Amount t)
                       && PrimFloat.is_finite (ClosingBalance t))
       (Transactions a).

(** ** Showing an account, and the menus *)

Definition index_out_of_range : string := "index out of range".

Section Menus.

Context {L : GoLib} {J : GoJSON}.

Fixpoint printSelectMenu_loop (i : nat) (options : list string) : M unit :=
  match options with
  | [] => ret tt
  | option :: rest =>
      fmt_Print (ln ("  " ++ pretty (i + 1) ++ ". " ++ option)) ;;;
      printSelectMenu_loop (S i) rest
  end.

Definition printSelectMenu (options : list string) : M unit :=
  fmt_Println "Select:" ;;;
  printSelectMenu_loop 0 options.

(** The loop of [listTransactions] from index [i]; [n] bounds the number
    of turns left, [end_ - i] at most. *)
Fixpoint listTransactions_loop (n : nat) (i end_ : Z)
    (transactions : list Transaction) : M unit :=
  match n with
  | O => ret tt
  | S n' =>
      if (i <? end_)%Z then
        if (i =? Z.of_nat (length transactions))%Z then ret tt
        else if (i <? 0)%Z then panic index_out_of_range
        else
          match transactions !! Z.to_nat i with
          | Some t =>
              fmt_Println (fmt_Transaction t) ;;;
              listTransactions_loop n' (i + 1)%Z end_ transactions
          | None => panic index_out_of_range
          end
      else ret tt
  end.

Definition listTransactions (start end_ : Z) : M unit :=
  cur <- get_currentAccount ;;
  a <- load cur ;;
  let transactions := Transactions a in
  let l := Z.of_nat (length transactions) in
  let end_ := if (end_ =? 0)%Z then l else end_ in
  listTransactions_loop (Z.to_nat (end_ - start)) start end_ transactions.

Definition checkAccountInfo : M unit :=
  cur <- get_currentAccount ;;
  a <- load cur ;;
  fmt_Println ("Name:  " ++ FullName a) ;;;
  fmt_Println ("Username:  " ++ Username a) ;;;
  fmt_Println ("Current account balance:  " ++ fmt_v (Balance a)) ;;;
  prev <- (fun w => Ok (previousLastLogin w) w) ;;
  (if negb (IsZero prev)
   then fmt_Println ("Last login:  " ++ time_Format prev)
   else ret tt) ;;;
  fmt_Println "Last 5 transactions: " ;;;
  listTransactions 0 5.

Definition account_menu : list string :=
  ["Check account info"; "List all transactions"; "Deposit cash";
   "Withdraw cash"; "Transfer money"; "Delete account"; "Logout"].

(** The loop of [accountLoop]: every turn reads a line. *)
Fixpoint accountLoop_loop (fuel : nat) : M unit :=
  match fuel with
  | O => fun w => Hang w
  | S fuel' =>
      cur <- get_currentAccount ;;
      a <- load cur ;;
      input <- readString (Username a ++ "> ") ;;
      if String.eqb input "1" then checkAccountInfo ;;; accountLoop_loop fuel'
      else if String.eqb input "2" then listTransactions 0 0 ;;; accountLoop_loop fuel'
      else if String.eqb input "3" then depositCash ;;; accountLoop_loop fuel'
      else if String.eqb input "4" then withdrawCash ;;; accountLoop_loop fuel'
      else if String.eqb input "5" then transferMoney ;;; accountLoop_loop fuel'
      else if String.eqb input "6" then
        ok <- deleteAccount ;;
        if ok then ret tt else accountLoop_loop fuel'
      else if String.eqb input "7" then ret tt
      else fmt_Println "Enter a valid choice" ;;; accountLoop_loop fuel'
  end.

Definition accountLoop : M unit :=
  err <- login ;;
  match err with
  | Some e => fmt_Println ("ERROR:  " ++ e)
  | None =>
      checkAccountInfo ;;;
      printSelectMenu account_menu ;;;
      fun w => accountLoop_loop (S (length (stdin w))) w
  end.

Definition main_menu : list string := ["Login"; "Create new account"; "Exit"].

(** The loop of [main]. The goroutine that saves on an interrupt is not
    part of this model. *)
Fixpoint main_loop (fuel : nat) (p : Process) : Run :=
  match fuel with
  | O => Hangs p
  | S fuel' =>
      lift (readString "> ") p (fun input p =>
        if String.eqb input "1" then
          lift accountLoop p (fun _ p => main_loop fuel' p)
        else if String.eqb input "2" then
          lift createAccount p (fun _ p => main_loop fuel' p)
        else if String.eqb input "3" then
          match saveData p with
          | Continues p' => Exits 0 p'
          | r => r
          end
        else
          lift (fmt_Println "Enter a valid choice") p (fun _ p => main_loop fuel' p))
  end.

Definition welcome : string :=
  "Welcome" ++ newline ++ "-------" ++ newline ++ newline.

Definition main (p : Process) : Run :=
  match loadData p with
  | Continues p =>
      lift (fmt_Print welcome ;;; printSelectMenu main_menu) p
        (fun _ p => main_loop (S (length (stdin (world p)))) p)
  | r => r
  end.

End Menus.

(** ** Properties of whole runs *)

(** [c] changes nothing but the console, however it ends. *)
Definition console_only {A : Type} (c : M A) : Prop :=
  forall w, exists i o, final (c w) = console i o w.

(** [c] keeps [I], however it ends. *)
Definition preserves (I : World -> Prop) {A : Type} (c : M A) : Prop :=
  forall w, I w -> I (final (c w)).

(** Every account is filed under its own username. *)
Definition filed_by_username (w : World) : Prop :=
  forall k l a, bank w !! k = Some l -> heap w !! l = Some a -> Username a = k.

(** What the commands keep: balances agree with histories, pointers are
    allocated, accounts are filed under their usernames. *)
Definition store_invariant (w : World) : Prop :=
  ledger_consistent 1000%float (heap w) /\ pointers_valid w /\ filed_by_username w.

(** The object [a'] is [a] later on: the same identity, a history that
    has only grown at the front. *)
Definition later_account (a a' : Account) : Prop :=
  Username a' = Username a /\ FullName a' = FullName a /\ Password a' = Password a
  /\ exists new, Transactions a' = (new ++ Transactions a)%list.

Definition later_heap (h h' : list Account) : Prop :=
  forall l a, h !! l = Some a -> exists a', h' !! l = Some a' /\ later_account a a'.

(** The document, if it is the JSON of a bank, holds accounts in order. *)
Definition file_in_order {J : GoJSON} (d : Disk) : Prop :=
  match db_json d with
  | Some doc =>
      match json_Decode doc with
      | Some es =>
          Forall (fun e => balance_matches 1000%float (snd e) /\ Username (snd e) = fst e) es
      | None => True
      end
  | None => True
  end.

(** A line that [readYesNo] takes for yes. *)
Definition yes {L : GoLib} (line : string) : bool :=
  String.eqb (strings_ToLower (strings_TrimSpace line)) "y".

(** What [checkAccountInfo] writes for the account [a]. *)
Definition account_info {L : GoLib} {J : GoJSON} (prev : time_Time) (a : Account)
  : list string :=
  ([ln ("Name:  " ++ FullName a);
    ln ("Username:  " ++ Username a);
    ln ("Current account balance:  " ++ fmt_v (Balance a))]
   ++ (if IsZero prev then [] else [ln ("Last login:  " ++ time_Format prev)])
   ++ [ln "Last 5 transactions: "]
   ++ map (fun t => ln (fmt_Transaction t)) (take 5 (Transactions a)))%list.

(** A line that is blank once trimmed. *)
Definition blank {L : GoLib} (line : string) : Prop :=
  String.eqb (strings_TrimSpace line) "" = true.

(** What [readString] writes for [n] blank lines. *)
Definition blank_output (message : string) (n : nat) : list string :=
  concat (replicate n [message; ln "ERROR: invalid input"]).

(** A line that [readAmount] refuses: not a number, or a number [<= 0]. *)
Definition refused {L : GoLib} (line : string) : Prop :=
  typed line
  /\ match strconv_ParseFloat (strings_TrimSpace line) with
     | None => True
     | Some amount => PrimFloat.leb amount 0 = true
     end.

Definition refusal {L : GoLib} (line : string) : string :=
  match strconv_ParseFloat (strings_TrimSpace line) with
  | None => ln "ERROR: invalid input, enter a valid number"
  | Some _ => ln "ERROR: invalid input, amount should be greater than 0"
  end.

(** What [readAmount] writes for the refused lines [lines]. *)
Definition refused_output {L : GoLib} (lines : list string) : list string :=
  concat (map (fun line => ["Enter amount: "; refusal line]) lines).

(** ** A concrete library, for running the program on examples

    Enough of Go's functions to run examples: decimal numerals such as
    [200], [0.1], [-5], and [Inf], [NaN], as [strconv.ParseFloat] reads
    them; blanks trimmed; a stand-in digest. *)
Module Demo.

Fixpoint digits (s : string) (acc : Z) : option Z :=
  match s with
  | EmptyString => Some acc
  | String c rest =>
      let n := Z.of_nat (nat_of_ascii c) in
      if (48 <=? n)%Z && (n <=? 57)%Z then digits rest (10 * acc + (n - 48))%Z
      else None
  end.

Fixpoint split_dot (s : string) : string * option string :=
  match s with
  | EmptyString => (EmptyString, None)
  | String c rest =>
      if Ascii.eqb c "."%char then (EmptyString, Some rest)
      else let '(a, b) := split_dot rest in (String c a, b)
  end.

Definition float_of_Z (z : Z) : float := PrimFloat.of_uint63 (Uint63.of_Z z).

(** An unsigned decimal numeral: all its digits as an integer, divided by
    the power of ten of its fraction (one rounding, as for a numeral of
    at most 15 digits). *)
Definition unsigned_decimal (s : string) : option float :=
  let '(ip, fp) := split_dot s in
  let fp := default EmptyString fp in
  if String.eqb (ip ++ fp) "" then None
  else
    match digits (ip ++ fp) 0 with
    | Some n =>
        Some (PrimFloat.div (float_of_Z n) (float_of_Z (10 ^ Z.of_nat (String.length fp))))
    | None => None
    end.

Definition ParseFloat (s : string) : option float :=
  if String.eqb s "Inf" then Some PrimFloat.infinity
  else if String.eqb s "NaN" then Some PrimFloat.nan
  else
    match s with
    | String "-"%char rest => option_map PrimFloat.opp (unsigned_decimal rest)
    | _ => unsigned_decimal s
    end.

Fixpoint trim_left (s : string) : string :=
  match s with
  | String " "%char rest => trim_left rest
  | _ => s
  end.

Definition reverse_string (s : string) : string :=
  string_of_list_ascii (rev (list_ascii_of_string s)).

Definition TrimSpace (s : string) : string :=
  reverse_string (trim_left (reverse_string (trim_left s))).

Definition lower (c : ascii) : ascii :=
  let n := nat_of_ascii c in
  if Nat.leb 65 n && Nat.leb n 90 then ascii_of_nat (n + 32) else c.

Fixpoint ToLower (s : string) : string :=
  match s with
  | EmptyString => EmptyString
  | String c rest => String (lower c) (ToLower rest)
  end.

#[local] Instance lib : GoLib := {|
  sha256_Sum := fun s => "sha256:" ++ s;
  base64_URLEncoding_EncodeToString := fun s => "b64:" ++ s;
  strconv_ParseFloat := ParseFloat;
  strings_TrimSpace := TrimSpace;
  strings_ToLower := ToLower;
  fmt_f2 := fun _ => "%.2f";
  fmt_v := fun _ => "%v"
|}.

(** Text that is ASCII is read back as written; a time is written as
    its number of nanoseconds. *)
#[local] Instance json : GoJSON := {|
  json_string := fun s => s;
  time_MarshalJSON := fun t => if (t <? 0)%Z then inr "out of range"
                               else inl (pretty (Z.to_N t));
  time_UnmarshalJSON := fun s => digits s 0;
  json_error := fun _ => "not a bank";
  fmt_Transaction := fun t => "{" ++ Message t ++ "}";
  time_Format := fun t => pretty (Z.to_N t)
|}.

(** The amounts that the numerals 0.1 and 0.2 are read as. *)
Definition tenth : float := PrimFloat.div 1 10.
Definition fifth : float := PrimFloat.div 2 10.

(** A clock that advances by one second at each reading. *)
Definition clock (n : nat) : time_Time := (1000000000 * (1 + Z.of_nat n))%Z.

Definition start (lines : list string) : World :=
  mkWorld [] ∅ None 0%Z lines [] clock 0.

Definition type_lines (lines : list string) (w : World) : World :=
  set_stdin lines w.

(** alice opens an account. *)
Definition alice_created : World :=
  execute CreateAccount (start ["alice"; "Alice A"; "pw"; "pw"]).

(** alice and bob open accounts; alice logs in after one wrong password. *)
Definition alice_logged_in : World :=
  execute_all [CreateAccount; CreateAccount; Login]
    (start ["alice"; "Alice A"; "pw"; "pw";
            "bob"; "Bob B"; "secret"; "secret";
            "alice"; "pwd"; "pw"]).

End Demo.

(** The joining bonus and the amounts of [steps] added up as numbers,
    without rounding. *)
Definition exact_balance (steps : list (LedgerOp * float)) : option Q :=
  fold_left
    (fun acc s =>
       match acc, exact (snd s) with
       | Some q, Some x =>
           Some (match fst s with
                 | Deposit => Qplus q x
                 | Withdraw => Qminus q x
                 end)
       | _, _ => None
       end)
    steps (Some (inject_Z 1000)).

Open Scope list_scope.

(** ** Comparisons of [float64]

    [<] and [<=] on binary64, through their specification on
    [spec_float]. *)

Lemma SFcompare_antisym (x y : SpecFloat.spec_float) :
  SpecFloat.SFcompare y x = option_map CompOpp (SpecFloat.SFcompare x y).
Proof.
  destruct x as [sx|sx| |sx mx ex], y as [sy|sy| |sy my ey]; simpl;
    try reflexivity;
    try (destruct sx; reflexivity);
    try (destruct sy; reflexivity);
    try (destruct sx, sy; reflexivity).
  destruct sx, sy; simpl; try reflexivity.
  - rewrite (Z.compare_antisym ey ex).
    destruct (ey ?= ex)%Z; simpl; try reflexivity.
    do 2 f_equal. symmetry. exact (Pos.compare_cont_antisym mx my Eq).
  - rewrite (Z.compare_antisym ey ex).
    destruct (ey ?= ex)%Z; simpl; try reflexivity.
    f_equal. symmetry. exact (Pos.compare_cont_antisym mx my Eq).
Qed.

Lemma leb_true_ltb_false (a b : float) :
  PrimFloat.leb a b = true -> PrimFloat.ltb b a = false.
Proof.
  rewrite FloatAxioms.leb_spec, FloatAxioms.ltb_spec.
  unfold SpecFloat.SFleb, SpecFloat.SFltb.
  rewrite (SFcompare_antisym (Prim2SF a) (Prim2SF b)).
  destruct (SpecFloat.SFcompare (Prim2SF a) (Prim2SF b)) as [[]|];
    simpl; congruence.
Qed.

Lemma ltb_true_leb_true (a b : float) :
  PrimFloat.ltb a b = true -> PrimFloat.leb a b = true.
Proof.
  rewrite FloatAxioms.leb_spec, FloatAxioms.ltb_spec.
  unfold SpecFloat.SFleb, SpecFloat.SFltb.
  destruct (SpecFloat.SFcompare (Prim2SF a) (Prim2SF b)) as [[]|];
    simpl; congruence.
Qed.

Lemma ltb_true_leb_false (a b : float) :
  PrimFloat.ltb a b = true -> PrimFloat.leb b a = false.
Proof.
  rewrite FloatAxioms.leb_spec, FloatAxioms.ltb_spec.
  unfold SpecFloat.SFleb, SpecFloat.SFltb.
  rewrite (SFcompare_antisym (Prim2SF a) (Prim2SF b)).
  destruct (SpecFloat.SFcompare (Prim2SF a) (Prim2SF b)) as [[]|];
    simpl; congruence.
Qed.

Lemma leb_false_ltb_false (a b : float) :
  PrimFloat.leb a b = false -> PrimFloat.ltb a b = false.
Proof.
  intros H. destruct (PrimFloat.ltb a b) eqn:E; [|reflexivity].
  apply ltb_true_leb_true in E. congruence.
Qed.

Lemma float_neq (a b : float) : PrimFloat.Leibniz.eqb a b = false -> a <> b.
Proof.
  intros H E. apply FloatAxioms.Leibniz.eqb_spec in E. congruence.
Qed.

(** ** The console helpers *)

Section ConsoleFacts.

Context {L : GoLib}.

Lemma console_console (i i' o o' : list string) (w : World) :
  console i' o' (console i o w) = console i' o' w.
Proof. reflexivity. Qed.

Lemma console_id (w : World) : console (stdin w) (stdout w) w = w.
Proof. destruct w; reflexivity. Qed.

(** A line that is not blank is returned trimmed, after one prompt. *)
Lemma readString_line (message : string) (w : World) (line : string)
    (rest : list string) :
  stdin w = line :: rest ->
  String.eqb (strings_TrimSpace line) "" = false ->
  readString message w
  = Ok (strings_TrimSpace line) (console rest (stdout w ++ [message]) w).
Proof.
  intros Hin Hnb. unfold readString. rewrite Hin. simpl.
  unfold bind, fmt_Print. simpl. rewrite Hnb. reflexivity.
Qed.

(** A blank line is reported and the prompt shown again. *)
Lemma readString_blank (message : string) (w : World) (line : string)
    (rest : list string) :
  stdin w = line :: rest ->
  String.eqb (strings_TrimSpace line) "" = true ->
  readString message w
  = readString message
      (console rest (stdout w ++ [message; ln "ERROR: invalid input"]) w).
Proof.
  intros Hin Hb. unfold readString at 1. rewrite Hin. simpl.
  unfold bind, fmt_Print. simpl. rewrite Hb. unfold fmt_Println. simpl.
  unfold readString. simpl. rewrite <- app_assoc. reflexivity.
Qed.

(** [readString] touches the console only, consumes at least one line
    when it returns, and never returns an empty string. *)
Lemma readString_outcome (message : string) (w : World) :
  match readString message w with
  | Ok s w' =>
      exists i o, w' = console i o w /\ length i < length (stdin w)
                  /\ String.eqb s "" = false
  | Hang w' => exists o, w' = console [] o w
  | Panic _ _ => False
  end.
Proof.
  unfold readString. remember (stdin w) as lines eqn:Hl.
  revert w Hl. induction lines as [|line rest IH]; intros w Hl.
  - simpl. unfold bind, fmt_Print. simpl. eexists.
    unfold console, set_stdout. simpl. rewrite <- Hl. reflexivity.
  - simpl. unfold bind, fmt_Print. simpl.
    destruct (String.eqb (strings_TrimSpace line) "") eqn:Hb.
    + unfold fmt_Println. simpl.
      specialize (IH (console rest
        ((stdout w ++ [message]) ++ [ln "ERROR: invalid input"])%list w) eq_refl).
      unfold console, set_stdout, set_stdin in *. simpl in *.
      destruct (readString_loop _ _ _) as [s w'|msg w'|w']; [| exact IH |].
      * destruct IH as (i & o & -> & Hlen & Hs). exists i, o. simpl.
        repeat split; [lia | exact Hs].
      * destruct IH as (o & ->). exists o. reflexivity.
    + unfold ret. exists rest, (stdout w ++ [message])%list.
      repeat split; [simpl; lia | exact Hb].
Qed.

(** [readAmount] returns only an amount that is not [<= 0]; it touches
    the console only, and returns whenever the input has an acceptable
    line: with the fuel it is given it stops only on an exhausted input. *)
Lemma readAmount_loop_outcome (fuel : nat) (w : World) :
  match readAmount_loop fuel w with
  | Ok amount w' =>
      exists i o, w' = console i o w /\ length i < length (stdin w)
                  /\ PrimFloat.leb amount 0 = false
  | Hang w' =>
      exists i o, w' = console i o w /\ (length (stdin w) < fuel -> i = [])
  | Panic _ _ => False
  end.
Proof.
  revert w. induction fuel as [|fuel IH]; intros w.
  - simpl. exists (stdin w), (stdout w). rewrite console_id. split; [reflexivity | lia].
  - simpl. unfold bind.
    pose proof (readString_outcome "Enter amount: " w) as Hr.
    destruct (readString "Enter amount: " w) as [s w1|msg w1|w1]; [| exact Hr |].
    + destruct Hr as (i & o & -> & Hlen & _).
      assert (Hloop : forall o',
        match readAmount_loop fuel (console i o' w) with
        | Ok amount w' =>
            exists i0 o0, w' = console i0 o0 w /\ length i0 < length (stdin w)
                          /\ PrimFloat.leb amount 0 = false
        | Hang w' =>
            exists i0 o0, w' = console i0 o0 w /\ (length (stdin w) < S fuel -> i0 = [])
        | Panic _ _ => False
        end).
      { intros o'. specialize (IH (console i o' w)).
        destruct (readAmount_loop fuel (console i o' w)) as [x w'|msg w'|w'];
          [| exact IH |].
        - destruct IH as (i0 & o0 & -> & Hl0 & Hx). exists i0, o0.
          simpl in Hl0. repeat split; [lia | exact Hx].
        - destruct IH as (i0 & o0 & -> & Hl0). exists i0, o0.
          split; [reflexivity |]. intros Hf. apply Hl0. simpl. lia. }
      destruct (strconv_ParseFloat s) as [amount|].
      * destruct (PrimFloat.leb amount 0) eqn:Hle.
        -- unfold fmt_Println. simpl. apply Hloop.
        -- unfold ret. exists i, o. repeat split; assumption.
      * unfold fmt_Println. simpl. apply Hloop.
    + destruct Hr as (o & ->). exists [], o. split; [reflexivity | reflexivity].
Qed.

Lemma readAmount_outcome (w : World) :
  match readAmount w with
  | Ok amount w' =>
      exists i o, w' = console i o w /\ length i < length (stdin w)
                  /\ PrimFloat.leb amount 0 = false
  | Hang w' => exists o, w' = console [] o w
  | Panic _ _ => False
  end.
Proof.
  unfold readAmount.
  pose proof (readAmount_loop_outcome (S (length (stdin w))) w) as H.
  destruct (readAmount_loop _ w) as [x w'|msg w'|w']; [exact H | exact H |].
  destruct H as (i & o & -> & Hi). rewrite Hi by lia. exists o. reflexivity.
Qed.

(** An acceptable line is returned as the amount. *)
Lemma readAmount_accepts (w : World) (line : string) (rest : list string)
    (amount : float) :
  stdin w = line :: rest ->
  String.eqb (strings_TrimSpace line) "" = false ->
  strconv_ParseFloat (strings_TrimSpace line) = Some amount ->
  PrimFloat.leb amount 0 = false ->
  readAmount w = Ok amount (console rest (stdout w ++ ["Enter amount: "]) w).
Proof.
  intros Hin Hnb Hp Hle. unfold readAmount. rewrite Hin. simpl.
  unfold bind. rewrite (readString_line _ w line rest Hin Hnb).
  rewrite Hp, Hle. reflexivity.
Qed.

(** A line holding an amount that is [<= 0] is reported and the amount
    asked again; nothing but the console has changed. *)
Lemma readAmount_rejects (w : World) (line : string) (rest : list string)
    (amount : float) :
  stdin w = line :: rest ->
  String.eqb (strings_TrimSpace line) "" = false ->
  strconv_ParseFloat (strings_TrimSpace line) = Some amount ->
  PrimFloat.leb amount 0 = true ->
  readAmount w
  = readAmount (console rest
      (stdout w ++ ["Enter amount: ";
                    ln "ERROR: invalid input, amount should be greater than 0"]) w).
Proof.
  intros Hin Hnb Hp Hle. unfold readAmount at 1. rewrite Hin.
  cbn [length readAmount_loop]. unfold bind at 1.
  rewrite (readString_line _ w line rest Hin Hnb).
  rewrite Hp, Hle. unfold bind, fmt_Println, readAmount. simpl.
  rewrite <- app_assoc. reflexivity.
Qed.

End ConsoleFacts.

(** ** Pointers *)

Lemma load_ok (w : World) (l : nat) (a : Account) :
  heap w !! l = Some a -> load (Some l) w = Ok a w.
Proof. intros H. unfold load. rewrite H. reflexivity. Qed.

Lemma store_ok (w : World) (l : nat) (a : Account) (f : Account -> Account) :
  heap w !! l = Some a ->
  store (Some l) f w = Ok tt (set_heap (<[l := f a]> (heap w)) w).
Proof. intros H. unfold store, bind. rewrite (load_ok w l a H). reflexivity. Qed.

Lemma load_outcome (p : option nat) (w : World) :
  (exists l a, p = Some l /\ heap w !! l = Some a /\ load p w = Ok a w)
  \/ load p w = Panic nil_dereference w.
Proof.
  unfold load. destruct p as [l|]; [|right; reflexivity].
  destruct (heap w !! l) as [a|] eqn:E; [left; eauto | right; reflexivity].
Qed.

Lemma lookup_insert_same (h : list Account) (l : nat) (a b : Account) :
  h !! l = Some a -> <[l := b]> h !! l = Some b.
Proof.
  intros H. apply list_lookup_insert_eq. eapply lookup_lt_Some; eassumption.
Qed.

Lemma lookup_new (h : list Account) (a : Account) :
  (h ++ [a]) !! length h = Some a.
Proof.
  rewrite lookup_app_r by lia. replace (length h - length h) with 0 by lia.
  reflexivity.
Qed.

Lemma insert_new (h : list Account) (a b : Account) :
  <[length h := b]> (h ++ [a]) = h ++ [b].
Proof.
  replace (length h) with (length h + 0) at 1 by lia.
  rewrite insert_app_r. reflexivity.
Qed.

Lemma bind_step {A B : Type} (c : M A) (k : A -> M B) (w w' : World) (a : A) :
  c w = Ok a w' -> bind c k w = k a w'.
Proof. intros H. unfold bind. rewrite H. reflexivity. Qed.

Ltac solve_lookup :=
  simpl;
  first [ eassumption
        | apply lookup_new
        | eapply lookup_insert_same; solve_lookup
        | rewrite list_lookup_insert_ne by congruence; solve_lookup ].

Ltac wsimpl :=
  unfold set_heap, set_bank, set_currentAccount, set_previousLastLogin,
    set_stdin, set_stdout, set_ticks, console,
    set_FullName, set_Password, set_Balance, set_LastLogin, set_Transactions;
  cbn [heap bank currentAccount previousLastLogin stdin stdout clock ticks final
       FullName Username Password Balance LastLogin Transactions
       Time Counterparty Amount ClosingBalance Message Type_].

(** One statement of a function body: a read or a write through a
    pointer that is known to be valid, a console write, a clock reading. *)
Ltac step :=
  first
    [ erewrite (bind_step (store _ _)) by (eapply store_ok; solve_lookup)
    | erewrite (bind_step (load _)) by (eapply load_ok; solve_lookup)
    | erewrite (bind_step (fmt_Print _)) by reflexivity
    | erewrite (bind_step (fmt_Println _)) by reflexivity
    | erewrite (bind_step time_Now) by reflexivity
    | erewrite (bind_step get_currentAccount) by reflexivity
    | erewrite (bind_step (get_bank _)) by reflexivity ];
  wsimpl.

(** ** Deposit and withdrawal *)

Section LedgerFacts.

Context {L : GoLib}.

Lemma depositCash_run (w w1 : World) (amount : float) (l : nat) (a : Account) :
  readAmount w = Ok amount w1 ->
  currentAccount w = Some l ->
  heap w !! l = Some a ->
  depositCash w
  = Ok tt (mkWorld (<[l := deposited (clock w (ticks w)) amount a]> (heap w))
             (bank w) (currentAccount w) (previousLastLogin w) (stdin w1)
             (stdout w1 ++
                [ln (fmt_f2 amount ++ " successfully deposited to your account");
                 ln ("Closing balance:  " ++ fmt_v (PrimFloat.add (Balance a) amount))])
             (clock w) (S (ticks w))).
Proof.
  intros Hr Hc Ha.
  pose proof (readAmount_outcome w) as Ho. rewrite Hr in Ho.
  destruct Ho as (i & o & -> & _ & _).
  unfold depositCash. rewrite (bind_step _ _ _ _ _ Hr).
  step. simpl currentAccount. rewrite Hc.
  do 6 step. unfold fmt_Println, deposited, withdrawn. wsimpl.
  rewrite list_insert_insert_eq, <- app_assoc. reflexivity.
Qed.

Lemma withdrawCash_run (w w1 : World) (amount : float) (l : nat) (a : Account) :
  readAmount w = Ok amount w1 ->
  currentAccount w = Some l ->
  heap w !! l = Some a ->
  withdrawCash w
  = Ok tt (mkWorld (<[l := withdrawn (clock w (ticks w)) amount a]> (heap w))
             (bank w) (currentAccount w) (previousLastLogin w) (stdin w1)
             (stdout w1 ++
                [ln (fmt_f2 amount ++ " successfully withdrawn from your account");
                 ln ("Closing balance:  " ++ fmt_v (PrimFloat.sub (Balance a) amount))])
             (clock w) (S (ticks w))).
Proof.
  intros Hr Hc Ha.
  pose proof (readAmount_outcome w) as Ho. rewrite Hr in Ho.
  destruct Ho as (i & o & -> & _ & _).
  unfold withdrawCash. rewrite (bind_step _ _ _ _ _ Hr).
  step. simpl currentAccount. rewrite Hc.
  do 6 step. unfold fmt_Println, deposited, withdrawn. wsimpl.
  rewrite list_insert_insert_eq, <- app_assoc. reflexivity.
Qed.

(** Every call of [depositCash]: either an amount was read and the
    session account is allocated, or nothing but the console changed. *)
Lemma depositCash_outcome (w : World) :
  (exists amount w1 l a,
      readAmount w = Ok amount w1 /\ currentAccount w = Some l
      /\ heap w !! l = Some a /\ PrimFloat.leb amount 0 = false)
  \/ (exists i o, final (depositCash w) = console i o w).
Proof.
  pose proof (readAmount_outcome w) as Ho.
  destruct (readAmount w) as [amount w1|msg w1|w1] eqn:Hr; [| contradiction |].
  - destruct Ho as (i & o & -> & _ & Hpos).
    destruct (currentAccount w) as [l|] eqn:Hc.
    + destruct (heap w !! l) as [a|] eqn:Ha.
      * left. exists amount, (console i o w), l, a. auto.
      * right. exists i, o. unfold depositCash.
        rewrite (bind_step _ _ _ _ _ Hr). step. rewrite Hc.
        unfold bind, store, bind, load. wsimpl. rewrite Ha. reflexivity.
    + right. exists i, o. unfold depositCash.
      rewrite (bind_step _ _ _ _ _ Hr). step. rewrite Hc. reflexivity.
  - right. destruct Ho as (o & ->). exists [], o.
    unfold depositCash, bind. rewrite Hr. reflexivity.
Qed.

Lemma withdrawCash_outcome (w : World) :
  (exists amount w1 l a,
      readAmount w = Ok amount w1 /\ currentAccount w = Some l
      /\ heap w !! l = Some a /\ PrimFloat.leb amount 0 = false)
  \/ (exists i o, final (withdrawCash w) = console i o w).
Proof.
  pose proof (readAmount_outcome w) as Ho.
  destruct (readAmount w) as [amount w1|msg w1|w1] eqn:Hr; [| contradiction |].
  - destruct Ho as (i & o & -> & _ & Hpos).
    destruct (currentAccount w) as [l|] eqn:Hc.
    + destruct (heap w !! l) as [a|] eqn:Ha.
      * left. exists amount, (console i o w), l, a. auto.
      * right. exists i, o. unfold withdrawCash.
        rewrite (bind_step _ _ _ _ _ Hr). step. rewrite Hc.
        unfold bind, store, bind, load. wsimpl. rewrite Ha. reflexivity.
    + right. exists i, o. unfold withdrawCash.
      rewrite (bind_step _ _ _ _ _ Hr). step. rewrite Hc. reflexivity.
  - right. destruct Ho as (o & ->). exists [], o.
    unfold withdrawCash, bind. rewrite Hr. reflexivity.
Qed.

(** ** Transfer *)

Lemma transferMoney_checked_run (w : World) (amount : float) (ls lr : nat)
    (snd rcv : Account) :
  PrimFloat.ltb amount 0 = false ->
  currentAccount w = Some ls ->
  heap w !! ls = Some snd ->
  heap w !! lr = Some rcv ->
  PrimFloat.ltb (Balance snd) amount = false ->
  transferMoney_checked (Some lr) amount w
  = Ok tt (mkWorld (transferred (clock w (ticks w)) amount ls lr snd rcv (heap w))
             (bank w) (currentAccount w) (previousLastLogin w) (stdin w)
             (stdout w ++
                [ln (fmt_f2 amount ++ " successfully sent to " ++ Username rcv);
                 ln ("Closing balance:  " ++ fmt_v (sender_balance amount ls lr snd))])
             (clock w) (S (ticks w))).
Proof.
  intros Hpos Hc Hs Hr Hfunds.
  unfold transferMoney_checked. rewrite Hpos.
  step. rewrite Hc. step. rewrite Hfunds. step.
  unfold transferred, sender_balance.
  destruct (Nat.eqb_spec ls lr) as [->|Hne].
  - assert (rcv = snd) by congruence. subst rcv.
    do 11 step. unfold fmt_Println, self_transferred, credit_record, debit_record.
    wsimpl. rewrite Hc, !list_insert_insert_eq, <- app_assoc. reflexivity.
  - do 11 step. unfold fmt_Println, credited, debited, credit_record, debit_record.
    wsimpl.
    rewrite (list_insert_insert_ne _ ls lr) by congruence.
    rewrite !list_insert_insert_eq.
    rewrite Hc, <- app_assoc. reflexivity.
Qed.

(** Every call of [transferMoney_checked]: the transfer is made, or
    nothing but the console changed, or (the receiver's pointer being
    unallocated, which no entry of [bank] ever is) the call panics after
    its first assignment. *)
Lemma transferMoney_checked_outcome (w : World) (lr : nat) (amount : float) :
  (exists ls snd rcv,
      PrimFloat.ltb amount 0 = false /\ currentAccount w = Some ls
      /\ heap w !! ls = Some snd /\ heap w !! lr = Some rcv
      /\ PrimFloat.ltb (Balance snd) amount = false)
  \/ (exists o, final (transferMoney_checked (Some lr) amount w)
                = console (stdin w) o w)
  \/ (exists ls snd,
        PrimFloat.ltb amount 0 = false /\ currentAccount w = Some ls
        /\ PrimFloat.ltb (Balance snd) amount = false
        /\ heap w !! ls = Some snd /\ heap w !! lr = None
        /\ final (transferMoney_checked (Some lr) amount w)
           = set_ticks (S (ticks w))
               (set_heap (<[ls := set_Balance (PrimFloat.sub (Balance snd) amount) snd]>
                            (heap w)) w)).
Proof.
  unfold transferMoney_checked.
  destruct w as [h b c p i o ck tk]. wsimpl.
  destruct (PrimFloat.ltb amount 0) eqn:Hneg.
  { right; left. eexists. reflexivity. }
  destruct c as [ls|].
  2:{ right; left. exists o. reflexivity. }
  destruct (h !! ls) as [snd|] eqn:Hs.
  2:{ right; left. exists o. step. unfold bind, load. wsimpl.
      rewrite Hs. reflexivity. }
  destruct (PrimFloat.ltb (Balance snd) amount) eqn:Hf.
  { right; left. eexists. do 2 step. rewrite Hf. reflexivity. }
  destruct (h !! lr) as [rcv|] eqn:Hr.
  { left. exists ls, snd, rcv. auto. }
  right; right. exists ls, snd. do 5 (split; [auto|]).
  do 2 step. rewrite Hf. do 2 step.
  assert (Hne : ls <> lr) by congruence.
  unfold bind, store, bind, load. wsimpl.
  rewrite list_lookup_insert_ne by exact Hne. rewrite Hr. reflexivity.
Qed.

Lemma transferMoney_run (w w1 w2 : World) (r : string) (amount : float)
    (ls lr : nat) (snd rcv : Account) :
  readString "Enter receiver's username:" w = Ok r w1 ->
  bank w !! r = Some lr ->
  readAmount w1 = Ok amount w2 ->
  currentAccount w = Some ls ->
  heap w !! ls = Some snd ->
  heap w !! lr = Some rcv ->
  PrimFloat.ltb (Balance snd) amount = false ->
  transferMoney w
  = Ok tt (mkWorld (transferred (clock w (ticks w)) amount ls lr snd rcv (heap w))
             (bank w) (currentAccount w) (previousLastLogin w) (stdin w2)
             (stdout w2 ++
                [ln (fmt_f2 amount ++ " successfully sent to " ++ Username rcv);
                 ln ("Closing balance:  " ++ fmt_v (sender_balance amount ls lr snd))])
             (clock w) (S (ticks w))).
Proof.
  intros Hr Hb Ha Hc Hs Hrc Hf.
  pose proof (readString_outcome "Enter receiver's username:" w) as Ho.
  rewrite Hr in Ho. destruct Ho as (i & o & -> & _ & _).
  pose proof (readAmount_outcome (console i o w)) as Ho.
  rewrite Ha in Ho. destruct Ho as (i' & o' & -> & _ & Hpos).
  unfold transferMoney. rewrite (bind_step _ _ _ _ _ Hr).
  unfold bind at 1, get_bank. cbn [bank console]. rewrite Hb.
  rewrite (bind_step _ _ _ _ _ Ha).
  rewrite (transferMoney_checked_run _ amount ls lr snd rcv);
    try assumption; try reflexivity.
  apply leb_false_ltb_false; exact Hpos.
Qed.

(** Every call of [transferMoney]: nothing but the console changed, or
    the checks passed; then the transfer is made, unless the receiver's
    pointer is unallocated and the call panics after its first assignment. *)
Lemma transferMoney_outcome (w : World) :
  (exists i o, final (transferMoney w) = console i o w)
  \/ (exists r w1 lr amount w2 ls snd,
        readString "Enter receiver's username:" w = Ok r w1
        /\ bank w !! r = Some lr
        /\ readAmount w1 = Ok amount w2
        /\ PrimFloat.leb amount 0 = false
        /\ currentAccount w = Some ls
        /\ heap w !! ls = Some snd
        /\ PrimFloat.ltb (Balance snd) amount = false
        /\ ((exists rcv, heap w !! lr = Some rcv)
            \/ (heap w !! lr = None
                /\ heap (final (transferMoney w))
                   = <[ls := set_Balance (PrimFloat.sub (Balance snd) amount) snd]> (heap w)
                /\ bank (final (transferMoney w)) = bank w
                /\ currentAccount (final (transferMoney w)) = currentAccount w))).
Proof.
  pose proof (readString_outcome "Enter receiver's username:" w) as Ho.
  destruct (readString "Enter receiver's username:" w) as [r w1|msg w1|w1] eqn:Hr;
    [| contradiction |].
  2:{ left. destruct Ho as (o & ->). exists [], o.
      unfold transferMoney, bind. rewrite Hr. reflexivity. }
  destruct Ho as (i & o & -> & _ & _).
  destruct (bank w !! r) as [lr|] eqn:Hb.
  2:{ left. eexists _, _. unfold transferMoney.
      rewrite (bind_step _ _ _ _ _ Hr). step. rewrite Hb. reflexivity. }
  assert (Hrun : transferMoney w
                 = bind readAmount (transferMoney_checked (Some lr)) (console i o w)).
  { unfold transferMoney. rewrite (bind_step _ _ _ _ _ Hr).
    unfold bind at 1, get_bank. cbn [bank console]. rewrite Hb. reflexivity. }
  rewrite Hrun. clear Hrun.
  pose proof (readAmount_outcome (console i o w)) as Ho.
  destruct (readAmount (console i o w)) as [amount w2|msg w2|w2] eqn:Ha;
    [| contradiction |].
  2:{ left. destruct Ho as (o' & ->). exists [], o'.
      unfold bind. rewrite Ha. reflexivity. }
  destruct Ho as (i' & o' & Hw2 & _ & Hpos).
  rewrite console_console in Hw2. subst w2.
  rewrite (bind_step _ _ _ _ _ Ha).
  destruct (transferMoney_checked_outcome (console i' o' w) lr amount)
    as [(ls & snd & rcv & H1 & H2 & H3 & H4 & H5)
       |[(o2 & H)|(ls & snd & H1 & H2 & H3 & H4 & H5 & H6)]];
    cbn [console heap currentAccount] in *.
  - right. exists r, (console i o w), lr, amount, (console i' o' w), ls, snd.
    do 7 (split; [first [assumption | reflexivity]|]). left. exists rcv. exact H4.
  - left. exists i', o2. rewrite H. reflexivity.
  - right. exists r, (console i o w), lr, amount, (console i' o' w), ls, snd.
    do 7 (split; [first [assumption | reflexivity]|]). right. rewrite H6. auto.
Qed.

End LedgerFacts.

(** ** Account creation *)

Section AccountFacts.

Context {L : GoLib}.

Lemma createAccount_loop_outcome (fuel : nat) (w : World) :
  match createAccount_loop fuel w with
  | Ok _ w' => exists i o, w' = console i o w
  | Hang w' =>
      exists i o, w' = console i o w /\ (length (stdin w) < fuel -> i = [])
  | Panic _ _ => False
  end.
Proof.
  revert w. induction fuel as [|fuel IH]; intros w.
  - simpl. exists (stdin w), (stdout w). rewrite console_id. split; [reflexivity | lia].
  - simpl. unfold bind at 1.
    pose proof (readString_outcome "Enter new password: " w) as H1.
    destruct (readString "Enter new password: " w) as [p1 w1|msg w1|w1];
      [| exact H1 |].
    2:{ destruct H1 as (o & ->). exists [], o. split; reflexivity. }
    destruct H1 as (i1 & o1 & -> & Hl1 & _).
    unfold bind at 1.
    pose proof (readString_outcome "Renter password: " (console i1 o1 w)) as H2.
    destruct (readString "Renter password: " (console i1 o1 w)) as [p2 w2|msg w2|w2];
      [| exact H2 |].
    2:{ destruct H2 as (o & ->). exists [], o. split; reflexivity. }
    destruct H2 as (i2 & o2 & -> & Hl2 & _). cbn [stdin console] in Hl2.
    destruct (String.eqb p1 p2).
    + exists i2, o2. reflexivity.
    + unfold bind, fmt_Println. wsimpl.
      specialize (IH (console i2 (o2 ++ [ln "ERROR: passwords do not match"]) w)).
      unfold console in IH.
      destruct (createAccount_loop fuel _) as [p w'|msg w'|w']; [| exact IH |].
      * destruct IH as (i & o & ->). exists i, o. reflexivity.
      * destruct IH as (i & o & -> & Hi). exists i, o. split; [reflexivity|].
        intros Hf. apply Hi. cbn [stdin]. lia.
Qed.

(** Pairs that do not agree are reported; the first pair that agrees
    gives the password. *)
Lemma createAccount_loop_retries (bad : list (string * string)) (p1 p2 : string)
    (rest : list string) (fuel : nat) (w : World) :
  stdin w = flat bad ++ p1 :: p2 :: rest ->
  Forall mismatch bad ->
  typed p1 -> typed p2 ->
  String.eqb (strings_TrimSpace p1) (strings_TrimSpace p2) = true ->
  length bad < fuel ->
  createAccount_loop fuel w
  = Ok (strings_TrimSpace p1)
       (console rest
          (stdout w ++ mismatch_output (length bad)
                    ++ ["Enter new password: "; "Renter password: "]) w).
Proof.
  revert fuel w. induction bad as [|[b1 b2] bad IH]; intros fuel w Hin Hbad H1 H2 He Hf.
  - destruct fuel as [|fuel]; [lia|]. simpl in Hin. simpl.
    rewrite (bind_step _ _ _ _ _ (readString_line _ w p1 (p2 :: rest) Hin H1)).
    erewrite (bind_step (readString _)) by (apply readString_line; [reflexivity | exact H2]).
    rewrite He. unfold ret. wsimpl. rewrite <- app_assoc. reflexivity.
  - destruct fuel as [|fuel]; [simpl in Hf; lia|].
    inversion Hbad as [|? ? (Hb1 & Hb2 & Hne) Hbad']; subst.
    cbn [fst snd] in Hb1, Hb2, Hne.
    change (flat ((b1, b2) :: bad)) with (b1 :: b2 :: flat bad) in Hin.
    simpl in Hin. cbn [createAccount_loop].
    rewrite (bind_step _ _ _ _ _ (readString_line _ w b1 _ Hin Hb1)).
    erewrite (bind_step (readString _)) by (apply readString_line; [reflexivity | exact Hb2]).
    rewrite Hne.
    erewrite (bind_step (fmt_Println _)) by reflexivity.
    erewrite (IH fuel) by first [reflexivity | assumption | simpl in Hf; lia].
    unfold mismatch_output. wsimpl. cbn [length replicate concat].
    rewrite <- !app_assoc. reflexivity.
Qed.

Lemma createAccount_taken (w w1 : World) (u : string) :
  readString "Enter username: " w = Ok u w1 ->
  is_Some (bank w !! u) ->
  createAccount w
  = Ok tt (console (stdin w1) (stdout w1 ++ [ln "ERROR: account already taken"]) w).
Proof.
  intros Hr [l Hl].
  pose proof (readString_outcome "Enter username: " w) as Ho.
  rewrite Hr in Ho. destruct Ho as (i & o & -> & _).
  unfold createAccount. rewrite (bind_step _ _ _ _ _ Hr).
  unfold bind at 1, get_bank. cbn [bank console]. rewrite Hl. reflexivity.
Qed.

Lemma flat_length (pairs : list (string * string)) :
  length (flat pairs) = 2 * length pairs.
Proof.
  induction pairs as [|p pairs IH]; [reflexivity|].
  change (flat (p :: pairs)) with (fst p :: snd p :: flat pairs).
  simpl in *. lia.
Qed.

(** A new username, a full name, and a password typed twice alike
    (after any number of pairs that do not agree): the account is made. *)
Lemma createAccount_run (w : World) (uline fline p1 p2 : string)
    (bad : list (string * string)) (rest : list string) :
  stdin w = uline :: fline :: flat bad ++ p1 :: p2 :: rest ->
  typed uline ->
  bank w !! strings_TrimSpace uline = None ->
  typed fline ->
  Forall mismatch bad ->
  typed p1 -> typed p2 ->
  String.eqb (strings_TrimSpace p1) (strings_TrimSpace p2) = true ->
  createAccount w
  = Ok tt (mkWorld
             (heap w ++ [mkAccount (strings_TrimSpace fline) (strings_TrimSpace uline)
                           (hash (strings_TrimSpace p1)) joining_bonus 0%Z []])
             (<[strings_TrimSpace uline := length (heap w)]> (bank w))
             (currentAccount w) (previousLastLogin w) rest
             (stdout w ++ ["Enter username: "; "Enter your full name: "]
                ++ mismatch_output (length bad)
                ++ ["Enter new password: "; "Renter password: ";
                    ln "Account created successfully"])
             (clock w) (ticks w)).
Proof.
  intros Hin Hu Hb Hfn Hbad H1 H2 He.
  unfold createAccount.
  rewrite (bind_step _ _ _ _ _ (readString_line _ w uline _ Hin Hu)).
  unfold bind at 1, get_bank. cbn [bank console]. rewrite Hb.
  erewrite (bind_step (new_Account _)) by reflexivity. wsimpl.
  erewrite (bind_step (readString _)) by (apply readString_line; [reflexivity | exact Hfn]).
  wsimpl. step. rewrite insert_new.
  unfold bind at 1.
  erewrite createAccount_loop_retries;
    [ | reflexivity | exact Hbad | exact H1 | exact H2 | exact He
      | cbn [stdin]; rewrite length_app, flat_length; simpl; lia ].
  wsimpl. step. rewrite insert_new.
  unfold bind, fmt_Println. wsimpl. rewrite <- !app_assoc. reflexivity.
Qed.

(** Every call of [createAccount]: nothing but the console changed (the
    name is taken, or the input ended before the name was read), or one
    object was allocated, holding the joining bonus and no transaction,
    and it is filed under its name unless the input ended first. *)
Lemma createAccount_outcome (w : World) :
  (exists i o, final (createAccount w) = console i o w)
  \/ (exists u acct i o,
        bank w !! u = None /\ Username acct = u
        /\ Balance acct = joining_bonus /\ Transactions acct = []
        /\ (final (createAccount w)
              = mkWorld (heap w ++ [acct]) (bank w) (currentAccount w)
                  (previousLastLogin w) i o (clock w) (ticks w)
            \/ createAccount w
              = Ok tt (mkWorld (heap w ++ [acct]) (<[u := length (heap w)]> (bank w))
                         (currentAccount w) (previousLastLogin w) i o
                         (clock w) (ticks w)))).
Proof.
  pattern (createAccount w).
  match goal with |- ?Q _ => set (P := Q) end.
  unfold createAccount.
  pose proof (readString_outcome "Enter username: " w) as Ho.
  destruct (readString "Enter username: " w) as [u w1|msg w1|w1] eqn:Hr;
    [| contradiction |].
  2:{ subst P. left. destruct Ho as (o & ->). exists [], o.
      unfold bind. rewrite Hr. reflexivity. }
  destruct Ho as (i & o & -> & _). rewrite (bind_step _ _ _ _ _ Hr).
  unfold bind at 1, get_bank. cbn [bank console].
  destruct (bank w !! u) as [l|] eqn:Hb.
  { subst P. left. eexists _, _. reflexivity. }
  erewrite (bind_step (new_Account _)) by reflexivity. wsimpl.
  unfold bind at 1.
  match goal with |- context [readString ?m ?W] =>
    pose proof (readString_outcome m W) as Ho;
    destruct (readString m W) as [fn w2|msg w2|w2]; [| contradiction |] end.
  2:{ subst P. right. destruct Ho as (o2 & ->). exists u. eexists _, _, _.
      repeat split; [exact Hb | | | | left; reflexivity]; reflexivity. }
  destruct Ho as (i2 & o2 & -> & _). wsimpl. step. rewrite insert_new.
  unfold bind at 1.
  match goal with |- context [createAccount_loop ?f ?W] =>
    pose proof (createAccount_loop_outcome f W) as Ho;
    destruct (createAccount_loop f W) as [p1 w3|msg w3|w3]; [| contradiction |] end.
  2:{ subst P. right. destruct Ho as (i3 & o3 & -> & _). exists u. eexists _, _, _.
      repeat split; [exact Hb | | | | left; reflexivity]; reflexivity. }
  destruct Ho as (i3 & o3 & ->). wsimpl. step. rewrite insert_new.
  subst P. right. exists u. eexists _, _, _.
  repeat split; [exact Hb | | | | right; reflexivity]; reflexivity.
Qed.

End AccountFacts.

(** ** Login *)

Section LoginFacts.

Context {L : GoLib}.

Lemma incorrect_output_S (n : nat) :
  incorrect_output (S n)
  = ["Enter password: "; ln "Incorrect Password"] ++ incorrect_output n.
Proof. reflexivity. Qed.

(** Wrong passwords within the limit: each one is reported and the
    password asked again, the count going up by one. *)
Lemma login_loop_wrong (wrong rest : list string) (fuel c : nat) (w : World)
    (l : nat) (a : Account) :
  stdin w = wrong ++ rest ->
  heap w !! l = Some a ->
  Forall (wrong_password a) wrong ->
  c + length wrong <= 3 ->
  login_loop (length wrong + fuel) (Some l) c w
  = login_loop fuel (Some l) (c + length wrong)
      (console rest (stdout w ++ incorrect_output (length wrong)) w).
Proof.
  revert c w. induction wrong as [|line wrong IH]; intros c w Hin Ha Hw Hc.
  - simpl in *. rewrite Nat.add_0_r, app_nil_r. subst rest.
    rewrite console_id. reflexivity.
  - inversion Hw as [|? ? [Ht Hp] Hw']; subst. simpl in Hin, Hc.
    cbn [length Nat.add login_loop].
    rewrite (bind_step _ _ _ _ _ (readString_line _ w line _ Hin Ht)).
    step. rewrite Hp. cbn [negb].
    assert (Hlt : Nat.ltb c 3 = true) by (apply Nat.ltb_lt; lia). rewrite Hlt.
    erewrite (bind_step (fmt_Println _)) by reflexivity.
    rewrite IH; [| reflexivity | exact Ha | exact Hw' | lia].
    wsimpl. rewrite incorrect_output_S, <- !app_assoc.
    replace (S c + length wrong) with (c + S (length wrong)) by lia.
    reflexivity.
Qed.

Lemma login_loop_right (line : string) (rest : list string) (fuel c : nat)
    (w : World) (l : nat) (a : Account) :
  stdin w = line :: rest ->
  heap w !! l = Some a ->
  right_password a line ->
  login_loop (S fuel) (Some l) c w
  = Ok None (console rest (stdout w ++ ["Enter password: "]) w).
Proof.
  intros Hin Ha [Ht Hp]. cbn [login_loop].
  rewrite (bind_step _ _ _ _ _ (readString_line _ w line _ Hin Ht)).
  step. rewrite Hp. reflexivity.
Qed.

Lemma login_loop_exceeded (line : string) (rest : list string) (fuel c : nat)
    (w : World) (l : nat) (a : Account) :
  stdin w = line :: rest ->
  heap w !! l = Some a ->
  wrong_password a line ->
  3 <= c ->
  login_loop (S fuel) (Some l) c w
  = Ok (Some "exceeded maximum number of login attempts")
       (console rest (stdout w ++ ["Enter password: "]) w).
Proof.
  intros Hin Ha [Ht Hp] Hc. cbn [login_loop].
  rewrite (bind_step _ _ _ _ _ (readString_line _ w line _ Hin Ht)).
  step. rewrite Hp. cbn [negb].
  assert (Hlt : Nat.ltb c 3 = false) by (apply Nat.ltb_ge; lia). rewrite Hlt.
  reflexivity.
Qed.

(** The right password after at most three wrong ones opens the session. *)
Lemma login_run (w : World) (uline good : string) (wrong rest : list string)
    (l : nat) (a : Account) :
  stdin w = uline :: wrong ++ good :: rest ->
  typed uline ->
  bank w !! strings_TrimSpace uline = Some l ->
  heap w !! l = Some a ->
  Forall (wrong_password a) wrong ->
  length wrong <= 3 ->
  right_password a good ->
  login w
  = Ok None
      (mkWorld (<[l := set_LastLogin (clock w (ticks w)) a]> (heap w)) (bank w)
         (Some l) (LastLogin a) rest
         (stdout w ++ ["Enter username: "] ++ incorrect_output (length wrong)
            ++ ["Enter password: "; ln ("Hi,  " ++ FullName a)])
         (clock w) (S (ticks w))).
Proof.
  intros Hin Hu Hb Ha Hw Hlen Hg.
  unfold login.
  rewrite (bind_step _ _ _ _ _ (readString_line _ w uline _ Hin Hu)).
  unfold bind at 1, get_bank. cbn [bank console]. rewrite Hb. cbv beta iota.
  unfold bind at 1. cbn [stdin console].
  replace (S (length (wrong ++ good :: rest)))
    with (length wrong + S (S (length rest)))
    by (rewrite length_app; simpl; lia).
  rewrite (login_loop_wrong wrong (good :: rest) _ 0 _ l a);
    [| reflexivity | exact Ha | exact Hw | simpl; lia].
  rewrite (login_loop_right good rest _ _ _ l a); [| reflexivity | exact Ha | exact Hg].
  wsimpl. step. unfold bind at 1. cbv beta iota. wsimpl.
  do 2 step. unfold bind at 1. cbv beta iota. wsimpl.
  step. unfold bind, fmt_Println, ret. wsimpl.
  rewrite <- !app_assoc. reflexivity.
Qed.

(** A fourth wrong password ends the login. *)
Lemma login_exceeded (w : World) (uline : string) (wrong rest : list string)
    (l : nat) (a : Account) :
  stdin w = uline :: wrong ++ rest ->
  typed uline ->
  bank w !! strings_TrimSpace uline = Some l ->
  heap w !! l = Some a ->
  Forall (wrong_password a) wrong ->
  length wrong = 4 ->
  login w
  = Ok (Some "exceeded maximum number of login attempts")
       (console rest
          (stdout w ++ ["Enter username: "] ++ incorrect_output 3
             ++ ["Enter password: "]) w).
Proof.
  intros Hin Hu Hb Ha Hw Hlen.
  destruct wrong as [|w1 [|w2 [|w3 [|w4 [|w5 wrong]]]]]; try discriminate Hlen.
  apply Forall_cons in Hw as [Hp1 Hw]. apply Forall_cons in Hw as [Hp2 Hw].
  apply Forall_cons in Hw as [Hp3 Hw]. apply Forall_cons in Hw as [Hw4 _].
  assert (Hw3 : Forall (wrong_password a) [w1; w2; w3])
    by (repeat (apply List.Forall_cons; [assumption|]); apply List.Forall_nil).
  unfold login.
  rewrite (bind_step _ _ _ _ _ (readString_line _ w uline _ Hin Hu)).
  unfold bind at 1, get_bank. cbn [bank console]. rewrite Hb. cbv beta iota.
  unfold bind at 1. cbn [stdin console].
  change ([w1; w2; w3; w4] ++ rest) with ([w1; w2; w3] ++ w4 :: rest).
  replace (S (length ([w1; w2; w3] ++ w4 :: rest)))
    with (length [w1; w2; w3] + S (S (length rest)))
    by (rewrite length_app; simpl; lia).
  rewrite (login_loop_wrong [w1; w2; w3] (w4 :: rest) _ 0 _ l a);
    [| reflexivity | exact Ha | exact Hw3 | simpl; lia].
  rewrite (login_loop_exceeded w4 rest _ _ _ l a);
    [| reflexivity | exact Ha | exact Hw4 | simpl; lia].
  unfold ret. wsimpl. rewrite <- !app_assoc. reflexivity.
Qed.

(** The password loop touches the console only, however it ends. *)
Lemma login_loop_outcome (fuel : nat) (p : option nat) (c : nat) (w : World) :
  exists i o, final (login_loop fuel p c w) = console i o w.
Proof.
  revert c w. induction fuel as [|fuel IH]; intros c w.
  - exists (stdin w), (stdout w). rewrite console_id. reflexivity.
  - cbn [login_loop]. unfold bind at 1.
    pose proof (readString_outcome "Enter password: " w) as Ho.
    destruct (readString "Enter password: " w) as [pw w1|msg w1|w1];
      [| contradiction |].
    2:{ destruct Ho as (o & ->). exists [], o. reflexivity. }
    destruct Ho as (i & o & -> & _).
    unfold bind at 1.
    destruct (load_outcome p (console i o w)) as [(l & a & -> & Ha & Hl)|Hl];
      rewrite Hl.
    + destruct (negb (String.eqb (hash pw) (Password a))).
      * destruct (Nat.ltb c 3).
        -- unfold bind at 1, fmt_Println. cbv beta iota.
           destruct (IH (S c) (set_stdout (stdout (console i o w) ++ [ln "Incorrect Password"])
                                  (console i o w))) as (i' & o' & ->).
           exists i', o'. reflexivity.
        -- exists i, o. reflexivity.
      * exists i, o. reflexivity.
    + exists i, o. reflexivity.
Qed.

(** Every call of [login]: nothing but the console changed, or the
    session is opened on an account of [bank]. *)
Lemma login_outcome (w : World) :
  (exists i o, final (login w) = console i o w)
  \/ (exists k l a i o,
        bank w !! k = Some l /\ heap w !! l = Some a
        /\ login w
           = Ok None
               (mkWorld (<[l := set_LastLogin (clock w (ticks w)) a]> (heap w))
                  (bank w) (Some l) (LastLogin a) i o (clock w) (S (ticks w)))).
Proof.
  pattern (login w).
  match goal with |- ?Q _ => set (P := Q) end.
  unfold login.
  pose proof (readString_outcome "Enter username: " w) as Ho.
  destruct (readString "Enter username: " w) as [u w1|msg w1|w1] eqn:Hr;
    [| contradiction |].
  2:{ subst P. left. destruct Ho as (o & ->). exists [], o.
      unfold bind. rewrite Hr. reflexivity. }
  destruct Ho as (i & o & -> & _). rewrite (bind_step _ _ _ _ _ Hr).
  unfold bind at 1, get_bank. cbn [bank console].
  destruct (bank w !! u) as [l|] eqn:Hb.
  2:{ subst P. left. exists i, o. reflexivity. }
  cbv beta iota zeta. unfold bind at 1.
  destruct (login_loop_outcome (S (length (stdin (console i o w)))) (Some l) 0
              (console i o w)) as (i' & o' & Hf).
  rewrite console_console in Hf.
  destruct (login_loop _ (Some l) 0 (console i o w)) as [r w2|msg w2|w2];
    cbn [final] in Hf; subst w2.
  2,3: subst P; left; exists i', o'; reflexivity.
  destruct r as [err|].
  { subst P. left. exists i', o'. reflexivity. }
  destruct (heap w !! l) as [a|] eqn:Ha.
  2:{ subst P. left. exists i', o'. unfold bind, load. cbn [heap console].
      rewrite Ha. reflexivity. }
  step. unfold bind at 1. cbv beta iota. wsimpl.
  do 2 step. unfold bind at 1. cbv beta iota. wsimpl.
  step. unfold bind, fmt_Println, ret. wsimpl.
  subst P. right. exists u, l, a. eexists _, _.
  split; [exact Hb|]. split; [exact Ha|]. reflexivity.
Qed.

Lemma readYesNo_outcome (message : string) (w : World) :
  match readYesNo message w with
  | Ok _ w' => exists i o, w' = console i o w
  | Hang w' => exists i o, w' = console i o w
  | Panic _ _ => False
  end.
Proof.
  unfold readYesNo, bind, fmt_Print. wsimpl.
  destruct (stdin w) as [|line rest] eqn:Hin.
  - eexists [], _. rewrite <- Hin. reflexivity.
  - eexists _, _. reflexivity.
Qed.

(** Every call of [deleteAccount]: the objects stay, at most one entry
    of [bank] goes. *)
Lemma deleteAccount_outcome (w : World) :
  heap (final (deleteAccount w)) = heap w
  /\ (bank (final (deleteAccount w)) = bank w
      \/ exists k, bank (final (deleteAccount w)) = delete k (bank w)).
Proof.
  pattern (deleteAccount w).
  match goal with |- ?Q _ => set (P := Q) end.
  unfold deleteAccount. unfold bind at 1.
  match goal with |- context [readYesNo ?m ?W] =>
    pose proof (readYesNo_outcome m W) as Ho;
    destruct (readYesNo m W) as [yes1 w1|msg w1|w1]; [| contradiction |] end.
  2:{ subst P. destruct Ho as (i & o & ->). split; [|left]; reflexivity. }
  destruct Ho as (i & o & ->).
  destruct yes1; cbn [negb];
    [| subst P; split; [|left]; reflexivity].
  unfold bind at 1.
  match goal with |- context [readYesNo ?m ?W] =>
    pose proof (readYesNo_outcome m W) as Ho;
    destruct (readYesNo m W) as [yes2 w2|msg w2|w2]; [| contradiction |] end.
  2:{ subst P. destruct Ho as (i2 & o2 & ->). split; [|left]; reflexivity. }
  destruct Ho as (i2 & o2 & ->).
  destruct yes2; cbn [negb];
    [| subst P; split; [|left]; reflexivity].
  unfold bind at 1, get_currentAccount. cbv beta iota. unfold bind at 1.
  match goal with |- context [load ?p ?W] =>
    destruct (load_outcome p W) as [(l & a & Hp & Ha & Hl)|Hl]; rewrite Hl end.
  - subst P. unfold bind, ret. cbv beta iota. wsimpl. split; [reflexivity|].
    right. eexists. reflexivity.
  - subst P. split; [|left]; reflexivity.
Qed.

End LoginFacts.

(** ** The ledger invariant *)

Section Invariant.

Context {L : GoLib}.

Lemma ledger_consistent_nil (e : float) : ledger_consistent e [].
Proof. intros l a H. rewrite lookup_nil in H. discriminate H. Qed.

Lemma pointers_valid_empty (w : World) : bank w = ∅ -> pointers_valid w.
Proof. intros H k l Hk. rewrite H, lookup_empty in Hk. discriminate Hk. Qed.

Lemma ledger_consistent_insert (e : float) (h : list Account) (l : nat)
    (a : Account) :
  ledger_consistent e h -> balance_matches e a ->
  ledger_consistent e (<[l := a]> h).
Proof.
  intros Hh Ha l' a' Hl.
  apply list_lookup_insert_Some in Hl as [(-> & -> & _)|(_ & Hl)];
    [exact Ha | exact (Hh _ _ Hl)].
Qed.

Lemma ledger_consistent_snoc (e : float) (h : list Account) (a : Account) :
  ledger_consistent e h -> balance_matches e a ->
  ledger_consistent e (h ++ [a]).
Proof.
  intros Hh Ha l' a' Hl.
  apply lookup_app_Some in Hl as [Hl|(_ & Hl)]; [exact (Hh _ _ Hl)|].
  apply list_lookup_singleton_Some in Hl as (_ & ->). exact Ha.
Qed.

Lemma ledger_consistent_transferred (e : float) (h : list Account)
    (t : time_Time) (amount : float) (ls lr : nat) (snd rcv : Account) :
  ledger_consistent e h ->
  ledger_consistent e (transferred t amount ls lr snd rcv h).
Proof.
  intros Hh. unfold transferred. destruct (Nat.eqb ls lr).
  - apply ledger_consistent_insert; [exact Hh | reflexivity].
  - apply ledger_consistent_insert; [| reflexivity].
    apply ledger_consistent_insert; [exact Hh | reflexivity].
Qed.

Lemma transferred_length (h : list Account) (t : time_Time) (amount : float)
    (ls lr : nat) (snd rcv : Account) :
  length (transferred t amount ls lr snd rcv h) = length h.
Proof.
  unfold transferred. destruct (Nat.eqb ls lr); rewrite ?length_insert; reflexivity.
Qed.

(** One command keeps the ledger consistent and the pointers allocated. *)
Lemma execute_invariant (c : Command) (w : World) :
  ledger_consistent joining_bonus (heap w) -> pointers_valid w ->
  ledger_consistent joining_bonus (heap (execute c w))
  /\ pointers_valid (execute c w).
Proof.
  intros Hh Hp. destruct c; cbn [execute].
  - destruct (createAccount_outcome w)
      as [(i & o & ->)|(u & acct & i & o & Hb & Hu & Hbal & Htx & [-> | ->])].
    + split; assumption.
    + cbn [final heap]. split.
      * apply ledger_consistent_snoc; [exact Hh|].
        unfold balance_matches. rewrite Htx. exact Hbal.
      * intros k l Hk. cbn [bank heap] in *. rewrite length_app.
        specialize (Hp k l Hk). lia.
    + cbn [final heap]. split.
      * apply ledger_consistent_snoc; [exact Hh|].
        unfold balance_matches. rewrite Htx. exact Hbal.
      * intros k l Hk. cbn [bank heap] in *. rewrite length_app. cbn [length].
        apply lookup_insert_Some in Hk as [(_ & <-)|(_ & Hk)]; [lia|].
        specialize (Hp k l Hk). lia.
  - destruct (login_outcome w) as [(i & o & ->)|(k & l & a & i & o & Hb & Ha & ->)].
    + split; assumption.
    + cbn [final heap]. split.
      * apply ledger_consistent_insert; [exact Hh|]. exact (Hh l a Ha).
      * intros k' l' Hk. cbn [bank heap] in *. rewrite length_insert.
        exact (Hp k' l' Hk).
  - destruct (depositCash_outcome w)
      as [(amount & w1 & l & a & Hr & Hc & Ha & _)|(i & o & ->)].
    + rewrite (depositCash_run w w1 amount l a Hr Hc Ha). cbn [final heap]. split.
      * apply ledger_consistent_insert; [exact Hh | reflexivity].
      * intros k' l' Hk. cbn [bank heap] in *. rewrite length_insert.
        exact (Hp k' l' Hk).
    + split; assumption.
  - destruct (withdrawCash_outcome w)
      as [(amount & w1 & l & a & Hr & Hc & Ha & _)|(i & o & ->)].
    + rewrite (withdrawCash_run w w1 amount l a Hr Hc Ha). cbn [final heap]. split.
      * apply ledger_consistent_insert; [exact Hh | reflexivity].
      * intros k' l' Hk. cbn [bank heap] in *. rewrite length_insert.
        exact (Hp k' l' Hk).
    + split; assumption.
  - destruct (transferMoney_outcome w)
      as [(i & o & ->)
         |(r & w1 & lr & amount & w2 & ls & snd & H1 & H2 & H3 & _ & H4 & H5 & H7
           & [(rcv & H6)|(Hnone & _)])].
    + split; assumption.
    + rewrite (transferMoney_run w w1 w2 r amount ls lr snd rcv H1 H2 H3 H4 H5 H6 H7).
      cbn [final heap]. split.
      * apply ledger_consistent_transferred. exact Hh.
      * intros k' l' Hk. cbn [bank heap] in *. rewrite transferred_length.
        exact (Hp k' l' Hk).
    + exfalso. specialize (Hp r lr H2).
      apply lookup_lt_is_Some in Hp. rewrite Hnone in Hp. destruct Hp; discriminate.
  - destruct (deleteAccount_outcome w) as (Hheap & [Hbank|(k & Hbank)]).
    + split; [rewrite Hheap; exact Hh|].
      intros k' l' Hk. rewrite Hbank in Hk. rewrite Hheap. exact (Hp k' l' Hk).
    + split; [rewrite Hheap; exact Hh|].
      intros k' l' Hk. rewrite Hbank in Hk. rewrite Hheap.
      apply lookup_delete_Some in Hk as (_ & Hk). exact (Hp k' l' Hk).
Qed.

Lemma execute_all_invariant (cs : list Command) (w : World) :
  ledger_consistent joining_bonus (heap w) -> pointers_valid w ->
  ledger_consistent joining_bonus (heap (execute_all cs w))
  /\ pointers_valid (execute_all cs w).
Proof.
  revert w. induction cs as [|c cs IH]; intros w Hh Hp; [split; assumption|].
  cbn [execute_all fold_left].
  destruct (execute_invariant c w Hh Hp) as [Hh' Hp'].
  exact (IH _ Hh' Hp').
Qed.

End Invariant.

(** ** Counting records *)

Lemma records_cons (a : Account) (h : list Account) :
  records (a :: h) = length (Transactions a) + records h.
Proof. reflexivity. Qed.

Lemma records_insert (h : list Account) (l : nat) (a a' : Account) :
  h !! l = Some a ->
  records (<[l := a']> h) + length (Transactions a)
  = records h + length (Transactions a').
Proof.
  revert l. induction h as [|x h IH]; intros l Hl; [discriminate Hl|].
  destruct l as [|l].
  - injection Hl as ->. change (<[0 := a']> (a :: h)) with (a' :: h).
    rewrite !records_cons. lia.
  - change (<[S l := a']> (x :: h)) with (x :: <[l := a']> h).
    change ((x :: h) !! S l) with (h !! l) in Hl.
    specialize (IH l Hl). rewrite !records_cons. lia.
Qed.

Lemma records_transferred (h : list Account) (t : time_Time) (amount : float)
    (ls lr : nat) (snd rcv : Account) :
  h !! ls = Some snd -> h !! lr = Some rcv ->
  records (transferred t amount ls lr snd rcv h) = records h + 2.
Proof.
  intros Hs Hr. unfold transferred.
  destruct (Nat.eqb_spec ls lr) as [->|Hne].
  - pose proof (records_insert h lr snd (self_transferred t amount snd) Hs) as H.
    cbn in H. lia.
  - pose proof (records_insert h ls snd (debited t (Username rcv) amount snd) Hs) as H1.
    assert (Hr' : <[ls := debited t (Username rcv) amount snd]> h !! lr = Some rcv)
      by (rewrite list_lookup_insert_ne by exact Hne; exact Hr).
    pose proof (records_insert _ lr rcv (credited t (Username snd) amount rcv) Hr') as H2.
    cbn in H1, H2. lia.
Qed.

Lemma transactions_set_Balance (h : list Account) (l : nat) (a : Account)
    (b : float) :
  h !! l = Some a ->
  map Transactions (<[l := set_Balance b a]> h) = map Transactions h.
Proof.
  intros Hl. change (map Transactions) with (fmap (M := list) Transactions).
  rewrite list_fmap_insert. apply list_insert_id.
  rewrite list_lookup_fmap, Hl. reflexivity.
Qed.

(** ** Transfers, line by line *)

Section TransferFacts.

Context {L : GoLib}.

Lemma transferred_other (h : list Account) (t : time_Time) (amount : float)
    (ls lr : nat) (snd rcv : Account) (p : nat) :
  p <> ls -> p <> lr ->
  transferred t amount ls lr snd rcv h !! p = h !! p.
Proof.
  intros H1 H2. unfold transferred. destruct (Nat.eqb ls lr).
  - apply list_lookup_insert_ne. congruence.
  - rewrite !list_lookup_insert_ne by congruence. reflexivity.
Qed.

Lemma transferred_distinct (h : list Account) (t : time_Time) (amount : float)
    (ls lr : nat) (snd rcv : Account) :
  ls <> lr -> h !! ls = Some snd -> h !! lr = Some rcv ->
  transferred t amount ls lr snd rcv h !! ls
  = Some (debited t (Username rcv) amount snd)
  /\ transferred t amount ls lr snd rcv h !! lr
     = Some (credited t (Username snd) amount rcv).
Proof.
  intros Hne Hs Hr. unfold transferred.
  destruct (Nat.eqb_spec ls lr) as [|_]; [contradiction|]. split.
  - rewrite list_lookup_insert_ne by congruence.
    eapply lookup_insert_same; eassumption.
  - eapply lookup_insert_same.
    rewrite list_lookup_insert_ne by congruence. eassumption.
Qed.

Lemma transferred_self (h : list Account) (t : time_Time) (amount : float)
    (l : nat) (a b : Account) :
  h !! l = Some a ->
  transferred t amount l l a b h !! l = Some (self_transferred t amount a).
Proof.
  intros Ha. unfold transferred. rewrite Nat.eqb_refl.
  eapply lookup_insert_same; eassumption.
Qed.

(** The receiver's name and an acceptable amount are typed, the
    receiver is filed, the sender's balance is not below the amount. *)
Lemma transferMoney_lines (w : World) (rline aline : string) (rest : list string)
    (amount : float) (ls lr : nat) (snd rcv : Account) :
  stdin w = rline :: aline :: rest ->
  typed rline ->
  bank w !! strings_TrimSpace rline = Some lr ->
  enters aline amount ->
  PrimFloat.leb amount 0 = false ->
  currentAccount w = Some ls ->
  heap w !! ls = Some snd ->
  heap w !! lr = Some rcv ->
  PrimFloat.ltb (Balance snd) amount = false ->
  transferMoney w
  = Ok tt (mkWorld (transferred (clock w (ticks w)) amount ls lr snd rcv (heap w))
             (bank w) (currentAccount w) (previousLastLogin w) rest
             (stdout w ++
                ["Enter receiver's username:"; "Enter amount: ";
                 ln (fmt_f2 amount ++ " successfully sent to " ++ Username rcv);
                 ln ("Closing balance:  " ++ fmt_v (sender_balance amount ls lr snd))])
             (clock w) (S (ticks w))).
Proof.
  intros Hin Hr Hb [Ht Hp] Hpos Hc Hs Hrc Hf.
  rewrite (transferMoney_run w _ _ _ amount ls lr snd rcv
             (readString_line _ w rline _ Hin Hr) Hb
             (readAmount_accepts
                (console (aline :: rest) (stdout w ++ ["Enter receiver's username:"]) w)
                aline rest amount eq_refl Ht Hp Hpos)
             Hc Hs Hrc Hf).
  cbn [stdin stdout console]. rewrite <- !app_assoc. reflexivity.
Qed.

(** Whatever [transferMoney] does, it leaves every history as it was or
    it has made the two records of one transfer. *)
Lemma transferMoney_pair_or_nothing (w : World) :
  map Transactions (heap (final (transferMoney w))) = map Transactions (heap w)
  \/ pair_recorded (heap w) (heap (final (transferMoney w))).
Proof.
  destruct (transferMoney_outcome w)
    as [(i & o & ->)
       |(r & w1 & lr & amount & w2 & ls & snd & H1 & H2 & H3 & _ & H4 & H5 & H7
         & [(rcv & H6)|(_ & -> & _)])].
  - left. reflexivity.
  - right.
    rewrite (transferMoney_run w w1 w2 r amount ls lr snd rcv H1 H2 H3 H4 H5 H6 H7).
    cbn [final heap]. exists (clock w (ticks w)), amount, ls, lr, snd, rcv. auto.
  - left. apply transactions_set_Balance. exact H5.
Qed.

(** Unless every check of [transferMoney] passes, the store is as it was. *)
Lemma transferMoney_unchanged_or_validated (w : World) :
  same_store w (final (transferMoney w)) \/ transfer_validated w.
Proof.
  destruct (transferMoney_outcome w)
    as [(i & o & ->)
       |(r & w1 & lr & amount & w2 & ls & snd & H1 & H2 & H3 & H0 & H4 & H5 & H7 & _)].
  - left. repeat split.
  - right. exists r, w1, lr, amount, w2, ls, snd. auto 10.
Qed.

End TransferFacts.

(** ** Transfers that are refused *)

Section RefusedTransfers.

Context {L : GoLib}.

Lemma transferMoney_unknown_receiver (w : World) (rline : string)
    (rest : list string) :
  stdin w = rline :: rest ->
  typed rline ->
  bank w !! strings_TrimSpace rline = None ->
  transferMoney w
  = Ok tt (console rest
             (stdout w ++ ["Enter receiver's username:";
                           ln "ERROR: receiver not found"]) w).
Proof.
  intros Hin Hr Hb. unfold transferMoney.
  rewrite (bind_step _ _ _ _ _ (readString_line _ w rline _ Hin Hr)).
  unfold bind at 1, get_bank. cbn [bank console]. rewrite Hb.
  unfold fmt_Println. wsimpl. rewrite <- app_assoc. reflexivity.
Qed.

(** The receiver is filed: what is left of [transferMoney] is the
    reading of the amount and the checks. *)
Lemma transferMoney_known_receiver (w : World) (rline : string)
    (rest : list string) (lr : nat) :
  stdin w = rline :: rest ->
  typed rline ->
  bank w !! strings_TrimSpace rline = Some lr ->
  transferMoney w
  = bind readAmount (transferMoney_checked (Some lr))
      (console rest (stdout w ++ ["Enter receiver's username:"]) w).
Proof.
  intros Hin Hr Hb. unfold transferMoney.
  rewrite (bind_step _ _ _ _ _ (readString_line _ w rline _ Hin Hr)).
  unfold bind at 1, get_bank. cbn [bank console]. rewrite Hb. reflexivity.
Qed.

Lemma transferMoney_amount_refused (w : World) (rline aline : string)
    (rest : list string) (lr : nat) (amount : float) :
  stdin w = rline :: aline :: rest ->
  typed rline ->
  bank w !! strings_TrimSpace rline = Some lr ->
  enters aline amount ->
  PrimFloat.leb amount 0 = true ->
  transferMoney w
  = bind readAmount (transferMoney_checked (Some lr))
      (console rest
         (stdout w ++ ["Enter receiver's username:"; "Enter amount: ";
                       ln "ERROR: invalid input, amount should be greater than 0"]) w).
Proof.
  intros Hin Hr Hb [Ht Hp] Hle.
  rewrite (transferMoney_known_receiver w rline _ lr Hin Hr Hb).
  unfold bind.
  rewrite (readAmount_rejects
             (console (aline :: rest) (stdout w ++ ["Enter receiver's username:"]) w)
             aline rest amount eq_refl Ht Hp Hle).
  cbn [stdout console]. rewrite <- app_assoc. reflexivity.
Qed.

Lemma transferMoney_checked_negative (w : World) (lr : nat) (amount : float) :
  PrimFloat.ltb amount 0 = true ->
  transferMoney_checked (Some lr) amount w
  = Ok tt (console (stdin w)
             (stdout w ++ [ln "ERROR: sending amount should be positive"]) w).
Proof.
  intros H. unfold transferMoney_checked. rewrite H. reflexivity.
Qed.

Lemma transferMoney_insufficient (w : World) (rline aline : string)
    (rest : list string) (lr ls : nat) (amount : float) (snd : Account) :
  stdin w = rline :: aline :: rest ->
  typed rline ->
  bank w !! strings_TrimSpace rline = Some lr ->
  enters aline amount ->
  PrimFloat.leb amount 0 = false ->
  currentAccount w = Some ls ->
  heap w !! ls = Some snd ->
  PrimFloat.ltb (Balance snd) amount = true ->
  transferMoney w
  = Ok tt (console rest
             (stdout w ++ ["Enter receiver's username:"; "Enter amount: ";
                           ln "ERROR: insufficient funds"]) w).
Proof.
  intros Hin Hr Hb [Ht Hp] Hpos Hc Hs Hf.
  rewrite (transferMoney_known_receiver w rline _ lr Hin Hr Hb).
  erewrite bind_step
    by (apply (readAmount_accepts _ aline rest amount); [reflexivity | exact Ht | exact Hp | exact Hpos]).
  unfold transferMoney_checked.
  rewrite (leb_false_ltb_false _ _ Hpos).
  unfold bind at 1, get_currentAccount. cbn [currentAccount console]. rewrite Hc.
  erewrite (bind_step (load _)) by (apply load_ok; cbn [heap console]; exact Hs).
  rewrite Hf. unfold fmt_Println. wsimpl. rewrite <- !app_assoc. reflexivity.
Qed.

End RefusedTransfers.

(** ** Deposits and withdrawals in sequence *)

Section Sequences.

Context {L : GoLib}.

Lemma perform_run (w : World) (line : string) (rest : list string)
    (step : LedgerOp * float) (l : nat) (a : Account) :
  stdin w = line :: rest ->
  accepted line step ->
  currentAccount w = Some l ->
  heap w !! l = Some a ->
  exists w' a',
    perform (fst step) w = Ok tt w'
    /\ heap w' = <[l := a']> (heap w)
    /\ Balance a' = apply_amount (Balance a) step
    /\ length (Transactions a') = S (length (Transactions a))
    /\ stdin w' = rest /\ currentAccount w' = Some l /\ bank w' = bank w.
Proof.
  intros Hin [[Ht Hp] Hpos] Hc Ha.
  pose proof (readAmount_accepts w line rest (snd step) Hin Ht Hp Hpos) as Hr.
  destruct step as [[|] amount]; cbn [fst snd perform] in *.
  - eexists _, _. split; [exact (depositCash_run w _ amount l a Hr Hc Ha)|].
    cbn [heap stdin currentAccount bank console]. repeat split. exact Hc.
  - eexists _, _. split; [exact (withdrawCash_run w _ amount l a Hr Hc Ha)|].
    cbn [heap stdin currentAccount bank console]. repeat split. exact Hc.
Qed.

(** Each step applies its amount to the balance the step before left. *)
Lemma perform_all_run (steps : list (LedgerOp * float)) (lines rest : list string)
    (w : World) (l : nat) (a : Account) :
  Forall2 accepted lines steps ->
  stdin w = lines ++ rest ->
  currentAccount w = Some l ->
  heap w !! l = Some a ->
  exists w' a',
    perform_all (map fst steps) w = Ok tt w'
    /\ heap w' = <[l := a']> (heap w)
    /\ Balance a' = fold_left apply_amount steps (Balance a)
    /\ length (Transactions a') = length steps + length (Transactions a)
    /\ stdin w' = rest /\ currentAccount w' = Some l /\ bank w' = bank w.
Proof.
  intros HF. revert w a.
  induction HF as [|line step lines steps Hacc HF IH]; intros w a Hin Hc Ha.
  - exists w, a. cbn. repeat split; try assumption.
    symmetry. apply list_insert_id. exact Ha.
  - cbn in Hin.
    destruct (perform_run w line (lines ++ rest) step l a Hin Hacc Hc Ha)
      as (w1 & a1 & Hrun & Hheap & Hbal & Hlen & Hin1 & Hc1 & Hb1).
    assert (Ha1 : heap w1 !! l = Some a1)
      by (rewrite Hheap; eapply lookup_insert_same; exact Ha).
    destruct (IH w1 a1 Hin1 Hc1 Ha1)
      as (w' & a' & Hrun' & Hheap' & Hbal' & Hlen' & Hin' & Hc' & Hb').
    exists w', a'. cbn [map perform_all fold_left length].
    rewrite (bind_step _ _ _ _ _ Hrun). split; [exact Hrun'|].
    split; [rewrite Hheap', Hheap; apply list_insert_insert_eq|].
    split; [rewrite Hbal', Hbal; reflexivity|].
    split; [rewrite Hlen', Hlen; lia|].
    split; [exact Hin'|]. split; [exact Hc'|]. rewrite Hb', Hb1. reflexivity.
Qed.

End Sequences.

(** ** Saving and loading *)

Section PersistenceFacts.

Context {L : GoLib} {J : GoJSON}.

Lemma marshal_float_finite (f : float) :
  PrimFloat.is_finite f = true -> marshal_float f = inl (JNumber f).
Proof.
  unfold PrimFloat.is_finite, marshal_float. intros H.
  apply negb_true_iff in H. rewrite H. reflexivity.
Qed.

Lemma marshal_float_not_finite (f : float) :
  PrimFloat.is_finite f = false ->
  marshal_float f = inr ("json: unsupported value: " ++ fmt_v f)%string.
Proof.
  unfold PrimFloat.is_finite, marshal_float. intros H.
  apply negb_false_iff in H. rewrite H. reflexivity.
Qed.

Lemma string_ok_eq (s : string) : string_ok s = true -> json_string s = s.
Proof. unfold string_ok. apply String.eqb_eq. Qed.

Lemma time_ok_round_trip (t : time_Time) :
  time_ok t = true ->
  exists s, marshal_time t = inl (JString s) /\ time_UnmarshalJSON s = Some t.
Proof.
  unfold time_ok, marshal_time. destruct (time_MarshalJSON t) as [s|e]; [|discriminate].
  destruct (time_UnmarshalJSON s) as [t'|] eqn:E; [|discriminate].
  intros H. apply Z.eqb_eq in H. subst t'. exists s. auto.
Qed.

(** A transaction is read back as it was written. *)
Lemma decode_marshal_Transaction (t : Transaction) :
  storable_Transaction t = true ->
  exists v, marshal_Transaction t = inl v /\ decode_Transaction v = Some t.
Proof.
  unfold storable_Transaction. rewrite !andb_true_iff.
  intros (((((Ht & Hc) & Ha) & Hb) & Hm) & Hy).
  destruct (time_ok_round_trip _ Ht) as (s & Hs & Hu).
  unfold marshal_Transaction.
  rewrite Hs, (marshal_float_finite _ Ha), (marshal_float_finite _ Hb).
  rewrite (string_ok_eq _ Hc), (string_ok_eq _ Hm), (string_ok_eq _ Hy).
  eexists. split; [reflexivity|].
  destruct t as [tm cp am cb ms ty]. cbn in *. rewrite Hu. reflexivity.
Qed.

Lemma decode_marshal_Transaction_list (l : list Transaction) :
  forallb storable_Transaction l = true ->
  exists vs, map_error marshal_Transaction l = inl vs
             /\ map_option decode_Transaction vs = Some l.
Proof.
  induction l as [|t l IH]; intros H.
  - exists []. split; reflexivity.
  - cbn in H. apply andb_true_iff in H as [Ht Hl].
    destruct (decode_marshal_Transaction t Ht) as (v & Hv & Hd).
    destruct (IH Hl) as (vs & Hvs & Hds).
    exists (v :: vs). cbn. rewrite Hv, Hvs, Hd, Hds. split; reflexivity.
Qed.

(** An account is read back as it was written. *)
Lemma decode_marshal_Account (a : Account) :
  storable_Account a = true ->
  exists v, marshal_Account a = inl v /\ decode_Account v = Some a.
Proof.
  unfold storable_Account. rewrite !andb_true_iff.
  intros (((((Hf & Hu) & Hp) & Hb) & Ht) & Hl).
  destruct (time_ok_round_trip _ Ht) as (s & Hs & Hus).
  unfold marshal_Account.
  rewrite (marshal_float_finite _ Hb), Hs.
  rewrite (string_ok_eq _ Hf), (string_ok_eq _ Hu), (string_ok_eq _ Hp).
  destruct a as [fn un pw bal ll txs]. cbn [Transactions FullName Username Password
    Balance LastLogin] in *.
  destruct txs as [|t txs].
  - eexists. split; [reflexivity|]. cbn. rewrite Hus. reflexivity.
  - destruct (decode_marshal_Transaction_list (t :: txs) Hl) as (vs & Hvs & Hds).
    unfold marshal_Transactions. rewrite Hvs.
    eexists. split; [reflexivity|]. cbn. rewrite Hus. cbn.
    cbn in Hds. rewrite Hds. reflexivity.
Qed.

Lemma decode_marshal_entries (w : World) (es : list (string * nat)) :
  (forall k l, (k, l) ∈ es ->
     exists a, heap w !! l = Some a /\ storable_Account a = true
               /\ string_ok k = true) ->
  exists members accts,
    map_error (marshal_entry w) es = inl members
    /\ map_option decode_entry members = Some accts
    /\ pointed w es accts.
Proof.
  induction es as [|[k l] es IH]; intros H.
  - exists [], []. repeat split. constructor.
  - destruct (H k l) as (a & Ha & Hs & Hk); [left|].
    destruct IH as (members & accts & Hm & Hd & Hp).
    { intros k' l' Hin. apply H. right. exact Hin. }
    destruct (decode_marshal_Account a Hs) as (v & Hv & Hdv).
    exists ((k, v) :: members), ((k, a) :: accts).
    cbn. unfold marshal_entry at 1. cbn [fst snd]. rewrite Ha, Hv, Hm.
    rewrite (string_ok_eq _ Hk). unfold decode_entry at 1. cbn [fst snd].
    rewrite Hdv, Hd. cbn. repeat split. constructor; [split; [reflexivity | exact Ha] | exact Hp].
Qed.

Lemma sorted_entries_elem (w : World) (k : string) (l : nat) :
  (k, l) ∈ sorted_entries w <-> bank w !! k = Some l.
Proof.
  unfold sorted_entries. rewrite merge_sort_Permutation.
  apply elem_of_map_to_list.
Qed.

Lemma sorted_entries_NoDup (w : World) : NoDup ((sorted_entries w).*1).
Proof.
  unfold sorted_entries. rewrite merge_sort_Permutation.
  apply NoDup_fst_map_to_list.
Qed.

Lemma pointed_keys (w : World) (es : list (string * nat))
    (accts : list (string * Account)) :
  pointed w es accts -> accts.*1 = es.*1.
Proof.
  induction 1 as [|e ka es accts [Hk _] _ IH]; [reflexivity|].
  cbn. rewrite Hk, IH. reflexivity.
Qed.

Lemma pointed_elem (w : World) (es : list (string * nat))
    (accts : list (string * Account)) (k : string) (a : Account) :
  pointed w es accts ->
  (k, a) ∈ accts <-> exists l, (k, l) ∈ es /\ heap w !! l = Some a.
Proof.
  induction 1 as [|[k1 l1] [k2 a2] es accts [Hk Ha] _ IH]; cbn in *.
  - split; [intros H; inversion H | intros (l & H & _); inversion H].
  - subst k2. rewrite elem_of_cons, IH. split.
    + intros [E|(l & Hin & Hl)].
      * injection E as -> ->. exists l1. split; [left | exact Ha].
      * exists l. split; [right; exact Hin | exact Hl].
    + intros (l & Hin & Hl). apply elem_of_cons in Hin as [E|Hin].
      * injection E as -> ->. left. congruence.
      * right. exists l. auto.
Qed.

Lemma account_at_store_entry (w : World) (k k' : string) (a : Account) :
  pointers_valid w ->
  account_at (set_bank (<[k := length (heap w)]> (bank w))
                (set_heap (heap w ++ [a]) w)) k'
  = if decide (k = k') then Some a else account_at w k'.
Proof.
  intros Hp. unfold account_at. cbn [bank heap set_bank set_heap].
  destruct (decide (k = k')) as [->|Hne].
  - rewrite lookup_insert_eq. apply lookup_new.
  - rewrite lookup_insert_ne by exact Hne.
    destruct (bank w !! k') as [l|] eqn:E; [|reflexivity].
    apply lookup_app_l. exact (Hp _ _ E).
Qed.

Lemma pointers_valid_store_entry (w : World) (k : string) (a : Account) :
  pointers_valid w ->
  pointers_valid (set_bank (<[k := length (heap w)]> (bank w))
                    (set_heap (heap w ++ [a]) w)).
Proof.
  intros Hp k' l Hk. cbn [bank heap set_bank set_heap] in *.
  rewrite length_app. cbn [length].
  apply lookup_insert_Some in Hk as [(_ & <-)|(_ & Hk)]; [lia|].
  specialize (Hp _ _ Hk). lia.
Qed.

(** After the entries are stored, each name gives the account of its
    entry, and the other names give what they gave before. *)
Lemma account_at_store_entries (accts : list (string * Account)) (w : World)
    (k : string) :
  pointers_valid w ->
  NoDup (accts.*1) ->
  pointers_valid (store_entries accts w)
  /\ account_at (store_entries accts w) k
     = match (list_to_map accts : gmap string Account) !! k with
       | Some a => Some a
       | None => account_at w k
       end.
Proof.
  revert w. induction accts as [|[k1 a1] accts IH]; intros w Hp Hnd.
  - cbn. rewrite lookup_empty. auto.
  - cbn [fmap list_fmap fst] in Hnd. apply NoDup_cons in Hnd as [Hnot Hnd].
    unfold store_entries. cbn [fold_left fst snd].
    destruct (IH _ (pointers_valid_store_entry w k1 a1 Hp) Hnd) as [Hp' Heq].
    split; [exact Hp'|].
    unfold store_entries in Heq. rewrite Heq.
    rewrite (account_at_store_entry w k1 k a1 Hp).
    cbn [list_to_map foldr]. cbn [uncurry fst snd].
    destruct (decide (k1 = k)) as [->|Hne].
    + rewrite lookup_insert_eq.
      assert (Hnone : (list_to_map accts : gmap string Account) !! k = None)
        by (apply not_elem_of_list_to_map_1; exact Hnot).
      rewrite Hnone. reflexivity.
    + rewrite lookup_insert_ne by exact Hne. reflexivity.
Qed.

Lemma account_at_Some (w : World) (k : string) (a : Account) :
  account_at w k = Some a <-> exists l, bank w !! k = Some l /\ heap w !! l = Some a.
Proof.
  unfold account_at. destruct (bank w !! k) as [l|].
  - split; [intros H; exists l; auto | intros (l' & E & H); congruence].
  - split; [discriminate | intros (l' & E & _); discriminate].
Qed.

(** What [saveData] writes for a bank whose accounts can all be written,
    [loadData] reads back in a new process, account for account. *)
Lemma save_load (p : Process) (w0 : World) :
  pointers_valid (world p) ->
  (forall k a, account_at (world p) k = Some a ->
     storable_Account a = true /\ string_ok k = true) ->
  heap w0 = [] -> bank w0 = ∅ ->
  exists doc,
    saveData p = Continues (mkProcess (world p) (mkDisk (Some doc) false))
    /\ exists w',
         loadData (mkProcess w0 (mkDisk (Some doc) false))
         = Continues (mkProcess w' (mkDisk (Some doc) true))
         /\ pointers_valid w'
         /\ forall k, account_at w' k = account_at (world p) k.
Proof.
  intros Hp Hs Hh0 Hb0.
  destruct (decode_marshal_entries (world p) (sorted_entries (world p)))
    as (members & accts & Hm & Hd & Hpt).
  { intros k l Hin. apply sorted_entries_elem in Hin.
    destruct (lookup_lt_is_Some_2 _ _ (Hp _ _ Hin)) as [a Ha].
    exists a. split; [exact Ha|]. apply Hs. apply account_at_Some. eauto. }
  exists (JObject members). split.
  { unfold saveData, json_MarshalIndent. rewrite Hm. reflexivity. }
  exists (store_entries accts w0). split.
  { unfold loadData. cbn [disk db_json_lock db_json world json_Decode].
    rewrite Hd. reflexivity. }
  assert (Hnd : NoDup (accts.*1))
    by (rewrite (pointed_keys _ _ _ Hpt); apply sorted_entries_NoDup).
  assert (Hp0 : pointers_valid w0) by (apply pointers_valid_empty; exact Hb0).
  split; [exact (proj1 (account_at_store_entries accts w0 "" Hp0 Hnd))|].
  intros k.
  destruct (account_at_store_entries accts w0 k Hp0 Hnd) as [_ Heq].
  rewrite Heq.
  assert (H0 : account_at w0 k = None)
    by (unfold account_at; rewrite Hb0, lookup_empty; reflexivity).
  rewrite H0.
  transitivity ((list_to_map accts : gmap string Account) !! k);
    [destruct (list_to_map accts !! k); reflexivity|].
  apply option_eq. intros a.
  rewrite <- (elem_of_list_to_map _ _ _ Hnd).
  rewrite (pointed_elem _ _ _ k a Hpt), account_at_Some.
  split; intros (l & H1 & H2); exists l; split; try exact H2;
    apply sorted_entries_elem; exact H1.
Qed.

(** A balance that is not finite ends [saveData] in a panic: the file
    and the lock stay as they are. *)
Lemma saveData_unsupported (p : Process) (k : string) (l : nat) (a : Account) :
  map_to_list (bank (world p)) = [(k, l)] ->
  heap (world p) !! l = Some a ->
  PrimFloat.is_finite (Balance a) = false ->
  saveData p
  = Panics ("json: unsupported value: " ++ fmt_v (Balance a))%string
      (println ("json: unsupported value: " ++ fmt_v (Balance a))%string p).
Proof.
  intros Hb Ha Hf. unfold saveData, json_MarshalIndent, sorted_entries.
  rewrite Hb. cbn. unfold marshal_entry. cbn [fst snd]. rewrite Ha.
  unfold marshal_Account. rewrite (marshal_float_not_finite _ Hf). reflexivity.
Qed.

End PersistenceFacts.

(** ** Programs that only talk *)

Section Talk.

Context {L : GoLib} {J : GoJSON}.

Lemma console_only_bind {A B : Type} (c : M A) (k : A -> M B) :
  console_only c -> (forall a, console_only (k a)) -> console_only (bind c k).
Proof.
  intros Hc Hk w. unfold bind. destruct (Hc w) as (i & o & H).
  destruct (c w) as [a w1|msg w1|w1]; cbn [final] in H; subst w1.
  - destruct (Hk a (console i o w)) as (i' & o' & H'). exists i', o'. exact H'.
  - exists i, o. reflexivity.
  - exists i, o. reflexivity.
Qed.

Lemma console_only_ret {A : Type} (a : A) : console_only (ret a).
Proof. intros w. exists (stdin w), (stdout w). cbn. symmetry. apply console_id. Qed.

Lemma console_only_panic {A : Type} (msg : string) : console_only (panic (A := A) msg).
Proof. intros w. exists (stdin w), (stdout w). cbn. symmetry. apply console_id. Qed.

Lemma console_only_Print (s : string) : console_only (fmt_Print s).
Proof. intros w. eexists _, _. reflexivity. Qed.

Lemma console_only_Println (s : string) : console_only (fmt_Println s).
Proof. intros w. eexists _, _. reflexivity. Qed.

Lemma console_only_load (p : option nat) : console_only (load p).
Proof.
  intros w. exists (stdin w), (stdout w). rewrite console_id.
  destruct (load_outcome p w) as [(l & a & _ & _ & ->)| ->]; reflexivity.
Qed.

Lemma console_only_get_currentAccount : console_only get_currentAccount.
Proof. intros w. exists (stdin w), (stdout w). cbn. symmetry. apply console_id. Qed.

Lemma console_only_readString (message : string) : console_only (readString message).
Proof.
  intros w. pose proof (readString_outcome message w) as H.
  destruct (readString message w) as [s w1|msg w1|w1]; [| contradiction |].
  - destruct H as (i & o & -> & _). exists i, o. reflexivity.
  - destruct H as (o & ->). exists [], o. reflexivity.
Qed.

Lemma console_only_readAmount : console_only readAmount.
Proof.
  intros w. pose proof (readAmount_outcome w) as H.
  destruct (readAmount w) as [s w1|msg w1|w1]; [| contradiction |].
  - destruct H as (i & o & -> & _). exists i, o. reflexivity.
  - destruct H as (o & ->). exists [], o. reflexivity.
Qed.

Lemma console_only_printSelectMenu (options : list string) :
  console_only (printSelectMenu options).
Proof.
  unfold printSelectMenu. apply console_only_bind; [apply console_only_Println|].
  intros _. generalize 0. induction options as [|option rest IH]; intros n.
  - apply console_only_ret.
  - cbn [printSelectMenu_loop].
    apply console_only_bind; [apply console_only_Print | intros _; apply IH].
Qed.

Lemma console_only_listTransactions_loop (n : nat) (i end_ : Z)
    (transactions : list Transaction) :
  console_only (listTransactions_loop n i end_ transactions).
Proof.
  revert i. induction n as [|n IH]; intros i; [apply console_only_ret|].
  cbn [listTransactions_loop].
  destruct (i <? end_)%Z; [| apply console_only_ret].
  destruct (i =? Z.of_nat (length transactions))%Z; [apply console_only_ret|].
  destruct (i <? 0)%Z; [apply console_only_panic|].
  destruct (transactions !! Z.to_nat i); [| apply console_only_panic].
  apply console_only_bind; [apply console_only_Println | intros _; apply IH].
Qed.

Lemma console_only_listTransactions (start end_ : Z) :
  console_only (listTransactions start end_).
Proof.
  unfold listTransactions.
  apply console_only_bind; [apply console_only_get_currentAccount | intros cur].
  apply console_only_bind; [apply console_only_load | intros a].
  apply console_only_listTransactions_loop.
Qed.

Lemma console_only_checkAccountInfo : console_only checkAccountInfo.
Proof.
  unfold checkAccountInfo.
  apply console_only_bind; [apply console_only_get_currentAccount | intros cur].
  apply console_only_bind; [apply console_only_load | intros a].
  do 3 (apply console_only_bind; [apply console_only_Println | intros _]).
  apply console_only_bind.
  { intros w. exists (stdin w), (stdout w). cbn. symmetry. apply console_id. }
  intros prev. apply console_only_bind.
  { destruct (negb (IsZero prev)); [apply console_only_Println | apply console_only_ret]. }
  intros _. apply console_only_bind; [apply console_only_Println | intros _].
  apply console_only_listTransactions.
Qed.

End Talk.

(** ** Objects over time *)

Lemma later_account_refl (a : Account) : later_account a a.
Proof. repeat split. exists []. reflexivity. Qed.

Lemma later_account_trans (a b c : Account) :
  later_account a b -> later_account b c -> later_account a c.
Proof.
  intros (H1 & H2 & H3 & n1 & H4) (G1 & G2 & G3 & n2 & G4).
  repeat split; try congruence.
  exists (n2 ++ n1). rewrite G4, H4, app_assoc. reflexivity.
Qed.

Lemma later_heap_refl (h : list Account) : later_heap h h.
Proof. intros l a H. exists a. split; [exact H | apply later_account_refl]. Qed.

Lemma later_heap_trans (h1 h2 h3 : list Account) :
  later_heap h1 h2 -> later_heap h2 h3 -> later_heap h1 h3.
Proof.
  intros H12 H23 l a Ha.
  destruct (H12 l a Ha) as (b & Hb & Hab).
  destruct (H23 l b Hb) as (c & Hc & Hbc).
  exists c. split; [exact Hc | exact (later_account_trans _ _ _ Hab Hbc)].
Qed.

Lemma later_heap_insert (h : list Account) (l : nat) (a a' : Account) :
  h !! l = Some a -> later_account a a' -> later_heap h (<[l := a']> h).
Proof.
  intros Ha Hl l' b Hb. destruct (decide (l = l')) as [<-|Hne].
  - exists a'. split; [eapply lookup_insert_same; exact Ha|]. congruence.
  - exists b. split; [rewrite list_lookup_insert_ne by exact Hne; exact Hb|].
    apply later_account_refl.
Qed.

Lemma later_heap_snoc (h : list Account) (a : Account) : later_heap h (h ++ [a]).
Proof.
  intros l b Hb. exists b. split; [| apply later_account_refl].
  apply lookup_app_l_Some. exact Hb.
Qed.

Lemma later_heap_transferred (h : list Account) (t : time_Time) (amount : float)
    (ls lr : nat) (snd rcv : Account) :
  h !! ls = Some snd -> h !! lr = Some rcv ->
  later_heap h (transferred t amount ls lr snd rcv h).
Proof.
  intros Hs Hr. unfold transferred. destruct (Nat.eqb_spec ls lr) as [->|Hne].
  - apply (later_heap_insert h lr snd); [exact Hs|].
    repeat split. eexists [_; _]. reflexivity.
  - apply (later_heap_trans _ (<[ls := debited t (Username rcv) amount snd]> h)).
    + apply (later_heap_insert h ls snd); [exact Hs|].
      repeat split. eexists [_]. reflexivity.
    + apply (later_heap_insert _ lr rcv).
      * rewrite list_lookup_insert_ne by exact Hne. exact Hr.
      * repeat split. eexists [_]. reflexivity.
Qed.

Section Later.

Context {L : GoLib}.

(** No command takes an object away, renames it, changes its
    password, or drops or rewrites a record of its history. *)
Lemma execute_later_heap (c : Command) (w : World) :
  later_heap (heap w) (heap (execute c w)).
Proof.
  destruct c; cbn [execute].
  - destruct (createAccount_outcome w)
      as [(i & o & ->)|(u & acct & i & o & _ & _ & _ & _ & [-> | ->])];
      cbn [final heap console]; [apply later_heap_refl | |]; apply later_heap_snoc.
  - destruct (login_outcome w) as [(i & o & ->)|(k & l & a & i & o & _ & Ha & ->)];
      cbn [final heap console]; [apply later_heap_refl|].
    apply (later_heap_insert _ l a _ Ha). repeat split. exists []. reflexivity.
  - destruct (depositCash_outcome w)
      as [(amount & w1 & l & a & Hr & Hc & Ha & _)|(i & o & ->)];
      [| apply later_heap_refl].
    rewrite (depositCash_run w w1 amount l a Hr Hc Ha). cbn [final heap].
    apply (later_heap_insert _ l a _ Ha). repeat split. eexists [_]. reflexivity.
  - destruct (withdrawCash_outcome w)
      as [(amount & w1 & l & a & Hr & Hc & Ha & _)|(i & o & ->)];
      [| apply later_heap_refl].
    rewrite (withdrawCash_run w w1 amount l a Hr Hc Ha). cbn [final heap].
    apply (later_heap_insert _ l a _ Ha). repeat split. eexists [_]. reflexivity.
  - destruct (transferMoney_outcome w)
      as [(i & o & ->)
         |(r & w1 & lr & amount & w2 & ls & snd & H1 & H2 & H3 & _ & H4 & H5 & H7
           & [(rcv & H6)|(_ & -> & _)])].
    + apply later_heap_refl.
    + rewrite (transferMoney_run w w1 w2 r amount ls lr snd rcv H1 H2 H3 H4 H5 H6 H7).
      cbn [final heap]. apply later_heap_transferred; assumption.
    + apply (later_heap_insert _ ls snd _ H5). repeat split. exists []. reflexivity.
  - destruct (deleteAccount_outcome w) as [-> _]. apply later_heap_refl.
Qed.

(** A command other than account creation files no new name. *)
Lemma execute_bank (c : Command) (w : World) (k : string) (l : nat) :
  bank (execute c w) !! k = Some l ->
  bank w !! k = Some l
  \/ (c = CreateAccount /\ bank w !! k = None /\ l = length (heap w)
      /\ exists a, heap (execute c w) = heap w ++ [a] /\ Username a = k).
Proof.
  destruct c; cbn [execute].
  - destruct (createAccount_outcome w)
      as [(i & o & ->)|(u & acct & i & o & Hb & Hu & _ & _ & [-> | ->])];
      cbn [final bank heap console]; auto.
    intros Hk. apply lookup_insert_Some in Hk as [(<- & <-)|(_ & Hk)]; [|auto].
    right. repeat split; [exact Hb|]. exists acct. auto.
  - destruct (login_outcome w) as [(i & o & ->)|(k' & l' & a & i & o & _ & _ & ->)];
      cbn [final bank console]; auto.
  - destruct (depositCash_outcome w)
      as [(amount & w1 & l' & a & Hr & Hc & Ha & _)|(i & o & ->)];
      [rewrite (depositCash_run w w1 amount l' a Hr Hc Ha)|]; cbn [final bank console]; auto.
  - destruct (withdrawCash_outcome w)
      as [(amount & w1 & l' & a & Hr & Hc & Ha & _)|(i & o & ->)];
      [rewrite (withdrawCash_run w w1 amount l' a Hr Hc Ha)|]; cbn [final bank console]; auto.
  - destruct (transferMoney_outcome w)
      as [(i & o & ->)
         |(r & w1 & lr & amount & w2 & ls & snd & H1 & H2 & H3 & _ & H4 & H5 & H7
           & [(rcv & H6)|(_ & _ & -> & _)])]; auto.
    rewrite (transferMoney_run w w1 w2 r amount ls lr snd rcv H1 H2 H3 H4 H5 H6 H7).
    cbn [final bank]. auto.
  - destruct (deleteAccount_outcome w) as [_ [-> | (k' & ->)]]; auto.
    intros Hk. apply lookup_delete_Some in Hk as (_ & Hk). auto.
Qed.

Lemma execute_filed_by_username (c : Command) (w : World) :
  pointers_valid w -> filed_by_username w -> filed_by_username (execute c w).
Proof.
  intros Hp Hf k l a Hk Ha.
  destruct (execute_bank c w k l Hk) as [Hk0|(_ & _ & -> & a0 & Hh & Hu)].
  - destruct (lookup_lt_is_Some_2 _ _ (Hp _ _ Hk0)) as [a0 Ha0].
    destruct (execute_later_heap c w l a0 Ha0) as (a' & Ha' & Hu & _).
    rewrite Ha in Ha'. injection Ha' as <-. rewrite Hu. exact (Hf _ _ _ Hk0 Ha0).
  - rewrite Hh, lookup_new in Ha. injection Ha as <-. exact Hu.
Qed.

Lemma execute_store_invariant (c : Command) (w : World) :
  store_invariant w -> store_invariant (execute c w).
Proof.
  intros (Hl & Hp & Hf).
  destruct (execute_invariant c w Hl Hp) as [Hl' Hp'].
  split; [exact Hl'|]. split; [exact Hp'|].
  apply execute_filed_by_username; assumption.
Qed.

Lemma store_invariant_console (w : World) (i o : list string) :
  store_invariant w -> store_invariant (console i o w).
Proof. intros H. exact H. Qed.

Lemma preserves_bind (I : World -> Prop) {A B : Type} (c : M A) (k : A -> M B) :
  preserves I c -> (forall a, preserves I (k a)) -> preserves I (bind c k).
Proof.
  intros Hc Hk w Hw. specialize (Hc w Hw). unfold bind.
  destruct (c w) as [a w1|msg w1|w1]; cbn [final] in *; [apply Hk|..]; exact Hc.
Qed.

Lemma console_only_preserves {A : Type} (c : M A) :
  console_only c -> preserves store_invariant c.
Proof.
  intros Hc w Hw. destruct (Hc w) as (i & o & ->). exact Hw.
Qed.

End Later.

(** ** The menus keep the store in order *)

Section MenuFacts.

Context {L : GoLib} {J : GoJSON}.

Lemma preserves_command (c : Command) :
  match c with
  | CreateAccount => preserves store_invariant createAccount
  | Login => preserves store_invariant login
  | DepositCash => preserves store_invariant depositCash
  | WithdrawCash => preserves store_invariant withdrawCash
  | TransferMoney => preserves store_invariant transferMoney
  | DeleteAccount => preserves store_invariant deleteAccount
  end.
Proof.
  destruct c; intros w Hw.
  - exact (execute_store_invariant CreateAccount w Hw).
  - exact (execute_store_invariant Login w Hw).
  - exact (execute_store_invariant DepositCash w Hw).
  - exact (execute_store_invariant WithdrawCash w Hw).
  - exact (execute_store_invariant TransferMoney w Hw).
  - exact (execute_store_invariant DeleteAccount w Hw).
Qed.

Lemma preserves_accountLoop_loop (fuel : nat) :
  preserves store_invariant (accountLoop_loop fuel).
Proof.
  induction fuel as [|fuel IH]; [intros w Hw; exact Hw|].
  cbn [accountLoop_loop].
  apply preserves_bind;
    [apply console_only_preserves, console_only_get_currentAccount | intros cur].
  apply preserves_bind; [apply console_only_preserves, console_only_load | intros a].
  apply preserves_bind;
    [apply console_only_preserves, console_only_readString | intros input].
  destruct (String.eqb input "1").
  { apply preserves_bind;
      [apply console_only_preserves, console_only_checkAccountInfo | intros _; exact IH]. }
  destruct (String.eqb input "2").
  { apply preserves_bind;
      [apply console_only_preserves, console_only_listTransactions | intros _; exact IH]. }
  destruct (String.eqb input "3").
  { apply preserves_bind; [exact (preserves_command DepositCash) | intros _; exact IH]. }
  destruct (String.eqb input "4").
  { apply preserves_bind; [exact (preserves_command WithdrawCash) | intros _; exact IH]. }
  destruct (String.eqb input "5").
  { apply preserves_bind; [exact (preserves_command TransferMoney) | intros _; exact IH]. }
  destruct (String.eqb input "6").
  { apply preserves_bind; [exact (preserves_command DeleteAccount) | intros ok].
    destruct ok; [intros w Hw; exact Hw | exact IH]. }
  destruct (String.eqb input "7"); [intros w Hw; exact Hw|].
  apply preserves_bind;
    [apply console_only_preserves, console_only_Println | intros _; exact IH].
Qed.

Lemma preserves_accountLoop : preserves store_invariant accountLoop.
Proof.
  unfold accountLoop.
  apply preserves_bind; [exact (preserves_command Login) | intros err].
  destruct err as [e|]; [apply console_only_preserves, console_only_Println|].
  apply preserves_bind;
    [apply console_only_preserves, console_only_checkAccountInfo | intros _].
  apply preserves_bind;
    [apply console_only_preserves, console_only_printSelectMenu | intros _].
  intros w Hw. apply preserves_accountLoop_loop. exact Hw.
Qed.

Lemma lift_invariant {A : Type} (c : M A) (p : Process) (k : A -> Process -> Run) :
  preserves store_invariant c ->
  store_invariant (world p) ->
  (forall a p', store_invariant (world p') -> store_invariant (world (process_of (k a p')))) ->
  store_invariant (world (process_of (lift c p k))).
Proof.
  intros Hc Hp Hk. specialize (Hc (world p) Hp). unfold lift.
  destruct (c (world p)) as [a w|msg w|w]; cbn [final] in Hc;
    [apply Hk | |]; exact Hc.
Qed.

Lemma saveData_world (p : Process) :
  exists i o, world (process_of (saveData p)) = console i o (world p).
Proof.
  unfold saveData. destruct (json_MarshalIndent (world p)) as [doc|err].
  - exists (stdin (world p)), (stdout (world p)). cbn. symmetry. apply console_id.
  - eexists _, _. reflexivity.
Qed.

Lemma main_loop_invariant (fuel : nat) (p : Process) :
  store_invariant (world p) ->
  store_invariant (world (process_of (main_loop fuel p))).
Proof.
  revert p. induction fuel as [|fuel IH]; intros p Hp; [exact Hp|].
  cbn [main_loop].
  apply lift_invariant;
    [apply console_only_preserves, console_only_readString | exact Hp |].
  intros input p1 Hp1.
  destruct (String.eqb input "1").
  { apply lift_invariant; [exact preserves_accountLoop | exact Hp1 |].
    intros _ p2 Hp2. apply IH. exact Hp2. }
  destruct (String.eqb input "2").
  { apply lift_invariant; [exact (preserves_command CreateAccount) | exact Hp1 |].
    intros _ p2 Hp2. apply IH. exact Hp2. }
  destruct (String.eqb input "3").
  { destruct (saveData_world p1) as (i & o & Hs).
    destruct (saveData p1) as [p2|msg p2|code p2|p2]; cbn [process_of] in *;
      rewrite Hs; exact Hp1. }
  apply lift_invariant;
    [apply console_only_preserves, console_only_Println | exact Hp1 |].
  intros _ p2 Hp2. apply IH. exact Hp2.
Qed.

End MenuFacts.

(** ** Loading *)

Section LoadFacts.

Context {L : GoLib} {J : GoJSON}.

Lemma heap_store_entries (es : list (string * Account)) (w : World) :
  heap (store_entries es w) = heap w ++ es.*2.
Proof.
  revert w. induction es as [|e es IH]; intros w.
  - cbn. rewrite app_nil_r. reflexivity.
  - unfold store_entries in *. cbn [fold_left]. rewrite IH.
    cbn [heap set_heap set_bank]. rewrite <- app_assoc. reflexivity.
Qed.

(** Entries that are in order keep the store in order. *)
Lemma store_entries_invariant (es : list (string * Account)) (w : World) :
  store_invariant w ->
  Forall (fun e => balance_matches 1000%float (snd e) /\ Username (snd e) = fst e) es ->
  store_invariant (store_entries es w).
Proof.
  revert w. induction es as [|[k a] es IH]; intros w Hw Hes; [exact Hw|].
  apply Forall_cons in Hes as [[Hb Hu] Hes]. cbn [fst snd] in Hb, Hu.
  unfold store_entries. cbn [fold_left]. apply IH; [| exact Hes].
  destruct Hw as (Hl & Hp & Hf). cbn [fst snd]. split; [| split].
  - cbn [heap set_heap set_bank]. apply ledger_consistent_snoc; assumption.
  - intros k' l Hk. cbn [bank heap set_heap set_bank] in *.
    rewrite length_app. cbn [length].
    apply lookup_insert_Some in Hk as [(_ & <-)|(_ & Hk)]; [lia|].
    specialize (Hp _ _ Hk). lia.
  - intros k' l a' Hk Ha. cbn [bank heap set_heap set_bank] in *.
    apply lookup_insert_Some in Hk as [(<- & <-)|(_ & Hk)].
    + rewrite lookup_new in Ha. injection Ha as <-. exact Hu.
    + rewrite lookup_app_l in Ha by exact (Hp _ _ Hk). exact (Hf _ _ _ Hk Ha).
Qed.

Lemma loadData_invariant (p : Process) :
  store_invariant (world p) -> file_in_order (disk p) ->
  store_invariant (world (process_of (loadData p))).
Proof.
  intros Hw Hd. unfold loadData, file_in_order in *.
  destruct (db_json_lock (disk p)); [exact Hw|].
  cbn [disk db_json db_json_lock world].
  destruct (db_json (disk p)) as [doc|]; [| exact Hw].
  destruct (json_Decode doc) as [es|]; [| exact Hw].
  cbn [process_of world set_world]. apply store_entries_invariant; assumption.
Qed.

Lemma main_invariant (p : Process) :
  store_invariant (world p) -> file_in_order (disk p) ->
  store_invariant (world (process_of (main p))).
Proof.
  intros Hw Hd. unfold main.
  pose proof (loadData_invariant p Hw Hd) as Hl.
  destruct (loadData p) as [p1|msg p1|code p1|p1]; cbn [process_of] in *; try exact Hl.
  apply lift_invariant; [| exact Hl |].
  - apply console_only_preserves. apply console_only_bind;
      [apply console_only_Print | intros _; apply console_only_printSelectMenu].
  - intros _ p2 Hp2. apply main_loop_invariant. exact Hp2.
Qed.

(** What [saveData] writes decodes to the accounts of the bank. *)
Lemma save_decodes (p : Process) :
  pointers_valid (world p) ->
  (forall k a, account_at (world p) k = Some a ->
     storable_Account a = true /\ string_ok k = true) ->
  exists doc accts,
    saveData p = Continues (mkProcess (world p) (mkDisk (Some doc) false))
    /\ json_Decode doc = Some accts
    /\ pointed (world p) (sorted_entries (world p)) accts.
Proof.
  intros Hp Hs.
  destruct (decode_marshal_entries (world p) (sorted_entries (world p)))
    as (members & accts & Hm & Hd & Hpt).
  { intros k l Hin. apply sorted_entries_elem in Hin.
    destruct (lookup_lt_is_Some_2 _ _ (Hp _ _ Hin)) as [a Ha].
    exists a. split; [exact Ha|]. apply Hs. apply account_at_Some. eauto. }
  exists (JObject members), accts. split; [| split; [exact Hd | exact Hpt]].
  unfold saveData, json_MarshalIndent. rewrite Hm. reflexivity.
Qed.

Lemma saved_file_in_order (p : Process) (doc : Json) (accts : list (string * Account)) :
  store_invariant (world p) ->
  json_Decode doc = Some accts ->
  pointed (world p) (sorted_entries (world p)) accts ->
  file_in_order (mkDisk (Some doc) false).
Proof.
  intros (Hl & Hp & Hf) Hd Hpt. unfold file_in_order. cbn [db_json]. rewrite Hd.
  apply Forall_forall. intros [k a] Hin. cbn [fst snd].
  apply (pointed_elem _ _ _ k a Hpt) in Hin as (l & Hin & Ha).
  apply sorted_entries_elem in Hin.
  split; [exact (Hl _ _ Ha) | exact (Hf _ _ _ Hin Ha)].
Qed.

End LoadFacts.

(** ** More on the console helpers *)

Section MoreConsole.

Context {L : GoLib} {J : GoJSON}.

Lemma readString_skips_blanks (message : string) (blanks : list string)
    (line : string) (rest : list string) (w : World) :
  Forall blank blanks ->
  stdin w = blanks ++ line :: rest ->
  typed line ->
  readString message w
  = Ok (strings_TrimSpace line)
       (console rest
          (stdout w ++ blank_output message (length blanks) ++ [message]) w).
Proof.
  revert w. induction blanks as [|b blanks IH]; intros w Hb Hin Ht.
  - cbn in Hin. rewrite (readString_line message w line rest Hin Ht). reflexivity.
  - apply Forall_cons in Hb as [Hb Hbs]. cbn in Hin.
    rewrite (readString_blank message w b _ Hin Hb).
    erewrite IH by first [exact Hbs | reflexivity | exact Ht].
    cbn [stdout console length].
    unfold blank_output. cbn [replicate concat]. rewrite <- !app_assoc. reflexivity.
Qed.

Lemma readAmount_refuses (w : World) (line : string) (rest : list string) :
  stdin w = line :: rest ->
  refused line ->
  readAmount w
  = readAmount (console rest (stdout w ++ ["Enter amount: "; refusal line]) w).
Proof.
  intros Hin [Ht Hr]. unfold readAmount at 1. rewrite Hin.
  cbn [length readAmount_loop]. unfold bind at 1.
  rewrite (readString_line _ w line rest Hin Ht). unfold refusal.
  destruct (strconv_ParseFloat (strings_TrimSpace line)) as [amount|].
  - rewrite Hr. unfold bind, fmt_Println, readAmount. cbn.
    rewrite <- app_assoc. reflexivity.
  - unfold bind, fmt_Println, readAmount. cbn. rewrite <- app_assoc. reflexivity.
Qed.

Lemma readAmount_skips_refused (lines : list string) (line : string)
    (rest : list string) (amount : float) (w : World) :
  Forall refused lines ->
  stdin w = lines ++ line :: rest ->
  enters line amount ->
  PrimFloat.leb amount 0 = false ->
  readAmount w
  = Ok amount
       (console rest (stdout w ++ refused_output lines ++ ["Enter amount: "]) w).
Proof.
  revert w. induction lines as [|b lines IH]; intros w Hb Hin [Ht Hp] Hpos.
  - cbn in Hin. rewrite (readAmount_accepts w line rest amount Hin Ht Hp Hpos).
    reflexivity.
  - apply Forall_cons in Hb as [Hb Hbs]. cbn in Hin.
    rewrite (readAmount_refuses w b _ Hin Hb).
    erewrite IH by first [exact Hbs | reflexivity | exact (conj Ht Hp) | exact Hpos].
    cbn [stdout console].
    unfold refused_output. cbn [map concat]. rewrite <- !app_assoc. reflexivity.
Qed.

(** [NaN] is not [<= 0], and adding to it or taking from it gives [NaN]. *)
Lemma add_nan (x : float) : PrimFloat.add x PrimFloat.nan = PrimFloat.nan.
Proof.
  apply FloatAxioms.Prim2SF_inj. rewrite FloatAxioms.add_spec.
  change (Prim2SF PrimFloat.nan) with SpecFloat.S754_nan.
  unfold FloatAxioms.SF64add, SpecFloat.SFadd.
  destruct (Prim2SF x); reflexivity.
Qed.

Lemma sub_nan (x : float) : PrimFloat.sub x PrimFloat.nan = PrimFloat.nan.
Proof.
  apply FloatAxioms.Prim2SF_inj. rewrite FloatAxioms.sub_spec.
  change (Prim2SF PrimFloat.nan) with SpecFloat.S754_nan.
  unfold FloatAxioms.SF64sub, SpecFloat.SFsub.
  destruct (Prim2SF x); reflexivity.
Qed.

Lemma ltb_nan_l (x : float) : PrimFloat.ltb PrimFloat.nan x = false.
Proof.
  rewrite FloatAxioms.ltb_spec.
  change (Prim2SF PrimFloat.nan) with SpecFloat.S754_nan. reflexivity.
Qed.

(** *** Listing *)

Lemma listTransactions_loop_prints (transactions : list Transaction) (end_ : Z)
    (n i : nat) (w : World) :
  i <= length transactions ->
  n = Z.to_nat (end_ - Z.of_nat i) ->
  listTransactions_loop n (Z.of_nat i) end_ transactions w
  = Ok tt (console (stdin w)
             (stdout w ++ map (fun t => ln (fmt_Transaction t))
                            (take n (drop i transactions))) w).
Proof.
  revert i w. induction n as [|n IH]; intros i w Hi Hn.
  - cbn. rewrite app_nil_r, console_id. reflexivity.
  - cbn [listTransactions_loop].
    assert (Hlt : (Z.of_nat i <? end_)%Z = true) by (apply Z.ltb_lt; lia).
    rewrite Hlt.
    destruct (Z.eqb_spec (Z.of_nat i) (Z.of_nat (length transactions))) as [E|E].
    + assert (i = length transactions) by lia. subst i.
      rewrite drop_all. cbn. rewrite app_nil_r, console_id. reflexivity.
    + assert (Hi' : i < length transactions) by lia.
      assert (Hnn : (Z.of_nat i <? 0)%Z = false) by (apply Z.ltb_ge; lia).
      rewrite Hnn, Nat2Z.id.
      destruct (lookup_lt_is_Some_2 transactions i Hi') as [t Ht]. rewrite Ht.
      erewrite (bind_step (fmt_Println _)) by reflexivity.
      replace (Z.of_nat i + 1)%Z with (Z.of_nat (S i)) by lia.
      rewrite IH by lia.
      rewrite (drop_S _ _ _ Ht). cbn [take map stdin stdout set_stdout console].
      rewrite <- app_assoc. reflexivity.
Qed.

(** From the first record on: as many records as asked for, or as there
    are; [0] asks for all. *)
Lemma listTransactions_from_start (w : World) (end_ : Z) (l : nat) (a : Account) :
  currentAccount w = Some l ->
  heap w !! l = Some a ->
  (0 <= end_)%Z ->
  listTransactions 0 end_ w
  = Ok tt (console (stdin w)
             (stdout w ++
                map (fun t => ln (fmt_Transaction t))
                  (if (end_ =? 0)%Z then Transactions a
                   else take (Z.to_nat end_) (Transactions a))) w).
Proof.
  intros Hc Ha He. unfold listTransactions.
  erewrite (bind_step get_currentAccount) by reflexivity. rewrite Hc.
  rewrite (bind_step _ _ _ _ _ (load_ok w l a Ha)). cbv zeta.
  change 0%Z with (Z.of_nat 0).
  rewrite (listTransactions_loop_prints (Transactions a) _ _ 0 w (Nat.le_0_l _) eq_refl).
  rewrite drop_0. destruct (Z.eqb_spec end_ (Z.of_nat 0)) as [->|Hne].
  - cbn [Z.of_nat]. rewrite Z.sub_0_r, Nat2Z.id, firstn_all. reflexivity.
  - cbn [Z.of_nat]. rewrite Z.sub_0_r. reflexivity.
Qed.

(** Outside the history: a start below 0, or beyond the length with the
    end beyond the start, panics on the index. *)
Lemma listTransactions_out_of_range (w : World) (start end_ : Z) (l : nat)
    (a : Account) :
  currentAccount w = Some l ->
  heap w !! l = Some a ->
  (start < end_)%Z ->
  (start < 0 \/ Z.of_nat (length (Transactions a)) < start)%Z ->
  listTransactions start end_ w = Panic index_out_of_range w.
Proof.
  intros Hc Ha Hlt Hout. unfold listTransactions.
  erewrite (bind_step get_currentAccount) by reflexivity. rewrite Hc.
  rewrite (bind_step _ _ _ _ _ (load_ok w l a Ha)). cbv zeta.
  assert (He' : (start < (if (end_ =? 0)%Z then Z.of_nat (length (Transactions a))
                          else end_))%Z).
  { destruct (Z.eqb_spec end_ 0) as [->|]; [lia | exact Hlt]. }
  set (e := if (end_ =? 0)%Z then Z.of_nat (length (Transactions a)) else end_) in *.
  destruct (Z.to_nat (e - start)) as [|n] eqn:En; [lia|].
  cbn [listTransactions_loop].
  assert (H1 : (start <? e)%Z = true) by (apply Z.ltb_lt; lia). rewrite H1.
  assert (H2 : (start =? Z.of_nat (length (Transactions a)))%Z = false)
    by (apply Z.eqb_neq; lia).
  rewrite H2. destruct (Z.ltb_spec start 0) as [Hneg|Hpos]; [reflexivity|].
  assert (H3 : Transactions a !! Z.to_nat start = None)
    by (apply lookup_ge_None; lia).
  rewrite H3. reflexivity.
Qed.

End MoreConsole.

(** ** Account information, deletion, unknown users *)

Section MoreSession.

Context {L : GoLib} {J : GoJSON}.

Lemma checkAccountInfo_run (w : World) (l : nat) (a : Account) :
  currentAccount w = Some l ->
  heap w !! l = Some a ->
  checkAccountInfo w
  = Ok tt (console (stdin w)
             (stdout w ++ account_info (previousLastLogin w) a) w).
Proof.
  intros Hc Ha. unfold checkAccountInfo.
  erewrite (bind_step get_currentAccount) by reflexivity. rewrite Hc.
  rewrite (bind_step _ _ _ _ _ (load_ok w l a Ha)).
  do 3 (erewrite (bind_step (fmt_Println _)) by reflexivity).
  unfold bind at 1. cbv beta iota. cbn [previousLastLogin set_stdout].
  unfold account_info.
  destruct (IsZero (previousLastLogin w)); cbn [negb].
  - unfold bind at 1, ret. cbv beta iota.
    erewrite (bind_step (fmt_Println _)) by reflexivity.
    rewrite (listTransactions_from_start _ 5 l a); [| exact Hc | exact Ha | lia].
    cbn [Z.eqb stdin stdout set_stdout console app]. change (Z.to_nat 5) with 5.
    rewrite <- !app_assoc. reflexivity.
  - do 2 (erewrite (bind_step (fmt_Println _)) by reflexivity).
    rewrite (listTransactions_from_start _ 5 l a); [| exact Hc | exact Ha | lia].
    cbn [Z.eqb stdin stdout set_stdout console app]. change (Z.to_nat 5) with 5.
    rewrite <- !app_assoc. reflexivity.
Qed.

Lemma readYesNo_line (message : string) (w : World) (line : string)
    (rest : list string) :
  stdin w = line :: rest ->
  readYesNo message w
  = Ok (yes line) (console rest (stdout w ++ [(message ++ "[y/N] ")%string]) w).
Proof.
  intros Hin. unfold readYesNo, bind, fmt_Print. cbn [stdin set_stdout].
  rewrite Hin. reflexivity.
Qed.

Lemma deleteAccount_declined (w : World) (line : string) (rest : list string) :
  stdin w = line :: rest ->
  yes line = false ->
  deleteAccount w
  = Ok false
      (console rest
         (stdout w ++ ["Do you want to delete your account?: [y/N] "]) w).
Proof.
  intros Hin Hn. unfold deleteAccount.
  rewrite (bind_step _ _ _ _ _ (readYesNo_line _ w line rest Hin)).
  rewrite Hn. reflexivity.
Qed.

Lemma deleteAccount_declined_twice (w : World) (line1 line2 : string)
    (rest : list string) :
  stdin w = line1 :: line2 :: rest ->
  yes line1 = true ->
  yes line2 = false ->
  deleteAccount w
  = Ok false
      (console rest
         (stdout w ++ ["Do you want to delete your account?: [y/N] ";
                       "Are you sure you want to delete your account?: [y/N] "]) w).
Proof.
  intros Hin H1 H2. unfold deleteAccount.
  rewrite (bind_step _ _ _ _ _ (readYesNo_line _ w line1 _ Hin)).
  rewrite H1. cbn [negb].
  erewrite (bind_step (readYesNo _)) by (apply readYesNo_line; reflexivity).
  rewrite H2. cbn [negb stdout console]. unfold ret.
  rewrite <- app_assoc. reflexivity.
Qed.

Lemma deleteAccount_confirmed (w : World) (line1 line2 : string)
    (rest : list string) (l : nat) (a : Account) :
  stdin w = line1 :: line2 :: rest ->
  yes line1 = true ->
  yes line2 = true ->
  currentAccount w = Some l ->
  heap w !! l = Some a ->
  deleteAccount w
  = Ok true
      (mkWorld (heap w) (delete (Username a) (bank w)) (currentAccount w)
         (previousLastLogin w) rest
         (stdout w ++ ["Do you want to delete your account?: [y/N] ";
                       "Are you sure you want to delete your account?: [y/N] "])
         (clock w) (ticks w)).
Proof.
  intros Hin H1 H2 Hc Ha. unfold deleteAccount.
  rewrite (bind_step _ _ _ _ _ (readYesNo_line _ w line1 _ Hin)).
  rewrite H1. cbn [negb].
  erewrite (bind_step (readYesNo _)) by (apply readYesNo_line; reflexivity).
  rewrite H2. cbn [negb].
  unfold bind, get_currentAccount, load, ret. wsimpl.
  rewrite Hc, Ha. wsimpl. rewrite <- app_assoc. reflexivity.
Qed.

Lemma login_unknown (w : World) (uline : string) (rest : list string) :
  stdin w = uline :: rest ->
  typed uline ->
  bank w !! strings_TrimSpace uline = None ->
  login w
  = Ok (Some "user not found") (console rest (stdout w ++ ["Enter username: "]) w).
Proof.
  intros Hin Hu Hb. unfold login.
  rewrite (bind_step _ _ _ _ _ (readString_line _ w uline _ Hin Hu)).
  unfold bind at 1, get_bank. cbn [bank console]. rewrite Hb. reflexivity.
Qed.

Lemma map_error_fails {A B : Type} (f : A -> B + string) (l : list A) (x : A)
    (e : string) :
  x ∈ l -> f x = inr e -> exists e', map_error f l = inr e'.
Proof.
  induction l as [|y l IH]; intros Hin Hx; [inversion Hin|].
  apply elem_of_cons in Hin as [<-|Hin].
  - cbn. rewrite Hx. eauto.
  - cbn. destruct (f y) as [v|e1]; [| eauto].
    destruct (IH Hin Hx) as (e' & ->). eauto.
Qed.

(** A filed account with a balance that is not finite: [saveData]
    panics, and the files are as they were. *)
Lemma saveData_not_finite (p : Process) (k : string) (l : nat) (a : Account) :
  bank (world p) !! k = Some l ->
  heap (world p) !! l = Some a ->
  PrimFloat.is_finite (Balance a) = false ->
  exists msg p', saveData p = Panics msg p' /\ disk p' = disk p.
Proof.
  intros Hk Ha Hf.
  assert (He : marshal_entry (world p) (k, l)
               = inr ("json: unsupported value: " ++ fmt_v (Balance a))%string).
  { unfold marshal_entry. cbn [fst snd]. rewrite Ha.
    unfold marshal_Account. rewrite (marshal_float_not_finite _ Hf). reflexivity. }
  destruct (map_error_fails (marshal_entry (world p)) (sorted_entries (world p))
              (k, l) _ (proj2 (sorted_entries_elem _ _ _) Hk) He) as (e' & Hm).
  unfold saveData, json_MarshalIndent. rewrite Hm. eexists _, _.
  split; reflexivity.
Qed.

End MoreSession.

(** ** Sequences of commands *)

Section Runs.

Context {L : GoLib}.

Lemma store_invariant_empty (w : World) :
  heap w = [] -> bank w = ∅ -> store_invariant w.
Proof.
  intros Hh Hb. split; [|split].
  - rewrite Hh. apply ledger_consistent_nil.
  - apply pointers_valid_empty. exact Hb.
  - intros k l a Hk. rewrite Hb, lookup_empty in Hk. discriminate Hk.
Qed.

Lemma execute_all_store_invariant (cs : list Command) (w : World) :
  store_invariant w -> store_invariant (execute_all cs w).
Proof.
  revert w. induction cs as [|c cs IH]; intros w H; [exact H|].
  apply (IH (execute c w)). apply execute_store_invariant. exact H.
Qed.

Lemma execute_all_later_heap (cs : list Command) (w : World) :
  later_heap (heap w) (heap (execute_all cs w)).
Proof.
  revert w. induction cs as [|c cs IH]; intros w; [apply later_heap_refl|].
  apply (later_heap_trans _ (heap (execute c w)) _).
  - apply execute_later_heap.
  - apply (IH (execute c w)).
Qed.

End Runs.

(** ** Numbers that JSON does not hold *)

Section NotFinite.

Context {L : GoLib} {J : GoJSON}.

Lemma marshal_Transaction_not_finite (t : Transaction) :
  PrimFloat.is_finite (Amount t) && PrimFloat.is_finite (ClosingBalance t) = false ->
  exists e, marshal_Transaction t = inr e.
Proof.
  intros H. unfold marshal_Transaction.
  destruct (marshal_time (Time t)) as [tm|e]; [|eauto].
  destruct (PrimFloat.is_finite (Amount t)) eqn:Ea.
  - cbn in H. rewrite (marshal_float_finite _ Ea), (marshal_float_not_finite _ H). eauto.
  - rewrite (marshal_float_not_finite _ Ea). eauto.
Qed.

Lemma marshal_Account_not_finite (a : Account) :
  numbers_finite a = false -> exists e, marshal_Account a = inr e.
Proof.
  unfold numbers_finite. intros H. unfold marshal_Account.
  destruct (PrimFloat.is_finite (Balance a)) eqn:Eb.
  - cbn in H. rewrite (marshal_float_finite _ Eb).
    destruct (marshal_time (LastLogin a)) as [ll|e]; [|eauto].
    assert (Ht : exists t, t ∈ Transactions a
                 /\ PrimFloat.is_finite (Amount t)
                    && PrimFloat.is_finite (ClosingBalance t) = false).
    { induction (Transactions a) as [|t ts IH]; [discriminate H|].
      cbn in H. apply andb_false_iff in H as [H|H].
      - exists t. split; [apply elem_of_cons; left; reflexivity | exact H].
      - destruct (IH H) as (t' & Hin & Ht'). exists t'.
        split; [apply elem_of_cons; right; exact Hin | exact Ht']. }
    destruct Ht as (t & Hin & Ht).
    destruct (marshal_Transaction_not_finite t Ht) as (e & He).
    destruct (map_error_fails marshal_Transaction (Transactions a) t e Hin He)
      as (e' & He').
    unfold marshal_Transactions. rewrite He'.
    destruct (Transactions a); [inversion Hin | eauto].
  - rewrite (marshal_float_not_finite _ Eb). eauto.
Qed.

Lemma saveData_numbers_not_finite (p : Process) (k : string) (l : nat) (a : Account) :
  bank (world p) !! k = Some l ->
  heap (world p) !! l = Some a ->
  numbers_finite a = false ->
  exists msg, saveData p = Panics msg (println msg p).
Proof.
  intros Hk Ha Hf.
  destruct (marshal_Account_not_finite a Hf) as (e & He).
  assert (Hm : marshal_entry (world p) (k, l) = inr e).
  { unfold marshal_entry. cbn [fst snd]. rewrite Ha, He. reflexivity. }
  destruct (map_error_fails (marshal_entry (world p)) (sorted_entries (world p))
              (k, l) _ (proj2 (sorted_entries_elem _ _ _) Hk) Hm) as (e' & Hm').
  exists e'. unfold saveData, json_MarshalIndent. rewrite Hm'. reflexivity.
Qed.

End NotFinite.

(** ** Leaving the program *)

Section Exit.

Context {L : GoLib} {J : GoJSON}.

Lemma main_loop_exit (fuel : nat) (p : Process) (line : string) (rest : list string) :
  stdin (world p) = line :: rest ->
  strings_TrimSpace line = "3" ->
  main_loop (S fuel) p
  = match saveData (mkProcess (console rest (stdout (world p) ++ ["> "]) (world p))
                      (disk p)) with
    | Continues p' => Exits 0 p'
    | r => r
    end.
Proof.
  intros Hin Ht. cbn [main_loop]. unfold lift.
  rewrite (readString_line "> " (world p) line rest Hin) by (rewrite Ht; reflexivity).
  rewrite Ht. reflexivity.
Qed.

Lemma loadData_locked (p : Process) :
  db_json_lock (disk p) = true -> loadData p = Panics lock_present p.
Proof. intros H. unfold loadData. rewrite H. reflexivity. Qed.

Lemma loadData_unlocked (p : Process) :
  db_json_lock (disk p) = false ->
  exists p1,
    loadData p = Continues p1
    /\ disk p1 = mkDisk (db_json (disk p)) true
    /\ exists i o, world p1 = console i o (world p)
                   \/ exists es, world p1 = store_entries es (world p).
Proof.
  intros H. unfold loadData. rewrite H. cbn [disk db_json world].
  destruct (db_json (disk p)) as [doc|].
  - destruct (json_Decode doc) as [es|].
    + eexists. split; [reflexivity|]. split; [reflexivity|].
      exists [], []. right. exists es. reflexivity.
    + eexists. split; [reflexivity|]. split; [reflexivity|].
      eexists _, _. left. reflexivity.
  - eexists. split; [reflexivity|]. split; [reflexivity|].
    eexists _, _. left. reflexivity.
Qed.

End Exit.

(** * The claims of the specification *)

(** C1, as the specification states it, fails: an account is created
    with the joining bonus and no transaction, so its balance is 1000 and
    not 0. Before alice opens her account the store satisfies the
    invariant with 0 for the empty history; after it, it does not. *)
Lemma balance_not_zero_after_creation :
  ledger_consistent 0%float (heap (Demo.start ["alice"; "Alice A"; "pw"; "pw"]))
  /\ heap Demo.alice_created
     = [mkAccount "Alice A" "alice" "b64:sha256:pw" 1000%float 0%Z []]
  /\ ~ ledger_consistent 0%float (heap Demo.alice_created).
Proof.
  split; [apply ledger_consistent_nil|].
  split; [vm_compute; reflexivity|].
  intros H.
  specialize (H 0%nat (mkAccount "Alice A" "alice" "b64:sha256:pw" 1000%float 0%Z []) eq_refl).
  unfold balance_matches in H. cbn in H.
  revert H. apply float_neq. vm_compute. reflexivity.
Qed.

(** C1 (amended): the balance of every account is the closing balance of
    its most recent transaction, and the joining bonus (1000, not 0) while
    it has none; every command of the menus keeps it so: account creation,
    login, deposit, withdrawal, transfer, deletion, in any sequence and
    however each command ends. *)
Theorem balance_matches_history {L : GoLib} (cs : list Command) (w : World) :
  ledger_consistent joining_bonus (heap w) ->
  pointers_valid w ->
  ledger_consistent joining_bonus (heap (execute_all cs w)).
Proof.
  intros Hh Hp. exact (proj1 (execute_all_invariant cs w Hh Hp)).
Qed.

Lemma balance_matches_history_witness :
  ledger_consistent joining_bonus
    (heap (execute_all (L := Demo.lib)
             [CreateAccount; CreateAccount; Login; DepositCash; WithdrawCash;
              TransferMoney; TransferMoney]
             (Demo.start ["alice"; "Alice A"; "pw"; "pw";
                          "bob"; "Bob B"; "secret"; "secret";
                          "alice"; "pw"; "200"; "1500"; "bob"; "100";
                          "bob"; "-5"; "0.5"]))).
Proof.
  apply (balance_matches_history (L := Demo.lib)).
  - apply ledger_consistent_nil.
  - apply pointers_valid_empty. reflexivity.
Defined.

(** C6, as the specification states it, fails: the balance is a
    [float64] and a withdrawal subtracts in [float64] arithmetic, so the
    balance need not go down by exactly the amount. alice, having deposited
    100000000000000000, withdraws 1: the withdrawal is made and recorded,
    and her balance is what it was before. *)
Lemma withdrawal_of_one_leaves_the_balance :
  Demo.ParseFloat "1" = Some 1%float
  /\ exists w1 w2 a1 a2,
    depositCash (L := Demo.lib)
      (Demo.type_lines ["100000000000000000"] Demo.alice_logged_in) = Ok tt w1
    /\ account_at w1 "alice" = Some a1
    /\ withdrawCash (L := Demo.lib) (Demo.type_lines ["1"] w1) = Ok tt w2
    /\ account_at w2 "alice" = Some a2
    /\ Balance a1 = 100000000000000992%float
    /\ Balance a2 = Balance a1
    /\ length (Transactions a2) = S (length (Transactions a1))
    /\ exists q1 q2,
         exact (Balance a1) = Some q1 /\ exact (Balance a2) = Some q2
         /\ Qeq_bool (q1 - q2) 1 = false.
Proof.
  split; [vm_compute; reflexivity|].
  eexists _, _, _, _.
  split; [vm_compute; reflexivity|].
  split; [vm_compute; reflexivity|].
  split; [vm_compute; reflexivity|].
  split; [vm_compute; reflexivity|].
  split; [vm_compute; reflexivity|].
  split; [vm_compute; reflexivity|].
  split; [vm_compute; reflexivity|].
  eexists _, _. split; [vm_compute; reflexivity|].
  split; [vm_compute; reflexivity|].
  vm_compute. reflexivity.
Qed.

(** C6 (amended): a withdrawal of a positive amount on the session
    account is made whatever the balance is (no hypothesis compares the
    balance with the amount): the new balance is the [float64] difference
    of the balance and the amount, and one debit record closing at the new
    balance is put in front of the history. *)
Theorem withdraw_without_overdraft_check {L : GoLib} (w : World) (line : string)
    (rest : list string) (amount : float) (l : nat) (a : Account) :
  stdin w = line :: rest ->
  enters line amount ->
  PrimFloat.ltb 0 amount = true ->
  currentAccount w = Some l ->
  heap w !! l = Some a ->
  withdrawCash w
  = Ok tt (mkWorld (<[l := withdrawn (clock w (ticks w)) amount a]> (heap w))
             (bank w) (currentAccount w) (previousLastLogin w) rest
             (stdout w ++
                ["Enter amount: ";
                 ln (fmt_f2 amount ++ " successfully withdrawn from your account");
                 ln ("Closing balance:  " ++ fmt_v (PrimFloat.sub (Balance a) amount))])
             (clock w) (S (ticks w)))
  /\ Balance (withdrawn (clock w (ticks w)) amount a)
     = PrimFloat.sub (Balance a) amount
  /\ Transactions (withdrawn (clock w (ticks w)) amount a)
     = mkTransaction (clock w (ticks w)) "" amount (PrimFloat.sub (Balance a) amount)
         "debited via cash withdrawal" "D" :: Transactions a.
Proof.
  intros Hin [Ht Hp] Hpos Hc Ha.
  split; [| split; reflexivity].
  rewrite (withdrawCash_run w _ amount l a
             (readAmount_accepts w line rest amount Hin Ht Hp
                (ltb_true_leb_false _ _ Hpos)) Hc Ha).
  cbn [stdin stdout console]. rewrite <- app_assoc. reflexivity.
Qed.

(** alice, with 1000, withdraws 1500 and is left with -500. *)
Lemma withdraw_without_overdraft_check_witness :
  exists w',
    withdrawCash (L := Demo.lib) (Demo.type_lines ["1500"] Demo.alice_logged_in)
    = Ok tt w'
    /\ option_map Balance (account_at w' "alice") = Some (-500)%float.
Proof.
  eexists. split.
  - refine (proj1 (withdraw_without_overdraft_check (L := Demo.lib)
             (Demo.type_lines ["1500"] Demo.alice_logged_in) "1500" [] 1500%float 0
             (mkAccount "Alice A" "alice" "b64:sha256:pw" 1000%float 1000000000%Z [])
             _ _ _ _ _)).
    + vm_compute. reflexivity.
    + split; vm_compute; reflexivity.
    + vm_compute. reflexivity.
    + vm_compute. reflexivity.
    + vm_compute. reflexivity.
  - vm_compute. reflexivity.
Defined.

(** C10: a deposit or a withdrawal leaves every account but the session
    account as it was, field for field, and files the same accounts under
    the same names; this holds however the operation ends. *)
Theorem deposit_withdraw_frame {L : GoLib} (w : World) (k : string) (p : nat) :
  bank w !! k = Some p ->
  currentAccount w <> Some p ->
  account_at (final (depositCash w)) k = account_at w k
  /\ account_at (final (withdrawCash w)) k = account_at w k
  /\ bank (final (depositCash w)) = bank w
  /\ bank (final (withdrawCash w)) = bank w.
Proof.
  intros Hk Hne.
  assert (Hd : heap (final (depositCash w)) !! p = heap w !! p
               /\ bank (final (depositCash w)) = bank w).
  { destruct (depositCash_outcome w)
      as [(amount & w1 & l & a & Hr & Hc & Ha & _)|(i & o & ->)].
    - rewrite (depositCash_run w w1 amount l a Hr Hc Ha). cbn [final heap bank].
      split; [|reflexivity]. apply list_lookup_insert_ne. congruence.
    - split; reflexivity. }
  assert (Hw : heap (final (withdrawCash w)) !! p = heap w !! p
               /\ bank (final (withdrawCash w)) = bank w).
  { destruct (withdrawCash_outcome w)
      as [(amount & w1 & l & a & Hr & Hc & Ha & _)|(i & o & ->)].
    - rewrite (withdrawCash_run w w1 amount l a Hr Hc Ha). cbn [final heap bank].
      split; [|reflexivity]. apply list_lookup_insert_ne. congruence.
    - split; reflexivity. }
  destruct Hd as [Hd1 Hd2], Hw as [Hw1 Hw2].
  unfold account_at. rewrite Hd2, Hw2, Hk. auto.
Qed.

(** alice deposits and withdraws; bob's account is as it was. *)
Lemma deposit_withdraw_frame_witness :
  account_at (final (depositCash (L := Demo.lib)
                       (Demo.type_lines ["200"] Demo.alice_logged_in))) "bob"
  = account_at (Demo.type_lines ["200"] Demo.alice_logged_in) "bob"
  /\ account_at (final (withdrawCash (L := Demo.lib)
                          (Demo.type_lines ["200"] Demo.alice_logged_in))) "bob"
     = account_at (Demo.type_lines ["200"] Demo.alice_logged_in) "bob".
Proof.
  pose proof (deposit_withdraw_frame (L := Demo.lib)
                (Demo.type_lines ["200"] Demo.alice_logged_in) "bob" 1) as H.
  assert (H1 : bank (Demo.type_lines ["200"] Demo.alice_logged_in) !! "bob" = Some 1)
    by (vm_compute; reflexivity).
  assert (H2 : currentAccount (Demo.type_lines ["200"] Demo.alice_logged_in) <> Some 1)
    by (vm_compute; discriminate).
  destruct (H H1 H2) as (Hd & Hw & _). split; assumption.
Defined.

(** C2: a transfer of a positive amount to a filed receiver, from a
    sender whose balance is at least the amount, returns having made
    exactly two records: a debit in front of the sender's history and a
    credit in front of the receiver's, with the same time and the same
    amount, each closing at the balance its account has after the
    transfer; no other account changes. (When the receiver is the sender,
    both records go in front of the one history, the credit first.)
    And whatever a call of [transferMoney] does, it makes both records or
    none. *)
Theorem transfer_makes_two_records {L : GoLib} :
  (forall (w : World) (rline aline : string) (rest : list string) (amount : float)
          (ls lr : nat) (snd rcv : Account),
      stdin w = rline :: aline :: rest ->
      typed rline ->
      bank w !! strings_TrimSpace rline = Some lr ->
      enters aline amount ->
      PrimFloat.ltb 0 amount = true ->
      currentAccount w = Some ls ->
      heap w !! ls = Some snd ->
      heap w !! lr = Some rcv ->
      PrimFloat.leb amount (Balance snd) = true ->
      exists w' : World,
        transferMoney w = Ok tt w'
        /\ bank w' = bank w
        /\ records (heap w') = records (heap w) + 2
        /\ (ls <> lr ->
            exists snd' rcv',
              heap w' !! ls = Some snd' /\ heap w' !! lr = Some rcv'
              /\ Balance snd' = PrimFloat.sub (Balance snd) amount
              /\ Balance rcv' = PrimFloat.add (Balance rcv) amount
              /\ Transactions snd'
                 = debit_record (clock w (ticks w)) (Username rcv) amount (Balance snd')
                     :: Transactions snd
              /\ Transactions rcv'
                 = credit_record (clock w (ticks w)) (Username snd) amount (Balance rcv')
                     :: Transactions rcv)
        /\ (ls = lr ->
            exists a',
              heap w' !! ls = Some a'
              /\ Transactions a'
                 = credit_record (clock w (ticks w)) (Username snd) amount (Balance a')
                     :: debit_record (clock w (ticks w)) (Username snd) amount (Balance a')
                     :: Transactions snd)
        /\ (forall p, p <> ls -> p <> lr -> heap w' !! p = heap w !! p))
  /\ (forall w : World,
        map Transactions (heap (final (transferMoney w))) = map Transactions (heap w)
        \/ pair_recorded (heap w) (heap (final (transferMoney w)))).
Proof.
  split; [| exact transferMoney_pair_or_nothing].
  intros w rline aline rest amount ls lr snd rcv Hin Hr Hb He Hpos Hc Hs Hrc Hf.
  eexists. split.
  { apply (transferMoney_lines w rline aline rest amount ls lr snd rcv);
      try assumption.
    - apply ltb_true_leb_false. exact Hpos.
    - apply leb_true_ltb_false. exact Hf. }
  cbn [heap bank]. split; [reflexivity|].
  split; [apply records_transferred; assumption|].
  split; [| split].
  - intros Hne.
    destruct (transferred_distinct (heap w) (clock w (ticks w)) amount ls lr snd rcv
                Hne Hs Hrc) as [H1 H2].
    eexists _, _. split; [exact H1|]. split; [exact H2|].
    repeat split; reflexivity.
  - intros <-. assert (rcv = snd) by congruence. subst rcv.
    eexists. split; [apply transferred_self; exact Hs|]. reflexivity.
  - intros p H1 H2. apply transferred_other; assumption.
Qed.

(** alice, with 1000, sends 200 to bob, who has 1000. *)
Lemma transfer_makes_two_records_witness :
  exists w',
    transferMoney (L := Demo.lib) (Demo.type_lines ["bob"; "200"] Demo.alice_logged_in)
    = Ok tt w'
    /\ records (heap w') = 2
    /\ option_map Balance (account_at w' "alice") = Some 800%float
    /\ option_map Balance (account_at w' "bob") = Some 1200%float.
Proof.
  destruct (proj1 (transfer_makes_two_records (L := Demo.lib))
              (Demo.type_lines ["bob"; "200"] Demo.alice_logged_in)
              "bob" "200" [] 200%float 0 1
              (mkAccount "Alice A" "alice" "b64:sha256:pw" 1000%float 1000000000%Z [])
              (mkAccount "Bob B" "bob" "b64:sha256:secret" 1000%float 0%Z []))
    as (w' & Hrun & _);
    try (vm_compute; reflexivity);
    try (split; vm_compute; reflexivity).
  exists w'. split; [exact Hrun|].
  assert (Hw : Ok tt w' = transferMoney (L := Demo.lib)
                             (Demo.type_lines ["bob"; "200"] Demo.alice_logged_in))
    by (symmetry; exact Hrun).
  vm_compute in Hw. injection Hw as ->. repeat split; vm_compute; reflexivity.
Defined.

(** C3: a transfer that fails a check leaves the whole store as it was;
    only the console has moved on.
    - An unknown receiver is reported and the call returns.
    - An amount that is not positive is refused by [readAmount], which
      asks again; the check of [transferMoney] itself refuses a negative
      amount.
    - A balance below the amount is reported and the call returns.
    - In every call, the store is as it was unless every check passed. *)
Theorem failed_transfer_changes_nothing {L : GoLib} :
  (forall (w : World) (rline : string) (rest : list string),
      stdin w = rline :: rest ->
      typed rline ->
      bank w !! strings_TrimSpace rline = None ->
      transferMoney w
      = Ok tt (console rest
                 (stdout w ++ ["Enter receiver's username:";
                               ln "ERROR: receiver not found"]) w))
  /\ (forall (w : World) (rline aline : string) (rest : list string) (lr : nat)
             (amount : float),
        stdin w = rline :: aline :: rest ->
        typed rline ->
        bank w !! strings_TrimSpace rline = Some lr ->
        enters aline amount ->
        PrimFloat.leb amount 0 = true ->
        transferMoney w
        = bind readAmount (transferMoney_checked (Some lr))
            (console rest
               (stdout w ++
                  ["Enter receiver's username:"; "Enter amount: ";
                   ln "ERROR: invalid input, amount should be greater than 0"]) w))
  /\ (forall (w : World) (lr : nat) (amount : float),
        PrimFloat.ltb amount 0 = true ->
        transferMoney_checked (Some lr) amount w
        = Ok tt (console (stdin w)
                   (stdout w ++ [ln "ERROR: sending amount should be positive"]) w))
  /\ (forall (w : World) (rline aline : string) (rest : list string) (lr ls : nat)
             (amount : float) (snd : Account),
        stdin w = rline :: aline :: rest ->
        typed rline ->
        bank w !! strings_TrimSpace rline = Some lr ->
        enters aline amount ->
        PrimFloat.ltb 0 amount = true ->
        currentAccount w = Some ls ->
        heap w !! ls = Some snd ->
        PrimFloat.ltb (Balance snd) amount = true ->
        transferMoney w
        = Ok tt (console rest
                   (stdout w ++ ["Enter receiver's username:"; "Enter amount: ";
                                 ln "ERROR: insufficient funds"]) w))
  /\ (forall w : World,
        same_store w (final (transferMoney w)) \/ transfer_validated w).
Proof.
  split; [exact transferMoney_unknown_receiver|].
  split; [exact transferMoney_amount_refused|].
  split; [exact transferMoney_checked_negative|].
  split; [| exact transferMoney_unchanged_or_validated].
  intros w rline aline rest lr ls amount snd Hin Hr Hb He Hpos Hc Hs Hf.
  apply (transferMoney_insufficient w rline aline rest lr ls amount snd);
    try assumption.
  apply ltb_true_leb_false. exact Hpos.
Qed.

(** alice, with 1000: a transfer to carol, who has no account; a transfer
    of 5000 to bob. The store is the same after each. *)
Lemma failed_transfer_changes_nothing_witness :
  same_store Demo.alice_logged_in
    (final (transferMoney (L := Demo.lib)
              (Demo.type_lines ["carol"; "100"] Demo.alice_logged_in)))
  /\ same_store Demo.alice_logged_in
       (final (transferMoney (L := Demo.lib)
                 (Demo.type_lines ["bob"; "5000"] Demo.alice_logged_in))).
Proof.
  destruct (failed_transfer_changes_nothing (L := Demo.lib))
    as (Hunknown & _ & _ & Hfunds & _).
  split.
  - rewrite (Hunknown (Demo.type_lines ["carol"; "100"] Demo.alice_logged_in)
               "carol" ["100"]);
      [ vm_compute; repeat split | vm_compute; reflexivity | vm_compute; reflexivity
      | vm_compute; reflexivity ].
  - rewrite (Hfunds (Demo.type_lines ["bob"; "5000"] Demo.alice_logged_in)
               "bob" "5000" [] 1 0 5000%float
               (mkAccount "Alice A" "alice" "b64:sha256:pw" 1000%float 1000000000%Z []));
      [ vm_compute; repeat split | vm_compute; reflexivity | vm_compute; reflexivity
      | vm_compute; reflexivity | split; vm_compute; reflexivity
      | vm_compute; reflexivity | vm_compute; reflexivity
      | vm_compute; reflexivity | vm_compute; reflexivity ].
Defined.

(** C4, as the specification states it, fails: alice, logged in with
    1000, names herself as the receiver of 200. The transfer is not
    refused: it is reported as sent and her history gains two records. *)
Lemma transfer_to_oneself_is_made :
  account_at Demo.alice_logged_in "alice"
  = Some (mkAccount "Alice A" "alice" "b64:sha256:pw" 1000%float 1000000000%Z [])
  /\ currentAccount Demo.alice_logged_in = bank Demo.alice_logged_in !! "alice"
  /\ exists w',
       transferMoney (L := Demo.lib)
         (Demo.type_lines ["alice"; "200"] Demo.alice_logged_in) = Ok tt w'
       /\ account_at w' "alice"
          = Some (mkAccount "Alice A" "alice" "b64:sha256:pw" 1000%float 1000000000%Z
                    [credit_record 2000000000%Z "alice" 200%float 1000%float;
                     debit_record 2000000000%Z "alice" 200%float 1000%float])
       /\ last (stdout w') = Some (ln "Closing balance:  %v")
       /\ heap w' <> heap Demo.alice_logged_in.
Proof.
  split; [vm_compute; reflexivity|].
  split; [vm_compute; reflexivity|].
  eexists. split; [vm_compute; reflexivity|].
  split; [vm_compute; reflexivity|].
  split; [vm_compute; reflexivity|].
  vm_compute. discriminate.
Qed.

(** C4 (amended): the receiver has to be filed, but not to differ from
    the sender. A transfer of a positive amount that names the sender's
    own account is made when the balance is at least the amount: the
    balance becomes (balance - amount) + amount, and a debit and a credit
    record, both closing at that balance, go in front of the history, the
    credit first. *)
Theorem transfer_to_oneself {L : GoLib} (w : World) (rline aline : string)
    (rest : list string) (amount : float) (l : nat) (a : Account) :
  stdin w = rline :: aline :: rest ->
  typed rline ->
  bank w !! strings_TrimSpace rline = Some l ->
  currentAccount w = Some l ->
  enters aline amount ->
  PrimFloat.ltb 0 amount = true ->
  heap w !! l = Some a ->
  PrimFloat.leb amount (Balance a) = true ->
  transferMoney w
  = Ok tt (mkWorld (<[l := self_transferred (clock w (ticks w)) amount a]> (heap w))
             (bank w) (currentAccount w) (previousLastLogin w) rest
             (stdout w ++
                ["Enter receiver's username:"; "Enter amount: ";
                 ln (fmt_f2 amount ++ " successfully sent to " ++ Username a);
                 ln ("Closing balance:  "
                     ++ fmt_v (PrimFloat.add (PrimFloat.sub (Balance a) amount) amount))])
             (clock w) (S (ticks w)))
  /\ Balance (self_transferred (clock w (ticks w)) amount a)
     = PrimFloat.add (PrimFloat.sub (Balance a) amount) amount
  /\ Transactions (self_transferred (clock w (ticks w)) amount a)
     = credit_record (clock w (ticks w)) (Username a) amount
         (PrimFloat.add (PrimFloat.sub (Balance a) amount) amount)
       :: debit_record (clock w (ticks w)) (Username a) amount
            (PrimFloat.add (PrimFloat.sub (Balance a) amount) amount)
       :: Transactions a.
Proof.
  intros Hin Hr Hb Hc He Hpos Ha Hf.
  split; [| split; reflexivity].
  rewrite (transferMoney_lines w rline aline rest amount l l a a Hin Hr Hb He
             (ltb_true_leb_false _ _ Hpos) Hc Ha Ha (leb_true_ltb_false _ _ Hf)).
  unfold transferred, sender_balance. rewrite Nat.eqb_refl. reflexivity.
Qed.

Lemma transfer_to_oneself_witness :
  exists w',
    transferMoney (L := Demo.lib)
      (Demo.type_lines ["alice"; "200"] Demo.alice_logged_in) = Ok tt w'
    /\ option_map (fun a => length (Transactions a)) (heap w' !! 0) = Some 2.
Proof.
  eexists. split.
  - refine (proj1 (transfer_to_oneself (L := Demo.lib)
              (Demo.type_lines ["alice"; "200"] Demo.alice_logged_in)
              "alice" "200" [] 200%float 0
              (mkAccount "Alice A" "alice" "b64:sha256:pw" 1000%float 1000000000%Z [])
              _ _ _ _ _ _ _ _));
      try (vm_compute; reflexivity); split; vm_compute; reflexivity.
  - vm_compute. reflexivity.
Defined.

(** C5: against a filed account, three wrong passwords are tolerated,
    each one reported as incorrect before the password is asked again; the
    right password typed after at most three wrong ones opens the session
    (the previous login time is kept for display, the account's login time
    is set to now); a fourth wrong password ends the login with the error
    of exceeded attempts, is not reported as incorrect, and leaves store
    and session as they were. *)
Theorem login_attempt_limit {L : GoLib} (w : World) (uline : string)
    (wrong tail : list string) (l : nat) (a : Account) :
  stdin w = uline :: wrong ++ tail ->
  typed uline ->
  bank w !! strings_TrimSpace uline = Some l ->
  heap w !! l = Some a ->
  Forall (wrong_password a) wrong ->
  (forall (good : string) (rest : list string),
      length wrong <= 3 ->
      tail = good :: rest ->
      right_password a good ->
      login w
      = Ok None
          (mkWorld (<[l := set_LastLogin (clock w (ticks w)) a]> (heap w)) (bank w)
             (Some l) (LastLogin a) rest
             (stdout w ++ ["Enter username: "] ++ incorrect_output (length wrong)
                ++ ["Enter password: "; ln ("Hi,  " ++ FullName a)])
             (clock w) (S (ticks w))))
  /\ (length wrong = 4 ->
      login w
      = Ok (Some "exceeded maximum number of login attempts")
           (console tail
              (stdout w ++ ["Enter username: "] ++ incorrect_output 3
                 ++ ["Enter password: "]) w)).
Proof.
  intros Hin Hu Hb Ha Hw. split.
  - intros good rest Hlen -> Hg.
    exact (login_run w uline good wrong rest l a Hin Hu Hb Ha Hw Hlen Hg).
  - intros Hlen.
    exact (login_exceeded w uline wrong tail l a Hin Hu Hb Ha Hw Hlen).
Qed.

(** alice's password is pw. Three wrong passwords and then pw: she is
    logged in. Four wrong passwords: the login fails, pw is not read. *)
Lemma login_attempt_limit_witness :
  (exists w',
      login (L := Demo.lib) (Demo.type_lines ["alice"; "a"; "b"; "c"; "pw"] Demo.alice_created)
      = Ok None w'
      /\ currentAccount w' = Some 0)
  /\ (exists w',
        login (L := Demo.lib)
          (Demo.type_lines ["alice"; "a"; "b"; "c"; "d"; "pw"] Demo.alice_created)
        = Ok (Some "exceeded maximum number of login attempts") w'
        /\ currentAccount w' = None /\ stdin w' = ["pw"]).
Proof.
  assert (Hw : forall s, String.eqb ("b64:sha256:" ++ s) "b64:sha256:pw" = false ->
                 String.eqb (Demo.TrimSpace s) "" = false ->
                 Demo.TrimSpace s = s ->
                 wrong_password (L := Demo.lib)
                   (mkAccount "Alice A" "alice" "b64:sha256:pw" 1000%float 0%Z []) s).
  { intros s H1 H2 H3. split; [exact H2|]. cbn. rewrite H3. exact H1. }
  split.
  - eexists. split.
    + refine (proj1 (login_attempt_limit (L := Demo.lib)
                (Demo.type_lines ["alice"; "a"; "b"; "c"; "pw"] Demo.alice_created)
                "alice" ["a"; "b"; "c"] ["pw"] 0
                (mkAccount "Alice A" "alice" "b64:sha256:pw" 1000%float 0%Z [])
                _ _ _ _ _) "pw" [] _ _ _).
      * vm_compute; reflexivity.
      * vm_compute; reflexivity.
      * vm_compute; reflexivity.
      * vm_compute; reflexivity.
      * repeat (apply List.Forall_cons; [apply Hw; vm_compute; reflexivity|]).
        apply List.Forall_nil.
      * simpl; lia.
      * reflexivity.
      * split; vm_compute; reflexivity.
    + reflexivity.
  - eexists. split.
    + refine (proj2 (login_attempt_limit (L := Demo.lib)
                (Demo.type_lines ["alice"; "a"; "b"; "c"; "d"; "pw"] Demo.alice_created)
                "alice" ["a"; "b"; "c"; "d"] ["pw"] 0
                (mkAccount "Alice A" "alice" "b64:sha256:pw" 1000%float 0%Z [])
                _ _ _ _ _) _).
      * vm_compute; reflexivity.
      * vm_compute; reflexivity.
      * vm_compute; reflexivity.
      * vm_compute; reflexivity.
      * repeat (apply List.Forall_cons; [apply Hw; vm_compute; reflexivity|]).
        apply List.Forall_nil.
      * reflexivity.
    + split; vm_compute; reflexivity.
Defined.

(** C7: a username that is already filed is refused as soon as it is
    read: no other field is asked for, the rest of the input is not
    touched, the store is as it was. A new username, a full name and a
    password typed twice alike (after any number of pairs that do not
    agree) add one account, filed under the username, holding the joining
    bonus of 1000 and no transaction; the accounts already there stay. *)
Theorem create_account_unique_username {L : GoLib} :
  (forall (w : World) (uline : string) (rest : list string),
      stdin w = uline :: rest ->
      typed uline ->
      is_Some (bank w !! strings_TrimSpace uline) ->
      createAccount w
      = Ok tt (console rest
                 (stdout w ++ ["Enter username: ";
                               ln "ERROR: account already taken"]) w))
  /\ (forall (w : World) (uline fline p1 p2 : string)
             (bad : list (string * string)) (rest : list string),
        stdin w = uline :: fline :: flat bad ++ p1 :: p2 :: rest ->
        typed uline ->
        bank w !! strings_TrimSpace uline = None ->
        typed fline ->
        Forall mismatch bad ->
        typed p1 -> typed p2 ->
        String.eqb (strings_TrimSpace p1) (strings_TrimSpace p2) = true ->
        exists w' : World,
          createAccount w = Ok tt w'
          /\ heap w' = heap w
                       ++ [mkAccount (strings_TrimSpace fline) (strings_TrimSpace uline)
                             (hash (strings_TrimSpace p1)) 1000%float 0%Z []]
          /\ bank w' = <[strings_TrimSpace uline := length (heap w)]> (bank w)
          /\ size (bank w') = S (size (bank w))
          /\ currentAccount w' = currentAccount w
          /\ stdin w' = rest).
Proof.
  split.
  - intros w uline rest Hin Hu Hb.
    rewrite (createAccount_taken w _ _ (readString_line _ w uline rest Hin Hu) Hb).
    cbn [stdin stdout console]. rewrite <- app_assoc. reflexivity.
  - intros w uline fline p1 p2 bad rest Hin Hu Hb Hf Hbad H1 H2 He.
    eexists. split.
    + exact (createAccount_run w uline fline p1 p2 bad rest Hin Hu Hb Hf Hbad H1 H2 He).
    + cbn [heap bank currentAccount stdin]. repeat split.
      apply map_size_insert_None. exact Hb.
Qed.

(** alice opens an account; a second account under her name is refused,
    and bob's is added beside hers. *)
Lemma create_account_unique_username_witness :
  (exists w',
      createAccount (L := Demo.lib)
        (Demo.type_lines ["alice"; "Mallory"; "x"; "x"] Demo.alice_created) = Ok tt w'
      /\ same_store Demo.alice_created w'
      /\ stdin w' = ["Mallory"; "x"; "x"])
  /\ (exists w',
        createAccount (L := Demo.lib)
          (Demo.type_lines ["bob"; "Bob B"; "s"; "t"; "secret"; "secret"] Demo.alice_created)
        = Ok tt w'
        /\ size (bank w') = 2
        /\ option_map Balance (account_at w' "bob") = Some 1000%float).
Proof.
  destruct (create_account_unique_username (L := Demo.lib)) as [Htaken Hnew].
  split.
  - eexists. split.
    + apply (Htaken (Demo.type_lines ["alice"; "Mallory"; "x"; "x"] Demo.alice_created)
               "alice" ["Mallory"; "x"; "x"]).
      * vm_compute; reflexivity.
      * vm_compute; reflexivity.
      * exists 0. vm_compute; reflexivity.
    + repeat split.
  - destruct (Hnew (Demo.type_lines ["bob"; "Bob B"; "s"; "t"; "secret"; "secret"]
                      Demo.alice_created)
                "bob" "Bob B" "secret" "secret" [("s", "t")] [])
      as (w' & Hrun & Hheap & Hbank & Hsize & _).
    + vm_compute; reflexivity.
    + vm_compute; reflexivity.
    + vm_compute; reflexivity.
    + vm_compute; reflexivity.
    + apply List.Forall_cons; [| apply List.Forall_nil].
      repeat split; vm_compute; reflexivity.
    + vm_compute; reflexivity.
    + vm_compute; reflexivity.
    + vm_compute; reflexivity.
    + exists w'. split; [exact Hrun|]. split.
      * rewrite Hsize. vm_compute. reflexivity.
      * unfold account_at. rewrite Hbank, Hheap. vm_compute. reflexivity.
Defined.

(** C8, as the specification states it, fails: balances are [float64],
    and every deposit and withdrawal rounds. alice, with the joining bonus
    of 1000, deposits 0.1 and then 0.2. Her balance is
    1000.3000000000001; the joining bonus plus the sum of the deposits is
    1000.3 in [float64] arithmetic, and as numbers without rounding the
    three add up to yet another value. *)
Lemma rounded_balance_is_not_the_sum :
  Demo.ParseFloat "0.1" = Some Demo.tenth
  /\ Demo.ParseFloat "0.2" = Some Demo.fifth
  /\ option_map Balance (account_at Demo.alice_logged_in "alice") = Some 1000%float
  /\ exists w' a',
       perform_all (L := Demo.lib) [Deposit; Deposit]
         (Demo.type_lines ["0.1"; "0.2"] Demo.alice_logged_in) = Ok tt w'
       /\ account_at w' "alice" = Some a'
       /\ Balance a' <> grouped_balance [(Deposit, Demo.tenth); (Deposit, Demo.fifth)]
       /\ PrimFloat.ltb
            (grouped_balance [(Deposit, Demo.tenth); (Deposit, Demo.fifth)])
            (Balance a') = true
       /\ exists q q',
            exact (Balance a') = Some q
            /\ exact_balance [(Deposit, Demo.tenth); (Deposit, Demo.fifth)] = Some q'
            /\ Qeq_bool q q' = false.
Proof.
  split; [vm_compute; reflexivity|].
  split; [vm_compute; reflexivity|].
  split; [vm_compute; reflexivity|].
  eexists _, _. split; [vm_compute; reflexivity|].
  split; [vm_compute; reflexivity|].
  split; [apply float_neq; vm_compute; reflexivity|].
  split; [vm_compute; reflexivity|].
  eexists _, _. split; [vm_compute; reflexivity|].
  split; [vm_compute; reflexivity|].
  vm_compute. reflexivity.
Qed.

(** C8 (amended): after any sequence of deposits and withdrawals on an
    account that holds the joining bonus and no transaction, the balance
    is the joining bonus with each amount added (deposit) or subtracted
    (withdrawal) in the order of the operations, every step in [float64]
    arithmetic; the history has one record per operation. *)
Theorem balance_after_deposits_and_withdrawals {L : GoLib}
    (steps : list (LedgerOp * float)) (lines rest : list string)
    (w : World) (l : nat) (a : Account) :
  Forall2 accepted lines steps ->
  stdin w = lines ++ rest ->
  currentAccount w = Some l ->
  heap w !! l = Some a ->
  Balance a = joining_bonus ->
  Transactions a = [] ->
  exists w' a',
    perform_all (map fst steps) w = Ok tt w'
    /\ heap w' !! l = Some a'
    /\ Balance a' = fold_left apply_amount steps 1000%float
    /\ length (Transactions a') = length steps.
Proof.
  intros HF Hin Hc Ha Hb Ht.
  destruct (perform_all_run steps lines rest w l a HF Hin Hc Ha)
    as (w' & a' & Hrun & Hheap & Hbal & Hlen & _).
  exists w', a'. split; [exact Hrun|].
  split; [rewrite Hheap; eapply lookup_insert_same; exact Ha|].
  split; [rewrite Hbal, Hb; reflexivity|].
  rewrite Hlen, Ht. cbn. lia.
Qed.

(** alice deposits 200 and withdraws 1500: 1000 + 200 - 1500 = -300. *)
Lemma balance_after_deposits_and_withdrawals_witness :
  exists w' a',
    perform_all (L := Demo.lib) [Deposit; Withdraw]
      (Demo.type_lines ["200"; "1500"] Demo.alice_logged_in) = Ok tt w'
    /\ heap w' !! 0 = Some a'
    /\ Balance a' = (-300)%float
    /\ length (Transactions a') = 2.
Proof.
  destruct (balance_after_deposits_and_withdrawals (L := Demo.lib)
              [(Deposit, 200%float); (Withdraw, 1500%float)] ["200"; "1500"] []
              (Demo.type_lines ["200"; "1500"] Demo.alice_logged_in) 0
              (mkAccount "Alice A" "alice" "b64:sha256:pw" 1000%float 1000000000%Z []))
    as (w' & a' & Hrun & Ha' & Hbal & Hlen).
  - repeat (apply List.Forall2_cons;
             [repeat split; vm_compute; reflexivity|]).
    apply List.Forall2_nil.
  - vm_compute; reflexivity.
  - vm_compute; reflexivity.
  - vm_compute; reflexivity.
  - reflexivity.
  - reflexivity.
  - exists w', a'. split; [exact Hrun|]. split; [exact Ha'|].
    split; [rewrite Hbal; vm_compute; reflexivity | exact Hlen].
Defined.

(** C9, as the specification states it, fails: not every store can be
    saved. alice deposits [Inf], which [readAmount] accepts as an amount
    greater than 0; her balance is infinite. [saveData] then panics on
    the error of [json.MarshalIndent]: [db.json] is left as it was, the
    lock file stays, and the next start of the program panics on the
    lock. Nothing is reproduced. *)
Lemma infinite_balance_is_not_saved :
  exists w,
    depositCash (L := Demo.lib) (Demo.type_lines ["Inf"] Demo.alice_logged_in) = Ok tt w
    /\ option_map Balance (account_at w "alice") = Some PrimFloat.infinity
    /\ exists p',
         saveData (L := Demo.lib) (J := Demo.json) (mkProcess w (mkDisk None true))
         = Panics "json: unsupported value: %v" p'
         /\ disk p' = mkDisk None true
         /\ forall w0,
              loadData (J := Demo.json) (mkProcess w0 (disk p'))
              = Panics lock_present (mkProcess w0 (disk p')).
Proof.
  eexists. split; [vm_compute; reflexivity|].
  split; [vm_compute; reflexivity|].
  eexists. split; [vm_compute; reflexivity|].
  split; [reflexivity|]. intros w0. reflexivity.
Qed.

(** C9 (amended): for every store whose accounts can be written -- every
    balance, amount and closing balance a finite number, every string
    valid UTF-8, every time within the years that JSON text holds --
    [saveData] writes [db.json] and removes the lock, and [loadData] in a
    new process reads back the same usernames, each with the same account:
    the same balance and the same history in the same order. (A store with
    a number that is not finite is not saved: [saveData] panics.) *)
Theorem save_then_load {L : GoLib} {J : GoJSON} (p : Process) (w0 : World) :
  pointers_valid (world p) ->
  (forall k a, account_at (world p) k = Some a ->
     storable_Account a = true /\ string_ok k = true) ->
  heap w0 = [] -> bank w0 = ∅ ->
  exists doc w',
    saveData p = Continues (mkProcess (world p) (mkDisk (Some doc) false))
    /\ loadData (mkProcess w0 (mkDisk (Some doc) false))
       = Continues (mkProcess w' (mkDisk (Some doc) true))
    /\ (forall k, is_Some (bank w' !! k) <-> is_Some (bank (world p) !! k))
    /\ (forall k, account_at w' k = account_at (world p) k).
Proof.
  intros Hp Hs Hh0 Hb0.
  destruct (save_load p w0 Hp Hs Hh0 Hb0) as (doc & Hsave & w' & Hload & Hp' & Hacc).
  exists doc, w'. split; [exact Hsave|]. split; [exact Hload|].
  split; [| exact Hacc].
  assert (Hfiled : forall w, pointers_valid w ->
            forall k, is_Some (bank w !! k) <-> is_Some (account_at w k)).
  { intros w Hw k. unfold account_at. destruct (bank w !! k) as [l|] eqn:E.
    - split; [intros _; apply lookup_lt_is_Some_2; exact (Hw _ _ E) | eauto].
    - split; intros [? ?]; discriminate. }
  intros k. rewrite (Hfiled _ Hp'), (Hfiled _ Hp), Hacc. reflexivity.
Qed.

(** alice, having received 200 from herself, and bob: saved and read
    back by a new process. *)
Lemma save_then_load_witness :
  exists doc w',
    saveData (L := Demo.lib) (J := Demo.json)
      (mkProcess (execute (L := Demo.lib) TransferMoney
                    (Demo.type_lines ["alice"; "200"] Demo.alice_logged_in))
         (mkDisk None true))
    = Continues (mkProcess (execute (L := Demo.lib) TransferMoney
                              (Demo.type_lines ["alice"; "200"] Demo.alice_logged_in))
                   (mkDisk (Some doc) false))
    /\ loadData (J := Demo.json) (mkProcess (Demo.start []) (mkDisk (Some doc) false))
       = Continues (mkProcess w' (mkDisk (Some doc) true))
    /\ option_map (fun a => length (Transactions a)) (account_at w' "alice") = Some 2.
Proof.
  destruct (save_then_load (L := Demo.lib) (J := Demo.json)
              (mkProcess (execute (L := Demo.lib) TransferMoney
                            (Demo.type_lines ["alice"; "200"] Demo.alice_logged_in))
                 (mkDisk None true))
              (Demo.start []))
    as (doc & w' & Hsave & Hload & _ & Hacc).
  - intros k l Hk. cbn [world] in *.
    assert (E : bank (execute (L := Demo.lib) TransferMoney
                 (Demo.type_lines ["alice"; "200"] Demo.alice_logged_in))
                = <["bob" := 1]> (<["alice" := 0]> ∅)) by (vm_compute; reflexivity).
    assert (E2 : length (heap (execute (L := Demo.lib) TransferMoney
                   (Demo.type_lines ["alice"; "200"] Demo.alice_logged_in))) = 2)
      by (vm_compute; reflexivity).
    rewrite E in Hk. rewrite E2.
    apply lookup_insert_Some in Hk as [(_ & <-)|(_ & Hk)]; [lia|].
    apply lookup_insert_Some in Hk as [(_ & <-)|(_ & Hk)]; [lia|].
    rewrite lookup_empty in Hk. discriminate.
  - intros k a Hk. cbn [world] in Hk.
    assert (E : bank (execute (L := Demo.lib) TransferMoney
                 (Demo.type_lines ["alice"; "200"] Demo.alice_logged_in))
                = <["bob" := 1]> (<["alice" := 0]> ∅)) by (vm_compute; reflexivity).
    unfold account_at in Hk. rewrite E in Hk.
    destruct (decide (k = "bob")) as [->|Hb].
    { rewrite lookup_insert_eq in Hk. vm_compute in Hk. injection Hk as <-.
      split; vm_compute; reflexivity. }
    rewrite lookup_insert_ne in Hk by congruence.
    destruct (decide (k = "alice")) as [->|Ha].
    { rewrite lookup_insert_eq in Hk. vm_compute in Hk. injection Hk as <-.
      split; vm_compute; reflexivity. }
    rewrite lookup_insert_ne, lookup_empty in Hk by congruence. discriminate.
  - reflexivity.
  - reflexivity.
  - exists doc, w'. split; [exact Hsave|]. split; [exact Hload|].
    rewrite Hacc. vm_compute. reflexivity.
Defined.

(** * More of the program: the console, the session, the menus, the files *)

(** ** Reading from the console *)

(** X1 ([readString]): blank lines are each answered with the error
    message and a new prompt; the first line that is not blank is
    returned, trimmed, and the lines after it are left unread. *)
Theorem read_string_skips_blank_lines {L : GoLib} (message : string)
    (blanks : list string) (line : string) (rest : list string) (w : World) :
  Forall blank blanks ->
  stdin w = blanks ++ line :: rest ->
  typed line ->
  readString message w
  = Ok (strings_TrimSpace line)
       (console rest
          (stdout w ++ blank_output message (length blanks) ++ [message]) w).
Proof.
  intros Hb Hin Ht. exact (readString_skips_blanks message blanks line rest w Hb Hin Ht).
Qed.

(** An empty line and a line of spaces, then a name with spaces around it. *)
Lemma read_string_skips_blank_lines_witness :
  readString (L := Demo.lib) "> " (Demo.start [""; "   "; "  alice "; "pw"])
  = Ok "alice"
      (console ["pw"]
         ["> "; ln "ERROR: invalid input"; "> "; ln "ERROR: invalid input"; "> "]
         (Demo.start [""; "   "; "  alice "; "pw"])).
Proof.
  apply (read_string_skips_blank_lines (L := Demo.lib) "> " [""; "   "] "  alice "
           ["pw"] (Demo.start [""; "   "; "  alice "; "pw"])).
  - repeat (apply List.Forall_cons; [vm_compute; reflexivity|]). apply List.Forall_nil.
  - reflexivity.
  - vm_compute. reflexivity.
Defined.

(** X2 ([readString]): whatever is typed, [readString] does not panic and
    does not return the empty string; it returns having read at least one
    line and changed nothing but the console, and it goes on asking for
    ever only once every line of the input is read. *)
Theorem read_string_never_returns_empty {L : GoLib} (message : string) (w : World) :
  match readString message w with
  | Ok s w' =>
      s <> ""
      /\ exists i o, w' = console i o w /\ length i < length (stdin w)
  | Hang w' => exists o, w' = console [] o w
  | Panic _ _ => False
  end.
Proof.
  pose proof (readString_outcome message w) as H.
  destruct (readString message w) as [s w'|msg w'|w']; [|exact H|exact H].
  destruct H as (i & o & Hw & Hlen & Hs). split.
  - intros ->. discriminate Hs.
  - exists i, o. split; assumption.
Qed.

(** X3 ([readAmount]): a line that is not a number and a number that is
    not greater than 0 are each answered with their error message and a
    new prompt; the first amount greater than 0 is returned. *)
Theorem read_amount_skips_refused_lines {L : GoLib} (lines : list string)
    (line : string) (rest : list string) (amount : float) (w : World) :
  Forall refused lines ->
  stdin w = lines ++ line :: rest ->
  enters line amount ->
  PrimFloat.ltb 0 amount = true ->
  readAmount w
  = Ok amount
       (console rest (stdout w ++ refused_output lines ++ ["Enter amount: "]) w).
Proof.
  intros Hr Hin He Hpos.
  exact (readAmount_skips_refused lines line rest amount w Hr Hin He
           (ltb_true_leb_false _ _ Hpos)).
Qed.

(** Not a number, a negative number and zero are refused; 12.5 is taken. *)
Lemma read_amount_skips_refused_lines_witness :
  readAmount (L := Demo.lib) (Demo.start ["abc"; "-5"; "0"; "12.5"; "x"])
  = Ok 12.5%float
      (console ["x"]
         ["Enter amount: "; ln "ERROR: invalid input, enter a valid number";
          "Enter amount: "; ln "ERROR: invalid input, amount should be greater than 0";
          "Enter amount: "; ln "ERROR: invalid input, amount should be greater than 0";
          "Enter amount: "]
         (Demo.start ["abc"; "-5"; "0"; "12.5"; "x"])).
Proof.
  apply (read_amount_skips_refused_lines (L := Demo.lib) ["abc"; "-5"; "0"] "12.5"
           ["x"] 12.5%float (Demo.start ["abc"; "-5"; "0"; "12.5"; "x"])).
  - repeat (apply List.Forall_cons; [split; vm_compute; reflexivity|]).
    apply List.Forall_nil.
  - reflexivity.
  - split; vm_compute; reflexivity.
  - vm_compute. reflexivity.
Defined.

(** X4 ([readAmount]): whatever is typed, [readAmount] does not panic, and
    an amount it returns is never less than or equal to 0; it returns
    having read at least one line and changed nothing but the console. *)
Theorem read_amount_never_returns_nonpositive {L : GoLib} (w : World) :
  match readAmount w with
  | Ok amount w' =>
      PrimFloat.leb amount 0 = false
      /\ PrimFloat.eqb amount 0 = false
      /\ PrimFloat.ltb amount 0 = false
      /\ exists i o, w' = console i o w /\ length i < length (stdin w)
  | Hang w' => exists o, w' = console [] o w
  | Panic _ _ => False
  end.
Proof.
  pose proof (readAmount_outcome w) as H.
  destruct (readAmount w) as [amount w'|msg w'|w']; [|exact H|exact H].
  destruct H as (i & o & Hw & Hlen & Hle).
  split; [exact Hle|].
  split; [|split; [exact (leb_false_ltb_false _ _ Hle)|exists i, o; split; assumption]].
  revert Hle. rewrite FloatAxioms.leb_spec, FloatAxioms.eqb_spec.
  unfold SpecFloat.SFleb, SpecFloat.SFeqb.
  destruct (SpecFloat.SFcompare (Prim2SF amount) (Prim2SF 0)) as [[| |]|];
    intros H; first [reflexivity | discriminate H].
Qed.

(** ** Deposits *)

(** X5 ([depositCash]): a deposit of an amount greater than 0 on the
    session account is made: the new balance is the [float64] sum of the
    balance and the amount, one credit record closing at the new balance is
    put in front of the history, and the name, the username, the password
    and the time of the last login stay as they are. *)
Theorem deposit_adds_and_records {L : GoLib} (w : World) (line : string)
    (rest : list string) (amount : float) (l : nat) (a : Account) :
  stdin w = line :: rest ->
  enters line amount ->
  PrimFloat.ltb 0 amount = true ->
  currentAccount w = Some l ->
  heap w !! l = Some a ->
  depositCash w
  = Ok tt (mkWorld
             (<[l := mkAccount (FullName a) (Username a) (Password a)
                       (PrimFloat.add (Balance a) amount) (LastLogin a)
                       (mkTransaction (clock w (ticks w)) "" amount
                          (PrimFloat.add (Balance a) amount)
                          "credited via cash deposit" "C" :: Transactions a)]>
                (heap w))
             (bank w) (currentAccount w) (previousLastLogin w) rest
             (stdout w ++
                ["Enter amount: ";
                 ln (fmt_f2 amount ++ " successfully deposited to your account");
                 ln ("Closing balance:  " ++ fmt_v (PrimFloat.add (Balance a) amount))])
             (clock w) (S (ticks w))).
Proof.
  intros Hin [Ht Hp] Hpos Hc Ha.
  rewrite (depositCash_run w _ amount l a
             (readAmount_accepts w line rest amount Hin Ht Hp
                (ltb_true_leb_false _ _ Hpos)) Hc Ha).
  cbn [stdin stdout console]. rewrite <- app_assoc. reflexivity.
Qed.

(** alice, with 1000, deposits 250.5. *)
Lemma deposit_adds_and_records_witness :
  exists w',
    depositCash (L := Demo.lib) (Demo.type_lines ["250.5"] Demo.alice_logged_in)
    = Ok tt w'
    /\ option_map Balance (account_at w' "alice") = Some 1250.5%float
    /\ option_map (fun a => length (Transactions a)) (account_at w' "alice") = Some 1.
Proof.
  eexists. split.
  - refine (deposit_adds_and_records (L := Demo.lib)
              (Demo.type_lines ["250.5"] Demo.alice_logged_in) "250.5" [] 250.5%float 0
              (mkAccount "Alice A" "alice" "b64:sha256:pw" 1000%float 1000000000%Z [])
              _ _ _ _ _).
    + vm_compute. reflexivity.
    + split; vm_compute; reflexivity.
    + vm_compute. reflexivity.
    + vm_compute. reflexivity.
    + vm_compute. reflexivity.
  - split; vm_compute; reflexivity.
Defined.

(** X6 ([readAmount], [depositCash], [saveData]): an amount that
    [strconv.ParseFloat] reads as NaN passes the check [amount <= 0] of
    [readAmount]. The deposit is made and recorded, the balance is NaN from
    then on, and [saveData] panics on the filed account, leaving the files
    as they were. *)
Theorem deposit_of_nan_is_accepted {L : GoLib} {J : GoJSON} (p : Process)
    (line : string) (rest : list string) (k : string) (l : nat) (a : Account) :
  stdin (world p) = line :: rest ->
  enters line PrimFloat.nan ->
  currentAccount (world p) = Some l ->
  bank (world p) !! k = Some l ->
  heap (world p) !! l = Some a ->
  exists w' a',
    depositCash (world p) = Ok tt w'
    /\ account_at w' k = Some a'
    /\ Balance a' = PrimFloat.nan
    /\ Transactions a'
       = mkTransaction (clock (world p) (ticks (world p))) "" PrimFloat.nan
           PrimFloat.nan "credited via cash deposit" "C" :: Transactions a
    /\ exists msg p',
         saveData (mkProcess w' (disk p)) = Panics msg p' /\ disk p' = disk p.
Proof.
  intros Hin [Ht Hp] Hc Hk Ha.
  assert (Hle : PrimFloat.leb PrimFloat.nan 0 = false).
  { rewrite FloatAxioms.leb_spec. reflexivity. }
  pose proof (depositCash_run (world p) _ PrimFloat.nan l a
                (readAmount_accepts (world p) line rest _ Hin Ht Hp Hle) Hc Ha) as Hrun.
  set (a' := deposited (clock (world p) (ticks (world p))) PrimFloat.nan a).
  assert (Hl : (<[l := a']> (heap (world p))) !! l = Some a').
  { exact (lookup_insert_same _ l a a' Ha). }
  eexists _, a'. split; [exact Hrun|].
  split; [unfold account_at; cbn [bank heap]; rewrite Hk; exact Hl|].
  split; [unfold a', deposited; cbn; apply add_nan|].
  split; [unfold a', deposited; cbn; rewrite add_nan; reflexivity|].
  match type of Hrun with _ = Ok tt ?w1 =>
    destruct (saveData_not_finite (mkProcess w1 (disk p)) k l a') as (msg & p' & Hs & Hd)
  end.
  - exact Hk.
  - exact Hl.
  - unfold a', deposited. cbn. rewrite add_nan. reflexivity.
  - exists msg, p'. split; [exact Hs | exact Hd].
Qed.

(** alice deposits NaN. *)
Lemma deposit_of_nan_is_accepted_witness :
  exists w' a',
    depositCash (L := Demo.lib) (Demo.type_lines ["NaN"] Demo.alice_logged_in)
    = Ok tt w'
    /\ account_at w' "alice" = Some a'
    /\ PrimFloat.is_nan (Balance a') = true
    /\ exists msg p',
         saveData (L := Demo.lib) (J := Demo.json) (mkProcess w' (mkDisk None true))
         = Panics msg p'
         /\ disk p' = mkDisk None true.
Proof.
  destruct (deposit_of_nan_is_accepted (L := Demo.lib) (J := Demo.json)
              (mkProcess (Demo.type_lines ["NaN"] Demo.alice_logged_in)
                 (mkDisk None true))
              "NaN" [] "alice" 0
              (mkAccount "Alice A" "alice" "b64:sha256:pw" 1000%float 1000000000%Z []))
    as (w' & a' & Hrun & Hacc & Hbal & _ & Hsave).
  - vm_compute. reflexivity.
  - split; vm_compute; reflexivity.
  - vm_compute. reflexivity.
  - vm_compute. reflexivity.
  - vm_compute. reflexivity.
  - exists w', a'. split; [exact Hrun|]. split; [exact Hacc|].
    split; [rewrite Hbal; reflexivity | exact Hsave].
Defined.

(** ** Logging in and deleting the account *)

(** X7 ([login], [accountLoop]): a username that is not filed ends
    [login] with the error [user not found] as soon as it is typed: no
    password is asked, no session is opened and nothing but the console
    changes; [accountLoop] reports the error and returns to the main
    menu. *)
Theorem login_of_unknown_user {L : GoLib} {J : GoJSON} (w : World)
    (uline : string) (rest : list string) :
  stdin w = uline :: rest ->
  typed uline ->
  bank w !! strings_TrimSpace uline = None ->
  login w
  = Ok (Some "user not found") (console rest (stdout w ++ ["Enter username: "]) w)
  /\ accountLoop w
     = Ok tt (console rest
                (stdout w ++ ["Enter username: "; ln "ERROR:  user not found"]) w).
Proof.
  intros Hin Ht Hb. pose proof (login_unknown w uline rest Hin Ht Hb) as Hl.
  split; [exact Hl|].
  unfold accountLoop. rewrite (bind_step _ _ _ _ _ Hl).
  unfold fmt_Println, fmt_Print. cbn [stdout console]. unfold set_stdout, console.
  cbn [heap bank currentAccount previousLastLogin stdin stdout clock ticks].
  rewrite <- app_assoc. reflexivity.
Qed.

(** carol has no account. *)
Lemma login_of_unknown_user_witness :
  login (L := Demo.lib) (Demo.type_lines ["carol"; "pw"] Demo.alice_created)
  = Ok (Some "user not found")
      (console ["pw"]
         (stdout (Demo.type_lines ["carol"; "pw"] Demo.alice_created)
            ++ ["Enter username: "])
         (Demo.type_lines ["carol"; "pw"] Demo.alice_created))
  /\ accountLoop (L := Demo.lib) (J := Demo.json)
       (Demo.type_lines ["carol"; "pw"] Demo.alice_created)
     = Ok tt
         (console ["pw"]
            (stdout (Demo.type_lines ["carol"; "pw"] Demo.alice_created)
               ++ ["Enter username: "; ln "ERROR:  user not found"])
            (Demo.type_lines ["carol"; "pw"] Demo.alice_created)).
Proof.
  apply (login_of_unknown_user (L := Demo.lib) (J := Demo.json)
           (Demo.type_lines ["carol"; "pw"] Demo.alice_created) "carol" ["pw"]).
  - vm_compute. reflexivity.
  - vm_compute. reflexivity.
  - vm_compute. reflexivity.
Defined.

(** X8 ([deleteAccount], [readYesNo]): the account is deleted only after
    two confirmations. If the first answer is not [y] (or [Y], blanks
    around it aside) the second question is not asked; if the second
    answer is not [y] the deletion is given up as well. In both cases
    [deleteAccount] returns [false] and nothing but the console changes. *)
Theorem delete_account_needs_two_confirmations {L : GoLib} (w : World)
    (line1 line2 : string) (rest : list string) :
  stdin w = line1 :: line2 :: rest ->
  (yes line1 = false ->
   deleteAccount w
   = Ok false
       (console (line2 :: rest)
          (stdout w ++ ["Do you want to delete your account?: [y/N] "]) w))
  /\ (yes line1 = true -> yes line2 = false ->
      deleteAccount w
      = Ok false
          (console rest
             (stdout w ++ ["Do you want to delete your account?: [y/N] ";
                           "Are you sure you want to delete your account?: [y/N] "])
             w)).
Proof.
  intros Hin. split.
  - intros H1. exact (deleteAccount_declined w line1 (line2 :: rest) Hin H1).
  - intros H1 H2. exact (deleteAccount_declined_twice w line1 line2 rest Hin H1 H2).
Qed.

(** alice answers [yes] (which is not [y]); alice answers [ Y ] and then
    nothing. *)
Lemma delete_account_needs_two_confirmations_witness :
  deleteAccount (L := Demo.lib) (Demo.type_lines ["yes"; "y"] Demo.alice_logged_in)
  = Ok false
      (console ["y"]
         (stdout (Demo.type_lines ["yes"; "y"] Demo.alice_logged_in)
            ++ ["Do you want to delete your account?: [y/N] "])
         (Demo.type_lines ["yes"; "y"] Demo.alice_logged_in))
  /\ deleteAccount (L := Demo.lib) (Demo.type_lines [" Y "; ""] Demo.alice_logged_in)
     = Ok false
         (console []
            (stdout (Demo.type_lines [" Y "; ""] Demo.alice_logged_in)
               ++ ["Do you want to delete your account?: [y/N] ";
                   "Are you sure you want to delete your account?: [y/N] "])
            (Demo.type_lines [" Y "; ""] Demo.alice_logged_in)).
Proof.
  split.
  - apply (delete_account_needs_two_confirmations (L := Demo.lib)
             (Demo.type_lines ["yes"; "y"] Demo.alice_logged_in) "yes" "y" []).
    + vm_compute. reflexivity.
    + vm_compute. reflexivity.
  - apply (delete_account_needs_two_confirmations (L := Demo.lib)
             (Demo.type_lines [" Y "; ""] Demo.alice_logged_in) " Y " "" []).
    + vm_compute. reflexivity.
    + vm_compute. reflexivity.
    + vm_compute. reflexivity.
Defined.

(** X9 ([deleteAccount]): after two confirmations the entry of the
    session account's username is removed from the bank and
    [deleteAccount] returns [true]. Every other username is filed as
    before, no account object is changed, and [currentAccount] still
    points to the deleted account. *)
Theorem delete_account_removes_the_entry {L : GoLib} (w : World)
    (line1 line2 : string) (rest : list string) (l : nat) (a : Account) :
  stdin w = line1 :: line2 :: rest ->
  yes line1 = true ->
  yes line2 = true ->
  currentAccount w = Some l ->
  heap w !! l = Some a ->
  exists w',
    deleteAccount w = Ok true w'
    /\ bank w' = delete (Username a) (bank w)
    /\ account_at w' (Username a) = None
    /\ (forall k, k <> Username a -> account_at w' k = account_at w k)
    /\ heap w' = heap w
    /\ currentAccount w' = Some l
    /\ stdin w' = rest.
Proof.
  intros Hin H1 H2 Hc Ha.
  eexists. split; [exact (deleteAccount_confirmed w line1 line2 rest l a Hin H1 H2 Hc Ha)|].
  cbn [bank heap currentAccount stdin]. split; [reflexivity|].
  split; [unfold account_at; cbn [bank]; rewrite lookup_delete_eq; reflexivity|].
  split; [|split; [reflexivity|split; [exact Hc|reflexivity]]].
  intros k Hk. unfold account_at. cbn [bank heap].
  rewrite lookup_delete_ne by congruence. reflexivity.
Qed.

(** alice deletes her account; bob's stays. *)
Lemma delete_account_removes_the_entry_witness :
  exists w',
    deleteAccount (L := Demo.lib) (Demo.type_lines ["y"; "Y"] Demo.alice_logged_in)
    = Ok true w'
    /\ account_at w' "alice" = None
    /\ account_at w' "bob" = account_at Demo.alice_logged_in "bob"
    /\ currentAccount w' = Some 0.
Proof.
  destruct (delete_account_removes_the_entry (L := Demo.lib)
              (Demo.type_lines ["y"; "Y"] Demo.alice_logged_in) "y" "Y" [] 0
              (mkAccount "Alice A" "alice" "b64:sha256:pw" 1000%float 1000000000%Z []))
    as (w' & Hrun & _ & Hnone & Hother & _ & Hcur & _).
  - vm_compute. reflexivity.
  - vm_compute. reflexivity.
  - vm_compute. reflexivity.
  - vm_compute. reflexivity.
  - vm_compute. reflexivity.
  - exists w'. split; [exact Hrun|]. split; [exact Hnone|].
    split; [|exact Hcur].
    rewrite (Hother "bob") by discriminate. vm_compute. reflexivity.
Defined.

(** X10 ([deleteAccount], [login]): once the account is deleted, a login
    under its username fails with [user not found]. *)
Theorem deleted_account_cannot_log_in {L : GoLib} (w : World)
    (line1 line2 uline : string) (rest : list string) (l : nat) (a : Account) :
  stdin w = line1 :: line2 :: uline :: rest ->
  yes line1 = true ->
  yes line2 = true ->
  currentAccount w = Some l ->
  heap w !! l = Some a ->
  typed uline ->
  strings_TrimSpace uline = Username a ->
  exists w',
    deleteAccount w = Ok true w'
    /\ login w'
       = Ok (Some "user not found")
           (console rest (stdout w' ++ ["Enter username: "]) w').
Proof.
  intros Hin H1 H2 Hc Ha Ht Hu.
  eexists. split; [exact (deleteAccount_confirmed w _ _ _ l a Hin H1 H2 Hc Ha)|].
  apply (login_unknown _ uline rest).
  - reflexivity.
  - exact Ht.
  - cbn [bank]. rewrite Hu. apply lookup_delete_eq.
Qed.

(** alice deletes her account and tries to log in. *)
Lemma deleted_account_cannot_log_in_witness :
  exists w',
    deleteAccount (L := Demo.lib)
      (Demo.type_lines ["y"; "y"; "alice"; "pw"] Demo.alice_logged_in)
    = Ok true w'
    /\ login (L := Demo.lib) w'
       = Ok (Some "user not found")
           (console ["pw"] (stdout w' ++ ["Enter username: "]) w').
Proof.
  apply (deleted_account_cannot_log_in (L := Demo.lib)
           (Demo.type_lines ["y"; "y"; "alice"; "pw"] Demo.alice_logged_in)
           "y" "y" "alice" ["pw"] 0
           (mkAccount "Alice A" "alice" "b64:sha256:pw" 1000%float 1000000000%Z [])).
  - vm_compute. reflexivity.
  - vm_compute. reflexivity.
  - vm_compute. reflexivity.
  - vm_compute. reflexivity.
  - vm_compute. reflexivity.
  - vm_compute. reflexivity.
  - vm_compute. reflexivity.
Defined.

(** ** What every run keeps *)

(** X11 (the six commands): after any sequence of commands, however each
    of them ends, every username of the bank leads to an allocated account
    that carries this username, and the store invariant (balances agree
    with histories, pointers are allocated, accounts are filed under their
    own usernames) holds again. *)
Theorem commands_keep_accounts_filed {L : GoLib} (cs : list Command) (w : World) :
  store_invariant w ->
  store_invariant (execute_all cs w)
  /\ forall k l,
       bank (execute_all cs w) !! k = Some l ->
       exists a, heap (execute_all cs w) !! l = Some a /\ Username a = k.
Proof.
  intros H. pose proof (execute_all_store_invariant cs w H) as H'.
  split; [exact H'|].
  destruct H' as (_ & Hp & Hf). intros k l Hk.
  destruct (lookup_lt_is_Some_2 _ _ (Hp k l Hk)) as [a Ha].
  exists a. split; [exact Ha | exact (Hf k l a Hk Ha)].
Qed.

(** From the empty store: two accounts, a login, a transfer, a deletion,
    a new account under the deleted name. *)
Lemma commands_keep_accounts_filed_witness :
  store_invariant
    (execute_all (L := Demo.lib)
       [CreateAccount; CreateAccount; Login; TransferMoney; DeleteAccount;
        CreateAccount]
       (Demo.start ["alice"; "Alice A"; "pw"; "pw";
                    "bob"; "Bob B"; "secret"; "secret";
                    "alice"; "pw"; "bob"; "100"; "y"; "y";
                    "alice"; "Alice Again"; "pw2"; "pw2"]))
  /\ forall k l,
       bank (execute_all (L := Demo.lib)
               [CreateAccount; CreateAccount; Login; TransferMoney; DeleteAccount;
                CreateAccount]
               (Demo.start ["alice"; "Alice A"; "pw"; "pw";
                            "bob"; "Bob B"; "secret"; "secret";
                            "alice"; "pw"; "bob"; "100"; "y"; "y";
                            "alice"; "Alice Again"; "pw2"; "pw2"])) !! k = Some l ->
       exists a,
         heap (execute_all (L := Demo.lib)
                 [CreateAccount; CreateAccount; Login; TransferMoney; DeleteAccount;
                  CreateAccount]
                 (Demo.start ["alice"; "Alice A"; "pw"; "pw";
                              "bob"; "Bob B"; "secret"; "secret";
                              "alice"; "pw"; "bob"; "100"; "y"; "y";
                              "alice"; "Alice Again"; "pw2"; "pw2"])) !! l = Some a
         /\ Username a = k.
Proof.
  apply (commands_keep_accounts_filed (L := Demo.lib)).
  apply store_invariant_empty; reflexivity.
Defined.

(** X12 ([accountLoop], [main]'s loop): whatever is typed at the menus and
    however the run ends (exit, panic or end of the input), the store
    invariant holds in the world that is left: showing the account,
    listing transactions and every choice of the two menus keep it. *)
Theorem menus_keep_the_store_invariant {L : GoLib} {J : GoJSON} (fuel : nat)
    (p : Process) :
  store_invariant (world p) ->
  store_invariant (world (process_of (main_loop fuel p)))
  /\ store_invariant (final (accountLoop (world p))).
Proof.
  intros H. split.
  - exact (main_loop_invariant fuel p H).
  - exact (preserves_accountLoop (world p) H).
Qed.

(** A session at the menus: a new account, a login, the account shown, a
    deposit, the transactions listed, a wrong choice, logout and exit. *)
Lemma menus_keep_the_store_invariant_witness :
  store_invariant
    (world (process_of
       (main_loop (L := Demo.lib) (J := Demo.json) 20
          (mkProcess
             (Demo.start ["2"; "alice"; "Alice A"; "pw"; "pw"; "1"; "alice"; "pw";
                          "1"; "3"; "250"; "2"; "9"; "7"; "3"])
             (mkDisk None true)))))
  /\ store_invariant
       (final (accountLoop (L := Demo.lib) (J := Demo.json)
          (world (mkProcess
             (Demo.start ["2"; "alice"; "Alice A"; "pw"; "pw"; "1"; "alice"; "pw";
                          "1"; "3"; "250"; "2"; "9"; "7"; "3"])
             (mkDisk None true))))).
Proof.
  apply (menus_keep_the_store_invariant (L := Demo.lib) (J := Demo.json)).
  apply store_invariant_empty; reflexivity.
Defined.

(** X13 (the six commands): no command takes a record out of a history
    or rewrites one, and none changes the username, the full name or the
    password of an account: after any sequence of commands every account
    object is still allocated, with the same identity and a history that
    has only grown at the front. *)
Theorem histories_only_grow {L : GoLib} (cs : list Command) (w : World)
    (l : nat) (a : Account) :
  heap w !! l = Some a ->
  exists a' new,
    heap (execute_all cs w) !! l = Some a'
    /\ Username a' = Username a
    /\ FullName a' = FullName a
    /\ Password a' = Password a
    /\ Transactions a' = new ++ Transactions a.
Proof.
  intros Ha.
  destruct (execute_all_later_heap cs w l a Ha) as (a' & Ha' & Hu & Hf & Hp & new & Ht).
  exists a', new. repeat split; assumption.
Qed.

(** alice deposits, withdraws and sends money to bob: her account object
    keeps its identity, and bob's as well. *)
Lemma histories_only_grow_witness :
  exists a' new,
    heap (execute_all (L := Demo.lib) [DepositCash; WithdrawCash; TransferMoney]
            (Demo.type_lines ["200"; "50"; "bob"; "100"] Demo.alice_logged_in))
      !! 1 = Some a'
    /\ Username a' = Username (mkAccount "Bob B" "bob" "b64:sha256:secret" 1000%float 0%Z [])
    /\ FullName a' = FullName (mkAccount "Bob B" "bob" "b64:sha256:secret" 1000%float 0%Z [])
    /\ Password a' = Password (mkAccount "Bob B" "bob" "b64:sha256:secret" 1000%float 0%Z [])
    /\ Transactions a'
       = new ++ Transactions (mkAccount "Bob B" "bob" "b64:sha256:secret" 1000%float 0%Z []).
Proof.
  apply (histories_only_grow (L := Demo.lib) [DepositCash; WithdrawCash; TransferMoney]
           (Demo.type_lines ["200"; "50"; "bob"; "100"] Demo.alice_logged_in) 1).
  vm_compute. reflexivity.
Defined.

(** ** Showing the account *)

(** X14 ([listTransactions]): from index 0 the records are written most
    recent first, all of them when [end] is 0 and the first [end] of them
    otherwise; an [end] beyond the length of the history is not an error,
    the loop stops at the last record. Nothing but the console changes. *)
Theorem list_transactions_from_the_start {J : GoJSON} (w : World)
    (end_ : Z) (l : nat) (a : Account) :
  currentAccount w = Some l ->
  heap w !! l = Some a ->
  (0 <= end_)%Z ->
  listTransactions 0 end_ w
  = Ok tt (console (stdin w)
             (stdout w ++
                map (fun t => ln (fmt_Transaction t))
                  (if (end_ =? 0)%Z then Transactions a
                   else take (Z.to_nat end_) (Transactions a))) w).
Proof.
  intros Hc Ha He. exact (listTransactions_from_start w end_ l a Hc Ha He).
Qed.

(** alice has deposited and withdrawn: asked for five records, the two
    she has are written, the withdrawal first. *)
Lemma list_transactions_from_the_start_witness :
  listTransactions (J := Demo.json) 0 5
    (execute_all (L := Demo.lib) [DepositCash; WithdrawCash]
       (Demo.type_lines ["200"; "50"] Demo.alice_logged_in))
  = Ok tt
      (console []
         (stdout (execute_all (L := Demo.lib) [DepositCash; WithdrawCash]
                    (Demo.type_lines ["200"; "50"] Demo.alice_logged_in))
            ++ [ln "{debited via cash withdrawal}"; ln "{credited via cash deposit}"])
         (execute_all (L := Demo.lib) [DepositCash; WithdrawCash]
            (Demo.type_lines ["200"; "50"] Demo.alice_logged_in))).
Proof.
  let r := eval vm_compute in
      (heap (execute_all (L := Demo.lib) [DepositCash; WithdrawCash]
               (Demo.type_lines ["200"; "50"] Demo.alice_logged_in)) !! 0) in
  match r with
  | Some ?a =>
      rewrite (list_transactions_from_the_start (J := Demo.json)
                 (execute_all (L := Demo.lib) [DepositCash; WithdrawCash]
                    (Demo.type_lines ["200"; "50"] Demo.alice_logged_in)) 5 0 a)
  end.
  - vm_compute. reflexivity.
  - vm_compute. reflexivity.
  - vm_compute. reflexivity.
  - lia.
Defined.

(** X15 ([listTransactions]): a start below 0 or beyond the length of
    the history, with an end above it, is an index out of range: the
    function panics before it writes anything. *)
Theorem list_transactions_out_of_range {J : GoJSON} (w : World)
    (start end_ : Z) (l : nat) (a : Account) :
  currentAccount w = Some l ->
  heap w !! l = Some a ->
  (start < end_)%Z ->
  (start < 0 \/ Z.of_nat (length (Transactions a)) < start)%Z ->
  listTransactions start end_ w = Panic index_out_of_range w.
Proof.
  intros Hc Ha Hlt Hout. exact (listTransactions_out_of_range w start end_ l a Hc Ha Hlt Hout).
Qed.

(** alice has no transaction: records 1 to 2 are out of range. *)
Lemma list_transactions_out_of_range_witness :
  listTransactions (J := Demo.json) 1 2 Demo.alice_logged_in
  = Panic index_out_of_range Demo.alice_logged_in.
Proof.
  apply (list_transactions_out_of_range (J := Demo.json)
           Demo.alice_logged_in 1 2 0
           (mkAccount "Alice A" "alice" "b64:sha256:pw" 1000%float 1000000000%Z [])).
  - vm_compute. reflexivity.
  - vm_compute. reflexivity.
  - lia.
  - right. cbn. lia.
Defined.

(** X16 ([checkAccountInfo]): with a session open, the name, the
    username and the balance are written, the time of the previous login
    only if there was one (it is not the zero time), and then at most the
    five most recent records, most recent first. Nothing but the console
    changes and nothing is read. *)
Theorem check_account_info_shows_five_records {L : GoLib} {J : GoJSON} (w : World)
    (l : nat) (a : Account) :
  currentAccount w = Some l ->
  heap w !! l = Some a ->
  checkAccountInfo w
  = Ok tt
      (console (stdin w)
         (stdout w
            ++ [ln ("Name:  " ++ FullName a);
                ln ("Username:  " ++ Username a);
                ln ("Current account balance:  " ++ fmt_v (Balance a))]
            ++ (if IsZero (previousLastLogin w) then []
                else [ln ("Last login:  " ++ time_Format (previousLastLogin w))])
            ++ [ln "Last 5 transactions: "]
            ++ map (fun t => ln (fmt_Transaction t)) (take 5 (Transactions a)))
         w).
Proof.
  intros Hc Ha. exact (checkAccountInfo_run w l a Hc Ha).
Qed.

(** alice, at her first login, has made six deposits: no line for a last
    login, and five of the six records. *)
Lemma check_account_info_shows_five_records_witness :
  exists o,
    checkAccountInfo (L := Demo.lib) (J := Demo.json)
      (execute_all (L := Demo.lib)
         [DepositCash; DepositCash; DepositCash; DepositCash; DepositCash; DepositCash]
         (Demo.type_lines ["1"; "2"; "3"; "4"; "5"; "6"] Demo.alice_logged_in))
    = Ok tt
        (console [] o
           (execute_all (L := Demo.lib)
              [DepositCash; DepositCash; DepositCash; DepositCash; DepositCash;
               DepositCash]
              (Demo.type_lines ["1"; "2"; "3"; "4"; "5"; "6"] Demo.alice_logged_in)))
    /\ drop (length o - 6) o
       = [ln "Last 5 transactions: ";
          ln "{credited via cash deposit}"; ln "{credited via cash deposit}";
          ln "{credited via cash deposit}"; ln "{credited via cash deposit}";
          ln "{credited via cash deposit}"]
    /\ Forall (fun s => String.prefix "Last login" s = false) o.
Proof.
  eexists.
  let r := eval vm_compute in
      (heap (execute_all (L := Demo.lib)
               [DepositCash; DepositCash; DepositCash; DepositCash; DepositCash;
                DepositCash]
               (Demo.type_lines ["1"; "2"; "3"; "4"; "5"; "6"] Demo.alice_logged_in))
         !! 0) in
  match r with
  | Some ?a =>
      rewrite (check_account_info_shows_five_records (L := Demo.lib) (J := Demo.json)
                 (execute_all (L := Demo.lib)
                    [DepositCash; DepositCash; DepositCash; DepositCash; DepositCash;
                     DepositCash]
                    (Demo.type_lines ["1"; "2"; "3"; "4"; "5"; "6"]
                       Demo.alice_logged_in)) 0 a)
  end.
  - split; [vm_compute; reflexivity|]. split; [vm_compute; reflexivity|].
    vm_compute. repeat (apply List.Forall_cons; [reflexivity|]). apply List.Forall_nil.
  - vm_compute. reflexivity.
  - vm_compute. reflexivity.
Defined.

(** ** The files *)

(** X17 ([saveData], [main]): if an account of the bank holds a number
    that is not finite -- its balance, or the amount or the closing
    balance of one of its records -- nothing is written: [saveData]
    prints the error and panics, [db.json] and the lock are as they were,
    and the store is untouched. Choosing [3] at the main menu then ends in
    this panic instead of the exit. *)
Theorem save_refuses_numbers_that_are_not_finite {L : GoLib} {J : GoJSON}
    (p : Process) (k : string) (l : nat) (a : Account) :
  bank (world p) !! k = Some l ->
  heap (world p) !! l = Some a ->
  numbers_finite a = false ->
  (exists msg p',
      saveData p = Panics msg p'
      /\ disk p' = disk p
      /\ heap (world p') = heap (world p)
      /\ bank (world p') = bank (world p)
      /\ stdout (world p') = stdout (world p) ++ [ln msg])
  /\ forall fuel line rest,
       stdin (world p) = line :: rest ->
       strings_TrimSpace line = "3" ->
       exists msg p', main_loop (S fuel) p = Panics msg p' /\ disk p' = disk p.
Proof.
  intros Hk Ha Hf. split.
  - destruct (saveData_numbers_not_finite p k l a Hk Ha Hf) as (msg & Hs).
    exists msg, (println msg p). repeat split; try reflexivity. exact Hs.
  - intros fuel line rest Hin Ht.
    rewrite (main_loop_exit fuel p line rest Hin Ht).
    destruct (saveData_numbers_not_finite
                (mkProcess (console rest (stdout (world p) ++ ["> "]) (world p)) (disk p))
                k l a Hk Ha Hf) as (msg & Hs).
    rewrite Hs. eexists _, _. split; reflexivity.
Qed.

(** alice deposits [Inf] and withdraws [Inf]: her balance is NaN, and so
    is the closing balance of her last record. *)
Lemma save_refuses_numbers_that_are_not_finite_witness :
  (exists msg p',
      saveData (L := Demo.lib) (J := Demo.json)
        (mkProcess
           (Demo.type_lines ["3"]
              (execute_all (L := Demo.lib) [DepositCash; WithdrawCash]
                 (Demo.type_lines ["Inf"; "Inf"] Demo.alice_logged_in)))
           (mkDisk None true))
      = Panics msg p'
      /\ disk p' = mkDisk None true)
  /\ exists msg p',
       main_loop (L := Demo.lib) (J := Demo.json) 1
         (mkProcess
            (Demo.type_lines ["3"]
               (execute_all (L := Demo.lib) [DepositCash; WithdrawCash]
                  (Demo.type_lines ["Inf"; "Inf"] Demo.alice_logged_in)))
            (mkDisk None true))
       = Panics msg p'
       /\ disk p' = mkDisk None true.
Proof.
  let r := eval vm_compute in
      (heap (execute_all (L := Demo.lib) [DepositCash; WithdrawCash]
               (Demo.type_lines ["Inf"; "Inf"] Demo.alice_logged_in)) !! 0) in
  match r with
  | Some ?a =>
      destruct (save_refuses_numbers_that_are_not_finite (L := Demo.lib) (J := Demo.json)
                  (mkProcess
                     (Demo.type_lines ["3"]
                        (execute_all (L := Demo.lib) [DepositCash; WithdrawCash]
                           (Demo.type_lines ["Inf"; "Inf"] Demo.alice_logged_in)))
                     (mkDisk None true))
                  "alice" 0 a)
        as [(msg & p' & Hs & Hd & _) Hmain]
  end.
  - vm_compute. reflexivity.
  - vm_compute. reflexivity.
  - vm_compute. reflexivity.
  - split.
    + exists msg, p'. split; [exact Hs | exact Hd].
    + apply (Hmain 0 "3" []).
      * vm_compute. reflexivity.
      * vm_compute. reflexivity.
Defined.

(** X18 ([loadData], [saveData], [main]): the lock keeps a second
    instance out. [loadData] on files without a lock makes the lock and
    leaves [db.json] as it is; against these files every other start panics
    at once with the message of the lock, having touched nothing; and after
    a [saveData] that returns the lock is gone and [loadData] goes through
    again. *)
Theorem lock_refuses_a_second_instance {L : GoLib} {J : GoJSON} (p : Process) :
  db_json_lock (disk p) = false ->
  exists p1,
    loadData p = Continues p1
    /\ disk p1 = mkDisk (db_json (disk p)) true
    /\ (forall w,
          loadData (mkProcess w (disk p1)) = Panics lock_present (mkProcess w (disk p1))
          /\ main (mkProcess w (disk p1)) = Panics lock_present (mkProcess w (disk p1)))
    /\ forall q q' w,
         saveData q = Continues q' ->
         db_json_lock (disk q') = false
         /\ exists q'', loadData (mkProcess w (disk q')) = Continues q''.
Proof.
  intros H. destruct (loadData_unlocked p H) as (p1 & Hl & Hd & _).
  exists p1. split; [exact Hl|]. split; [exact Hd|]. split.
  - intros w.
    assert (Hp : loadData (mkProcess w (disk p1))
                 = Panics lock_present (mkProcess w (disk p1))).
    { apply loadData_locked. cbn [disk]. rewrite Hd. reflexivity. }
    split; [exact Hp|]. unfold main. rewrite Hp. reflexivity.
  - intros q q' w Hs. unfold saveData in Hs.
    destruct (json_MarshalIndent (world q)) as [data|err]; [|discriminate Hs].
    injection Hs as <-. split; [reflexivity|].
    destruct (loadData_unlocked (mkProcess w (mkDisk (Some data) false)) eq_refl)
      as (q'' & Hq & _).
    exists q''. exact Hq.
Qed.

(** The first start, without files. *)
Lemma lock_refuses_a_second_instance_witness :
  exists p1,
    loadData (J := Demo.json) (mkProcess (Demo.start []) (mkDisk None false))
    = Continues p1
    /\ disk p1 = mkDisk None true
    /\ main (L := Demo.lib) (J := Demo.json) (mkProcess (Demo.start ["3"]) (disk p1))
       = Panics lock_present (mkProcess (Demo.start ["3"]) (disk p1)).
Proof.
  destruct (lock_refuses_a_second_instance (L := Demo.lib) (J := Demo.json)
              (mkProcess (Demo.start []) (mkDisk None false)))
    as (p1 & Hl & Hd & Hsecond & _).
  - reflexivity.
  - exists p1. split; [exact Hl|]. split; [exact Hd|].
    exact (proj2 (Hsecond (Demo.start ["3"]))).
Defined.

(** X19 ([main], [saveData]): choosing [3] at the main menu with a store
    that JSON holds ends the program with exit code 0: [db.json] then
    holds a document that reads back as the accounts of the bank, in the
    order of their usernames, the lock is removed, and the store itself
    is untouched. *)
Theorem exit_saves_and_releases_the_lock {L : GoLib} {J : GoJSON} (fuel : nat)
    (p : Process) (line : string) (rest : list string) :
  stdin (world p) = line :: rest ->
  strings_TrimSpace line = "3" ->
  pointers_valid (world p) ->
  (forall k a, account_at (world p) k = Some a ->
     storable_Account a = true /\ string_ok k = true) ->
  exists doc accts,
    main_loop (S fuel) p
    = Exits 0 (mkProcess (console rest (stdout (world p) ++ ["> "]) (world p))
                 (mkDisk (Some doc) false))
    /\ json_Decode doc = Some accts
    /\ pointed (world p) (sorted_entries (world p)) accts.
Proof.
  intros Hin Ht Hp Hok.
  rewrite (main_loop_exit fuel p line rest Hin Ht).
  destruct (save_decodes
              (mkProcess (console rest (stdout (world p) ++ ["> "]) (world p)) (disk p))
              Hp Hok) as (doc & accts & Hs & Hd & Hpt).
  exists doc, accts. rewrite Hs. split; [reflexivity|]. split; [exact Hd | exact Hpt].
Qed.

(** alice has opened an account and leaves. *)
Lemma exit_saves_and_releases_the_lock_witness :
  exists doc accts,
    main_loop (L := Demo.lib) (J := Demo.json) 1
      (mkProcess (Demo.type_lines [" 3 "] Demo.alice_created) (mkDisk None true))
    = Exits 0
        (mkProcess
           (console []
              (stdout (world (mkProcess (Demo.type_lines [" 3 "] Demo.alice_created)
                                (mkDisk None true))) ++ ["> "])
              (world (mkProcess (Demo.type_lines [" 3 "] Demo.alice_created)
                        (mkDisk None true))))
           (mkDisk (Some doc) false))
    /\ json_Decode (J := Demo.json) doc = Some accts
    /\ pointed (world (mkProcess (Demo.type_lines [" 3 "] Demo.alice_created)
                         (mkDisk None true)))
         (sorted_entries (world (mkProcess (Demo.type_lines [" 3 "] Demo.alice_created)
                                   (mkDisk None true))))
         accts.
Proof.
  assert (E : bank (Demo.type_lines [" 3 "] Demo.alice_created) = <["alice" := 0]> ∅)
    by (vm_compute; reflexivity).
  apply (exit_saves_and_releases_the_lock (L := Demo.lib) (J := Demo.json) 0
           (mkProcess (Demo.type_lines [" 3 "] Demo.alice_created) (mkDisk None true))
           " 3 " []).
  - vm_compute. reflexivity.
  - vm_compute. reflexivity.
  - intros k l Hk. cbn [world] in Hk. rewrite E in Hk.
    apply lookup_insert_Some in Hk as [(_ & <-)|(_ & Hk)].
    + vm_compute. lia.
    + rewrite lookup_empty in Hk. discriminate.
  - intros k a Hk. cbn [world] in Hk. unfold account_at in Hk. rewrite E in Hk.
    destruct (decide (k = "alice")) as [->|Hne].
    + rewrite lookup_insert_eq in Hk. vm_compute in Hk. injection Hk as <-.
      split; vm_compute; reflexivity.
    + rewrite lookup_insert_ne, lookup_empty in Hk by congruence. discriminate.
Defined.

(** X20 ([saveData], [loadData], [main]): a store that satisfies the
    store invariant and that JSON holds is saved, and a new process
    started on the saved file -- whatever is typed then and however that
    run ends -- has a store that satisfies the invariant again. *)
Theorem restart_keeps_the_store_invariant {L : GoLib} {J : GoJSON} (p : Process)
    (w0 : World) :
  store_invariant (world p) ->
  (forall k a, account_at (world p) k = Some a ->
     storable_Account a = true /\ string_ok k = true) ->
  heap w0 = [] -> bank w0 = ∅ ->
  exists doc,
    saveData p = Continues (mkProcess (world p) (mkDisk (Some doc) false))
    /\ store_invariant
         (world (process_of (main (mkProcess w0 (mkDisk (Some doc) false))))).
Proof.
  intros Hinv Hok Hh Hb.
  destruct (save_decodes p (proj1 (proj2 Hinv)) Hok) as (doc & accts & Hs & Hd & Hpt).
  exists doc. split; [exact Hs|].
  apply main_invariant.
  - apply store_invariant_empty; assumption.
  - exact (saved_file_in_order p doc accts Hinv Hd Hpt).
Qed.

(** alice has opened an account; the program is left and started again:
    alice logs in, deposits and leaves. *)
Lemma restart_keeps_the_store_invariant_witness :
  exists doc,
    saveData (L := Demo.lib) (J := Demo.json)
      (mkProcess Demo.alice_created (mkDisk None true))
    = Continues (mkProcess (world (mkProcess Demo.alice_created (mkDisk None true)))
                   (mkDisk (Some doc) false))
    /\ store_invariant
         (world (process_of
            (main (L := Demo.lib) (J := Demo.json)
               (mkProcess (Demo.start ["1"; "alice"; "pw"; "3"; "25"; "7"; "3"])
                  (mkDisk (Some doc) false))))).
Proof.
  assert (E : bank Demo.alice_created = <["alice" := 0]> ∅)
    by (vm_compute; reflexivity).
  apply (restart_keeps_the_store_invariant (L := Demo.lib) (J := Demo.json)
           (mkProcess Demo.alice_created (mkDisk None true))
           (Demo.start ["1"; "alice"; "pw"; "3"; "25"; "7"; "3"])).
  - apply (execute_all_store_invariant (L := Demo.lib) [CreateAccount]).
    apply store_invariant_empty; reflexivity.
  - intros k a Hk. cbn [world] in Hk. unfold account_at in Hk. rewrite E in Hk.
    destruct (decide (k = "alice")) as [->|Hne].
    + rewrite lookup_insert_eq in Hk. vm_compute in Hk. injection Hk as <-.
      split; vm_compute; reflexivity.
    + rewrite lookup_insert_ne, lookup_empty in Hk by congruence. discriminate.
  - reflexivity.
  - reflexivity.
Defined.

(** ** Opening an account and logging in *)

(** X21 ([createAccount], [login], [hash]): an account that has just been
    opened can be logged into with the password it was opened with, typed
    with or without blanks around it: the session is on the new account,
    which holds the digest of the password, the joining bonus and no
    record, and there is no previous login to show. *)
Theorem new_account_can_log_in {L : GoLib} (w : World)
    (uline fline p1 p2 uline' pline : string) (rest : list string) :
  stdin w = uline :: fline :: p1 :: p2 :: uline' :: pline :: rest ->
  typed uline -> typed fline -> typed p1 -> typed p2 ->
  bank w !! strings_TrimSpace uline = None ->
  strings_TrimSpace p1 = strings_TrimSpace p2 ->
  strings_TrimSpace uline' = strings_TrimSpace uline ->
  strings_TrimSpace pline = strings_TrimSpace p1 ->
  exists w1 w2,
    createAccount w = Ok tt w1
    /\ login w1 = Ok None w2
    /\ currentAccount w2 = Some (length (heap w))
    /\ IsZero (previousLastLogin w2) = true
    /\ account_at w2 (strings_TrimSpace uline)
       = Some (mkAccount (strings_TrimSpace fline) (strings_TrimSpace uline)
                 (hash (strings_TrimSpace p1)) 1000%float (clock w (ticks w)) [])
    /\ stdin w2 = rest.
Proof.
  intros Hin Hu Hf Hp1 Hp2 Hb Hpp Huu Hpl.
  assert (Hu' : typed uline') by (unfold typed; rewrite Huu; exact Hu).
  assert (Hpl' : typed pline) by (unfold typed; rewrite Hpl; exact Hp1).
  assert (Heq : String.eqb (strings_TrimSpace p1) (strings_TrimSpace p2) = true)
    by (rewrite Hpp; apply String.eqb_refl).
  pose proof (createAccount_run w uline fline p1 p2 [] (uline' :: pline :: rest)
                Hin Hu Hb Hf (List.Forall_nil _) Hp1 Hp2 Heq) as Hc.
  eexists _, _. split; [exact Hc|].
  set (a := mkAccount (strings_TrimSpace fline) (strings_TrimSpace uline)
              (hash (strings_TrimSpace p1)) joining_bonus 0%Z []) in *.
  assert (Hr : right_password a pline).
  { split; [exact Hpl'|]. cbn [Password a]. rewrite Hpl. apply String.eqb_refl. }
  match type of Hc with _ = Ok tt ?w1 =>
    pose proof (login_run w1 uline' pline [] rest (length (heap w)) a) as Hl
  end.
  cbn [stdin bank heap app] in Hl. rewrite Huu in Hl.
  specialize (Hl eq_refl Hu' (lookup_insert_eq _ _ _) (lookup_new _ _)
                (List.Forall_nil _) (Nat.le_0_l _) Hr).
  split; [exact Hl|].
  cbn [currentAccount previousLastLogin stdin]. split; [reflexivity|].
  split; [reflexivity|]. split; [|reflexivity].
  unfold account_at. cbn [bank heap]. rewrite lookup_insert_eq, insert_new.
  rewrite lookup_new. reflexivity.
Qed.

(** bob opens an account and logs in. *)
Lemma new_account_can_log_in_witness :
  exists w1 w2,
    createAccount (L := Demo.lib)
      (Demo.type_lines ["bob"; "Bob B"; "secret"; "secret"; " bob "; "secret "; "x"]
         Demo.alice_created)
    = Ok tt w1
    /\ login (L := Demo.lib) w1 = Ok None w2
    /\ currentAccount w2 = Some 1
    /\ option_map Balance (account_at w2 "bob") = Some 1000%float.
Proof.
  destruct (new_account_can_log_in (L := Demo.lib)
              (Demo.type_lines
                 ["bob"; "Bob B"; "secret"; "secret"; " bob "; "secret "; "x"]
                 Demo.alice_created)
              "bob" "Bob B" "secret" "secret" " bob " "secret " ["x"])
    as (w1 & w2 & Hc & Hl & Hcur & _ & Hacc & _).
  - vm_compute. reflexivity.
  - vm_compute. reflexivity.
  - vm_compute. reflexivity.
  - vm_compute. reflexivity.
  - vm_compute. reflexivity.
  - vm_compute. reflexivity.
  - vm_compute. reflexivity.
  - vm_compute. reflexivity.
  - vm_compute. reflexivity.
  - exists w1, w2. split; [exact Hc|]. split; [exact Hl|]. split.
    + rewrite Hcur. vm_compute. reflexivity.
    + change "bob" with (strings_TrimSpace (GoLib := Demo.lib) "bob") at 1.
      rewrite Hacc. reflexivity.
Defined.
